(** * The PDE complexity pipeline: [PDE-complexity/loop.py] and [PDE-complexity/scorer.py]

    A shallow embedding of the two scripts and the properties their
    specification states about them.

    - A Python float is an IEEE binary64 number: Rocq's primitive [float].
      [float(text)] is modelled down to the rounding of the decimal; the
      built-in [sum], the [pow] of the mathematical library that [**] calls
      and the exit statuses of the trainers are parameters of the pipeline.
    - A [str] is a [string]; each character stands for the code point of the
      same number (the code points below 256).
    - A row as [csv.DictReader] yields it is an insertion-ordered dictionary:
      an association list, updated in place or extended at its end.
    - [PDE.csv] is given as the rows of cells [csv.reader] splits it into;
      [results.csv] is kept as rows of cells, a number standing for its text;
      [regression.txt] is kept as the slope, the intercept and the count it
      states.
    - Exceptions are the [Raise] results of an error monad; what [main] does
      to files, console and subprocesses is threaded through a [world]. *)

From Stdlib Require Import ZArith List String Ascii Bool Lia.
From Stdlib Require Import PrimFloat SpecFloat FloatOps FloatAxioms.
Import ListNotations.

Local Open Scope string_scope.
Local Open Scope list_scope.

(** ** Exceptions and results *)

Inductive exn : Type :=
| TypeError
| ValueError
| OverflowError
| AttributeError
| FileNotFoundError
| SystemExit (status : Z)
| CalledProcessError (returncode : Z) (module : string).

Inductive result (A : Type) : Type :=
| Return (a : A)
| Raise (e : exn).

Arguments Return {A} a.
Arguments Raise {A} e.

Definition rbind {A B : Type} (r : result A) (k : A -> result B) : result B :=
  match r with
  | Return a => k a
  | Raise e => Raise e
  end.

Fixpoint map_result {A B : Type} (f : A -> result B) (l : list A) : result (list B) :=
  match l with
  | [] => Return []
  | a :: l' =>
      rbind (f a) (fun b =>
      rbind (map_result f l') (fun bs => Return (b :: bs)))
  end.

(** ** Python values and dictionaries *)

(** The values a row can hold: the cells read from the file ([VStr]), the
    filler of a short row ([VNone]), the surplus cells of a long row
    ([VList]), the numbers the pipeline stores ([VFloat]) and the integer
    default of [scorer.py] ([VInt]). *)
Inductive value : Type :=
| VNone
| VStr (s : string)
| VInt (z : Z)
| VFloat (f : float)
| VList (l : list string).

(** A column name, or [None]: the key under which [csv.DictReader] files the
    surplus cells of a row longer than the header. *)
Definition key : Type := option string.

Definition key_eqb (a b : key) : bool :=
  match a, b with
  | Some x, Some y => String.eqb x y
  | None, None => true
  | _, _ => false
  end.

Definition dict : Type := list (key * value).

Fixpoint dict_find (d : dict) (k : key) : option value :=
  match d with
  | [] => None
  | (k', v) :: d' => if key_eqb k k' then Some v else dict_find d' k
  end.

(** [d.get(k, default)] *)
Definition dict_get (d : dict) (k : key) (default : value) : value :=
  match dict_find d k with
  | Some v => v
  | None => default
  end.

(** [d[k] = v]: an existing key keeps its place, a new one goes last. *)
Fixpoint dict_set (d : dict) (k : key) (v : value) : dict :=
  match d with
  | [] => [(k, v)]
  | (k', v') :: d' =>
      if key_eqb k k' then (k', v) :: d' else (k', v') :: dict_set d' k v
  end.

Definition dict_keys (d : dict) : list key := map fst d.

Definition key_in (k : key) (ks : list key) : bool := existsb (key_eqb k) ks.

(** ** Strings: [str.strip] *)

Definition in_range (lo hi : N) (c : ascii) : bool :=
  (N.leb lo (N_of_ascii c) && N.leb (N_of_ascii c) hi)%bool.

(** [str.isspace] on one character: TAB to CR, FS to US and the space, NEL
    and the no-break space. *)
Definition isspace (c : ascii) : bool :=
  (in_range 9 13 c || in_range 28 32 c || in_range 133 133 c
   || in_range 160 160 c)%bool.

Fixpoint lstrip (sp : ascii -> bool) (s : string) : string :=
  match s with
  | EmptyString => EmptyString
  | String c s' => if sp c then lstrip sp s' else s
  end.

Fixpoint rstrip (sp : ascii -> bool) (s : string) : string :=
  match s with
  | EmptyString => EmptyString
  | String c s' =>
      match rstrip sp s' with
      | EmptyString => if sp c then EmptyString else String c EmptyString
      | t => String c t
      end
  end.

Definition strip (s : string) : string := rstrip isspace (lstrip isspace s).

(** The text holds a NUL character. *)
Fixpoint has_nul (s : string) : bool :=
  match s with
  | EmptyString => false
  | String c s' => (Ascii.eqb c Ascii.zero || has_nul s')%bool
  end.

Fixpoint all_chars (p : ascii -> bool) (s : string) : bool :=
  match s with
  | EmptyString => true
  | String c s' => (p c && all_chars p s')%bool
  end.

(** ** Numbers: [float(...)], [**] and [sum] *)

(** The nearest binary64 number, ties to even, to [m * 10 ^ e] ([m > 0]),
    with the sign [neg]. *)
Definition round_decimal (neg : bool) (m e : Z) : spec_float :=
  if (0 <=? e)%Z then binary_normalize prec emax (if neg then - (m * 10 ^ e) else m * 10 ^ e)%Z 0 neg
  else
    let '(q, e', l) := SFdiv_core_binary prec emax m 0 (10 ^ (- e))%Z 0 in
    binary_round_aux prec emax neg q e' l.

Definition float_of_decimal (neg : bool) (m e : Z) : float :=
  if (m =? 0)%Z then (if neg then neg_zero else zero)
  else SF2Prim (round_decimal neg m e).

(** [float(z)] for an [int]: the nearest float, or [OverflowError]. *)
Definition float_of_int (z : Z) : result float :=
  let f := SF2Prim (binary_normalize prec emax z 0 false) in
  if is_infinity f then Raise OverflowError else Return f.

Definition isdigit (c : ascii) : bool := in_range 48 57 c.

Definition digit_value (c : ascii) : Z := (Z.of_N (N_of_ascii c) - 48)%Z.

Definition is_char (a c : ascii) : bool := Ascii.eqb a c.

Definition take_sign (l : list ascii) : bool * list ascii :=
  match l with
  | c :: r =>
      if is_char "-" c then (true, r)
      else if is_char "+" c then (false, r)
      else (false, l)
  | [] => (false, l)
  end.

Fixpoint take_digits (l : list ascii) : list Z * list ascii :=
  match l with
  | c :: r =>
      if isdigit c then
        let '(ds, r') := take_digits r in (digit_value c :: ds, r')
      else ([], l)
  | [] => ([], [])
  end.

Definition number_of (ds : list Z) : Z :=
  fold_left (fun acc d => (10 * acc + d)%Z) ds 0%Z.

(** [sign? (digits+ ("." digits* )? | "." digits+) ([eE] sign? digits+)?],
    the whole text: its sign, its digits as an integer and its power of ten. *)
Definition parse_decimal (l : list ascii) : option (bool * Z * Z) :=
  let '(neg, l1) := take_sign l in
  let '(ip, l2) := take_digits l1 in
  let '(fp, l3) :=
    match l2 with
    | c :: r => if is_char "." c then take_digits r else ([], l2)
    | [] => ([], l2)
    end in
  match ip ++ fp with
  | [] => None
  | ds =>
      let shift := Z.of_nat (List.length fp) in
      match l3 with
      | [] => Some (neg, number_of ds, (- shift)%Z)
      | c :: l4 =>
          if (is_char "e" c || is_char "E" c)%bool then
            let '(eneg, l5) := take_sign l4 in
            match take_digits l5 with
            | ((_ :: _) as es, []) =>
                let ex := number_of es in
                Some (neg, number_of ds, ((if eneg then - ex else ex) - shift)%Z)
            | _ => None
            end
          else None
      end
  end.

Definition lower (c : ascii) : ascii :=
  if in_range 65 90 c then ascii_of_N (N_of_ascii c + 32) else c.

(** ["inf"], ["infinity"] and ["nan"], signed, in any case of letters. *)
Definition parse_inf_or_nan (l : list ascii) : option float :=
  let '(neg, r) := take_sign l in
  let w := string_of_list_ascii (map lower r) in
  if (String.eqb w "inf" || String.eqb w "infinity")%bool then
    Some (if neg then neg_infinity else infinity)
  else if String.eqb w "nan" then Some nan
  else None.

(** An underscore may only stand between two digits. *)
Fixpoint underscores_ok (prev : ascii) (l : list ascii) : bool :=
  match l with
  | [] => negb (is_char "_" prev)
  | c :: r =>
      ((if is_char "_" c then isdigit prev
        else if is_char "_" prev then isdigit c
        else true)
       && underscores_ok c r)%bool
  end.

(** The whitespace [float] strips: TAB to CR and the space; the whitespace
    above the ASCII range counts as a space, the rest of it cannot be parsed. *)
Definition c_isspace (c : ascii) : bool := (in_range 9 13 c || in_range 32 32 c)%bool.

Definition to_ascii (c : ascii) : ascii :=
  if in_range 0 126 c then c else if isspace c then " "%char else "?"%char.

Definition float_of_string (s : string) : option float :=
  let l := map to_ascii (list_ascii_of_string s) in
  if underscores_ok Ascii.zero l then
    let l := filter (fun c => negb (is_char "_" c)) l in
    let t := list_ascii_of_string
               (rstrip c_isspace (lstrip c_isspace (string_of_list_ascii l))) in
    match parse_decimal t with
    | Some (neg, m, e) => Some (float_of_decimal neg m e)
    | None => parse_inf_or_nan t
    end
  else None.

(** [float(v)] *)
Definition py_float (v : value) : result float :=
  match v with
  | VFloat f => Return f
  | VInt z => float_of_int z
  | VStr s =>
      match float_of_string s with
      | Some f => Return f
      | None => Raise ValueError
      end
  | VNone => Raise TypeError
  | VList _ => Raise TypeError
  end.

(** C's [pow] at the exponent 2.0, as the platform's mathematical library
    has it: the value it returns, which need not be the rounded square, and
    whether it reports a range error ([errno] set to [ERANGE]).  For a
    positive base it reports no other error. *)
Record libm : Type := {
  pow2 : float -> float;
  pow2_erange : float -> bool
}.

(** [x ** 2] on a float.  NaN, the infinities, the zeros and 1 are settled
    without the library; any other [x] goes to [pow] as [pow(|x|, 2.0)].  A
    range error is then assumed for an infinite result, dropped for a zero
    result, and raised as [OverflowError]. *)
Definition float_pow2 (lm : libm) (x : float) : result float :=
  if is_nan x then Return x
  else if is_infinity x then Return infinity
  else if is_zero x then Return zero
  else
    let iv := abs x in
    if (iv =? one)%float then Return one
    else
      let ix := pow2 lm iv in
      let erange := if pow2_erange lm iv then negb (is_zero ix) else is_infinity ix in
      if erange then Raise OverflowError else Return ix.

(** [sum] over floats, from the integer [0]: the plain left-to-right sum of
    the interpreters before 3.12 ... *)
Definition sum_plain (l : list float) : float :=
  fold_left (fun acc x => (acc + x)%float) l zero.

(** ... and the compensated (Neumaier) sum of 3.12 and later, which starts
    once the first float has been added to the integer. *)
Definition neumaier_step (st : float * float) (x : float) : float * float :=
  let '(f_result, c) := st in
  let t := (f_result + x)%float in
  if (abs x <=? abs f_result)%float
  then (t, (c + ((f_result - t) + x))%float)
  else (t, (c + ((x - t) + f_result))%float).

Definition sum_neumaier (l : list float) : float :=
  match l with
  | [] => zero
  | x :: r =>
      let '(f_result, c) := fold_left neumaier_step r ((zero + x)%float, zero) in
      if (negb (is_zero c) && is_finite c)%bool then (f_result + c)%float
      else f_result
  end.

(** [float(n)] for a length. *)
Definition float_of_nat (n : nat) : float :=
  SF2Prim (binary_normalize prec emax (Z.of_nat n) 0 false).

(** ** The world of the scripts: files, console and subprocesses *)

(** A field as [csv.writer] puts it in the file: [None] is the empty text, a
    [str] is written as it is, any other value as the text [str(v)]. *)
Inductive cell : Type :=
| Text (s : string)
| StrOf (v : value).

Definition csv_field (v : value) : cell :=
  match v with
  | VNone => Text ""
  | VStr s => Text s
  | _ => StrOf v
  end.

Definition key_value (k : key) : value :=
  match k with
  | Some s => VStr s
  | None => VNone
  end.

(** The lines printed to the console. *)
Inductive message : Type :=
| MsgInputNotFound
| MsgNoRows
| MsgLoaded (n : nat)
| MsgSkip (name : value)
| MsgRunning (name : value) (module : string)
| MsgDone (name : value)
| MsgWrote
| MsgNotEnough
| MsgRegression (a b : float)
| MsgSaved
| MsgScored (n : nat).

(** The two lines of [regression.txt]. *)
Record regression_file : Type := {
  slope : float;
  intercept : float;
  used_points : nat
}.

(** [PDE_csv] holds the rows of [PDE.csv] as [csv.reader] splits them, the
    header first, or [None] when the file does not exist. *)
Record world : Type := {
  PDE_csv : option (list (list string));
  results_csv : option (list (list cell));
  regression_txt : option regression_file;
  console : list message;
  subprocesses : list string
}.

Definition set_results (f : option (list (list cell))) (w : world) : world :=
  {| PDE_csv := PDE_csv w; results_csv := f;
     regression_txt := regression_txt w; console := console w;
     subprocesses := subprocesses w |}.

Definition set_regression (f : option regression_file) (w : world) : world :=
  {| PDE_csv := PDE_csv w; results_csv := results_csv w;
     regression_txt := f; console := console w;
     subprocesses := subprocesses w |}.

Definition add_console (m : message) (w : world) : world :=
  {| PDE_csv := PDE_csv w; results_csv := results_csv w;
     regression_txt := regression_txt w; console := console w ++ [m];
     subprocesses := subprocesses w |}.

Definition add_subprocess (module : string) (w : world) : world :=
  {| PDE_csv := PDE_csv w; results_csv := results_csv w;
     regression_txt := regression_txt w; console := console w;
     subprocesses := subprocesses w ++ [module] |}.

(** Computations that read and change the world and may raise. *)
Definition M (A : Type) : Type := world -> result A * world.

Definition ret {A : Type} (a : A) : M A := fun w => (Return a, w).

Definition raise {A : Type} (e : exn) : M A := fun w => (Raise e, w).

Definition lift {A : Type} (r : result A) : M A := fun w => (r, w).

Definition bind {A B : Type} (m : M A) (k : A -> M B) : M B :=
  fun w =>
    match m w with
    | (Return a, w') => k a w'
    | (Raise e, w') => (Raise e, w')
    end.

Declare Scope py_scope.
Delimit Scope py_scope with py.
Notation "x <- m ;; k" := (bind m (fun x => k))
  (at level 100, m at next level, right associativity) : py_scope.
Notation "m ;;; k" := (bind m (fun _ => k))
  (at level 100, right associativity) : py_scope.

Definition print (m : message) : M unit :=
  fun w => (Return tt, add_console m w).

Definition sys_exit {A : Type} (status : Z) : M A := raise (SystemExit status).

(** The exit status of the interpreter for a result of [main]. *)
Definition exit_code (r : result unit) : Z :=
  match r with
  | Return _ => 0
  | Raise (SystemExit status) => status
  | Raise _ => 1
  end.

(** ** [csv.DictReader] and [csv.DictWriter] *)

Definition reader_row (fieldnames row : list string) : dict :=
  let d := fold_left (fun d kv => dict_set d (Some (fst kv)) (VStr (snd kv)))
             (combine fieldnames row) [] in
  let lf := List.length fieldnames in
  let lr := List.length row in
  if (lf <? lr)%nat then dict_set d None (VList (skipn lf row))
  else fold_left (fun d k => dict_set d (Some k) VNone) (skipn lr fieldnames) d.

Definition is_blank (row : list string) : bool :=
  match row with
  | [] => true
  | _ :: _ => false
  end.

(** [reader.fieldnames]: the first row of the file, if any. *)
Definition reader_fieldnames (file : list (list string)) : option (list string) :=
  match file with
  | [] => None
  | fieldnames :: _ => Some fieldnames
  end.

(** [list(csv.DictReader(f))]: one dictionary for each row after the header
    that is not blank. *)
Definition DictReader (file : list (list string)) : list dict :=
  match file with
  | [] => []
  | fieldnames :: lines =>
      map (reader_row fieldnames) (filter (fun row => negb (is_blank row)) lines)
  end.

(** [DictWriter._dict_to_list]: a key outside the field names is an error; a
    field name the row lacks is written as the empty text. *)
Definition dict_to_list (fieldnames : list key) (rowdict : dict) : result (list value) :=
  if forallb (fun k => key_in k fieldnames) (dict_keys rowdict)
  then Return (map (fun k => dict_get rowdict k (VStr "")) fieldnames)
  else Raise ValueError.

Definition append_line (line : list cell) (w : world) : world :=
  set_results (Some (match results_csv w with
                     | Some ls => ls ++ [line]
                     | None => [line]
                     end)) w.

(** [open(results, "w")] *)
Definition open_results : M unit := fun w => (Return tt, set_results (Some []) w).

Definition writeheader (fieldnames : list key) : M unit :=
  fun w => (Return tt, append_line (map (fun k => csv_field (key_value k)) fieldnames) w).

Definition writerow (fieldnames : list key) (rowdict : dict) : M unit :=
  fun w =>
    match dict_to_list fieldnames rowdict with
    | Return vs => (Return tt, append_line (map csv_field vs) w)
    | Raise e => (Raise e, w)
    end.

Fixpoint writerows (fieldnames : list key) (rows : list dict) : M unit :=
  match rows with
  | [] => ret tt
  | row :: rest => (writerow fieldnames row ;;; writerows fieldnames rest)%py
  end.

(** ** [loop.py] *)

Module Loop.

Definition SCORING_COLUMNS : list string :=
  ["Dimensionality"; "Nonlinearity"; "Boundary"; "Time"; "Coupling"].

Definition is_none (v : value) : bool :=
  match v with
  | VNone => true
  | _ => false
  end.

Definition is_empty_str (v : value) : bool :=
  match v with
  | VStr s => String.eqb s ""
  | _ => false
  end.

Definition parse_float (val : value) (default : option float) : result (option float) :=
  if (is_none val || is_empty_str val)%bool then Return default
  else
    match py_float val with
    | Return f => Return (Some f)
    | Raise TypeError => Return default
    | Raise ValueError => Return default
    | Raise e => Raise e
    end.

(** [total += v]: a float plus [None] is a [TypeError]. *)
Definition add_to (total : float) (v : option float) : result float :=
  match v with
  | Some f => Return (total + f)%float
  | None => Raise TypeError
  end.

Definition compute_total_score (row : dict) : result float :=
  fold_left
    (fun total col =>
       rbind total (fun total =>
       rbind (parse_float (dict_get row (Some col) VNone) (Some zero)) (fun v =>
       add_to total v)))
    SCORING_COLUMNS (Return zero).

Definition truthy (v : value) : bool :=
  match v with
  | VNone => false
  | VStr s => negb (String.eqb s "")
  | VInt z => negb (z =? 0)%Z
  | VFloat f => negb (is_zero f)
  | VList l => negb (is_blank l)
  end.

(** [(v or "").strip()]: only a [str] has [strip]. *)
Definition or_empty_strip (v : value) : result string :=
  match (if truthy v then v else VStr "") with
  | VStr s => Return (strip s)
  | _ => Raise AttributeError
  end.

Definition get_error_for_row (row : dict) : result (option float) :=
  parse_float (dict_get row (Some "L3_Error") VNone) None.

Section Pipeline.

(** The exit status of [python -m module], run from the repository root; a
    module is taken to exit the same way each time it is run, and the
    operating system to start every process it is asked for. *)
Variable exit_status : string -> Z.

(** The built-in [sum] on a list of floats. *)
Variable fsum : list float -> float.

(** The mathematical library behind [**]. *)
Variable lm : libm.

(** [subprocess.run(cmd, cwd=repo_root, check=True)]: an argument that holds
    a NUL character is refused with [ValueError] before any process is
    started; otherwise the module is run, and an exit status other than 0 is
    raised as [CalledProcessError]. *)
Definition subprocess_run (module : string) : M unit :=
  fun w =>
    if has_nul module then (Raise ValueError, w)
    else
      let w' := add_subprocess module w in
      if (exit_status module =? 0)%Z then (Return tt, w')
      else (Raise (CalledProcessError (exit_status module) module), w').

Definition run_trainer_for_row (row : dict) : M unit :=
  (module <- lift (or_empty_strip (dict_get row (Some "TrainerModule") VNone)) ;;
   let name := dict_get row (Some "Name") (VStr "UNKNOWN") in
   if String.eqb module "" then
     print (MsgSkip name)
   else
     print (MsgRunning name module) ;;;
     subprocess_run module ;;;
     print (MsgDone name))%py.

Definition linear_regression (xs ys : list float)
  : result (option float * option float) :=
  let n := List.length xs in
  if (n =? 0)%nat then Return (None, None)
  else
    let mean_x := (fsum xs / float_of_nat n)%float in
    let mean_y := (fsum ys / float_of_nat n)%float in
    let num := fsum (map (fun xy => ((fst xy - mean_x) * (snd xy - mean_y))%float)
                         (combine xs ys)) in
    rbind (map_result (fun x => float_pow2 lm (x - mean_x)%float) xs) (fun squares =>
    let den := fsum squares in
    if is_zero den then Return (None, None)
    else
      let a := (num / den)%float in
      let b := (mean_y - a * mean_x)%float in
      Return (Some a, Some b)).

(** The body of the loop over the rows; the row is changed in place. *)
Definition process_row (row : dict) : M dict :=
  (total_score <- lift (compute_total_score row) ;;
   let row := dict_set row (Some "Total_Score") (VFloat total_score) in
   run_trainer_for_row row ;;;
   error <- lift (get_error_for_row row) ;;
   ret (match error with
        | Some e => dict_set row (Some "L3_Error") (VFloat e)
        | None => row
        end))%py.

Fixpoint process_rows (rows : list dict) : M (list dict) :=
  match rows with
  | [] => ret []
  | row :: rest =>
      (row' <- process_row row ;;
       rest' <- process_rows rest ;;
       ret (row' :: rest'))%py
  end.

(** [list(rows[0].keys())], with [Total_Score] appended if it is not there. *)
Definition output_fieldnames (rows : list dict) : list key :=
  let fieldnames := match rows with
                    | row0 :: _ => dict_keys row0
                    | [] => []
                    end in
  if key_in (Some "Total_Score") fieldnames then fieldnames
  else fieldnames ++ [Some "Total_Score"].

Definition write_results (rows : list dict) : M unit :=
  (let fieldnames := output_fieldnames rows in
   open_results ;;;
   writeheader fieldnames ;;;
   writerows fieldnames rows)%py.

(** The (score, error) pairs of the rows that have both, the error not NaN. *)
Definition regression_points (rows : list dict)
  : result (list float * list float) :=
  fold_left
    (fun acc r =>
       rbind acc (fun '(xs, ys) =>
       rbind (parse_float (dict_get r (Some "Total_Score") VNone) None) (fun score =>
       rbind (parse_float (dict_get r (Some "L3_Error") VNone) None) (fun err =>
       match score, err with
       | Some s, Some e =>
           if negb (is_nan e) then Return (xs ++ [s], ys ++ [e])
           else Return (xs, ys)
       | _, _ => Return (xs, ys)
       end))))
    rows (Return ([], [])).

Definition write_regression (a b : float) (n : nat) : M unit :=
  fun w => (Return tt,
            set_regression (Some {| slope := a; intercept := b; used_points := n |}) w).

Definition regression (rows : list dict) : M unit :=
  (pts <- lift (regression_points rows) ;;
   let '(xs, ys) := pts in
   ab <- lift (linear_regression xs ys) ;;
   match fst ab with
   | None => print MsgNotEnough
   | Some a =>
       match snd ab with
       | None => raise TypeError
       | Some b =>
           print (MsgRegression a b) ;;;
           write_regression a b (List.length xs) ;;;
           print MsgSaved
       end
   end)%py.

Definition main : M unit :=
  fun w =>
    match PDE_csv w with
    | None => (print MsgInputNotFound ;;; sys_exit 1)%py w
    | Some file =>
        let rows := DictReader file in
        match rows with
        | [] => (print MsgNoRows ;;; sys_exit 0)%py w
        | _ :: _ =>
            (print (MsgLoaded (List.length rows)) ;;;
             rows <- process_rows rows ;;
             write_results rows ;;;
             print MsgWrote ;;;
             regression rows)%py w
        end
    end.

End Pipeline.

End Loop.

(** ** [scorer.py] *)

Module Scorer.

Definition COLUMNS_FOR_SCORING : list string :=
  ["Dimensionality"; "Nonlinearity"; "Boundary"; "Time"; "Coupling"].

Definition parse_float (value : value) : result float :=
  match py_float value with
  | Return f => Return f
  | Raise ValueError => Return zero
  | Raise TypeError => Return zero
  | Raise e => Raise e
  end.

Definition compute_total_score (row : dict) : result float :=
  fold_left
    (fun total col =>
       rbind total (fun total =>
       rbind (parse_float (dict_get row (Some col) (VInt 0))) (fun v =>
       Return (total + v)%float)))
    COLUMNS_FOR_SCORING (Return zero).

(** The loop of [main]: score the row, store the score, write the row. *)
Fixpoint score_and_write (fieldnames : list key) (rows : list dict) : M unit :=
  match rows with
  | [] => ret tt
  | row :: rest =>
      (total_score <- lift (compute_total_score row) ;;
       let row := dict_set row (Some "Total_Score") (VFloat total_score) in
       writerow fieldnames row ;;;
       score_and_write fieldnames rest)%py
  end.

Definition main : M unit :=
  fun w =>
    match PDE_csv w with
    | None => raise FileNotFoundError w
    | Some file =>
        let rows := DictReader file in
        let fieldnames := match reader_fieldnames file with
                          | Some names => map (@Some string) names
                          | None => []
                          end in
        let fieldnames := if key_in (Some "Total_Score") fieldnames then fieldnames
                          else fieldnames ++ [Some "Total_Score"] in
        (open_results ;;;
         writeheader fieldnames ;;;
         score_and_write fieldnames rows ;;;
         print (MsgScored (List.length rows)))%py w
    end.

End Scorer.

(** ** Vocabulary of the specification *)

(** A record as the specification has it: column names mapped to text. *)
Definition text_row (cells : list (string * string)) : dict :=
  map (fun c => (Some (fst c), VStr (snd c))) cells.

(** What [csv.DictReader] can put in a row: text or [None] under a column
    name, the surplus cells under [None]. *)
Definition csv_item (kv : key * value) : Prop :=
  match kv with
  | (Some _, VStr _) => True
  | (Some _, VNone) => True
  | (None, VList _) => True
  | _ => False
  end.

Definition csv_row (r : dict) : Prop := Forall csv_item r.

(** The number a scoring column stands for: its text parsed as a number; a
    missing key, an empty text and a text that is not a number count 0.0. *)
Definition column_number (row : dict) (col : string) : float :=
  match dict_find row (Some col) with
  | None => zero
  | Some (VStr s) =>
      if String.eqb s "" then zero
      else match float_of_string s with
           | Some f => f
           | None => zero
           end
  | Some _ => zero
  end.

(** The sum of the five scoring columns. *)
Definition total_score (row : dict) : float :=
  (zero + column_number row "Dimensionality" + column_number row "Nonlinearity"
   + column_number row "Boundary" + column_number row "Time"
   + column_number row "Coupling")%float.

Definition example_row : dict :=
  text_row [("Dimensionality", "2"); ("Nonlinearity", "1"); ("Boundary", "");
            ("Time", "0"); ("Coupling", "abc")].

(** The trainer a row names, stripped; empty when it names none. *)
Definition trainer_module (r : dict) : string :=
  match dict_find r (Some "TrainerModule") with
  | Some (VStr s) => strip s
  | _ => ""
  end.

Definition row_name (r : dict) : value := dict_get r (Some "Name") (VStr "UNKNOWN").

(** The error a row brings along: its [L3_Error] text, if it is a number. *)
Definition known_error (r : dict) : option float :=
  match dict_find r (Some "L3_Error") with
  | Some (VStr s) => float_of_string s
  | _ => None
  end.

(** A row once the loop of [main] is through with it. *)
Definition scored (r : dict) : dict :=
  dict_set r (Some "Total_Score") (VFloat (total_score r)).

Definition processed (r : dict) : dict :=
  match known_error r with
  | Some e => dict_set (scored r) (Some "L3_Error") (VFloat e)
  | None => scored r
  end.

(** The row names no trainer, or its trainer is launched (its name holds no
    NUL character) and exits with status 0. *)
Definition trainer_ok (exit_status : string -> Z) (r : dict) : bool :=
  (String.eqb (trainer_module r) ""
   || (negb (has_nul (trainer_module r))
       && (exit_status (trainer_module r) =? 0)%Z))%bool.

(** What the trainer step of a row raises when it does not succeed, and the
    world it leaves. *)
Definition trainer_error (exit_status : string -> Z) (r : dict) : exn :=
  if has_nul (trainer_module r) then ValueError
  else CalledProcessError (exit_status (trainer_module r)) (trainer_module r).

(** The console and the subprocesses after the trainer step of a row. *)
Definition trainer_started (r : dict) (w : world) : world :=
  add_subprocess (trainer_module r)
    (add_console (MsgRunning (row_name r) (trainer_module r)) w).

Definition trainer_failed (r : dict) (w : world) : world :=
  if has_nul (trainer_module r)
  then add_console (MsgRunning (row_name r) (trainer_module r)) w
  else trainer_started r w.

Definition after_trainer (r : dict) (w : world) : world :=
  if String.eqb (trainer_module r) "" then add_console (MsgSkip (row_name r)) w
  else add_console (MsgDone (row_name r)) (trainer_started r w).

Definition after_trainers (rows : list dict) (w : world) : world :=
  fold_left (fun w r => after_trainer r w) rows w.

(** The files are the same in both worlds. *)
Definition same_files (w w' : world) : Prop :=
  PDE_csv w' = PDE_csv w /\ results_csv w' = results_csv w
  /\ regression_txt w' = regression_txt w.

(** Column names in the order of their first occurrence. *)
Definition add_key (ks : list key) (k : key) : list key :=
  if key_in k ks then ks else ks ++ [k].

Definition header_keys (fieldnames : list string) : list key :=
  fold_left add_key (map (@Some string) fieldnames) [].

(** No row after the header has more cells than the header. *)
Definition no_long_row (file : list (list string)) : Prop :=
  match file with
  | [] => True
  | fieldnames :: lines =>
      Forall (fun line => (List.length line <= List.length fieldnames)%nat) lines
  end.

(** The line of the results file for a row, and whether the writer takes
    the row. *)
Definition row_line (fieldnames : list key) (r : dict) : list cell :=
  map (fun k => csv_field (dict_get r k (VStr ""))) fieldnames.

Definition header_line (fieldnames : list key) : list cell :=
  map (fun k => csv_field (key_value k)) fieldnames.

Definition fits (fieldnames : list key) (r : dict) : bool :=
  forallb (fun k => key_in k fieldnames) (dict_keys r).

(** The rows written before the first one the writer refuses. *)
Fixpoint written (fieldnames : list key) (rows : list dict) : list dict :=
  match rows with
  | [] => []
  | r :: rest => if fits fieldnames r then r :: written fieldnames rest else []
  end.

Definition add_lines (lines : list (list cell)) (w : world) : world :=
  fold_left (fun w line => append_line line w) lines w.

(** The trainers launched for a list of rows. *)
Definition launched (rows : list dict) : list string :=
  filter (fun m => negb (String.eqb m "")) (map trainer_module rows).

(** The (score, error) pairs of the rows with a known error that is a number. *)
Definition add_point (acc : list float * list float) (r : dict)
  : list float * list float :=
  match known_error r with
  | Some e => if is_nan e then acc else (fst acc ++ [total_score r], snd acc ++ [e])
  | None => acc
  end.

Definition points (rows : list dict) : list float * list float :=
  fold_left add_point rows ([], []).

(** The world when the loop of [main] has gone through all the rows, and
    when the writer has then written what it takes of them. *)
Definition after_loop (rows : list dict) (w : world) : world :=
  after_trainers rows (add_console (MsgLoaded (List.length rows)) w).

Definition after_writer (fieldnames : list key) (rows : list dict) (w : world) : world :=
  add_lines (map (row_line fieldnames) (written fieldnames rows))
    (append_line (header_line fieldnames) (set_results (Some []) w)).

(** The least-squares formulas of the specification, in the arithmetic of
    floats and with the [sum] of the interpreter. *)
Section Formulas.

Variable fsum : list float -> float.

Variable lm : libm.

Definition mean (l : list float) : float :=
  (fsum l / float_of_nat (List.length l))%float.

(** The denominator: the sum of the squared deviations from the mean. *)
Definition sum_sq_dev (xs : list float) : result float :=
  rbind (map_result (fun x => float_pow2 lm (x - mean xs)%float) xs) (fun squares =>
  Return (fsum squares)).

(** The numerator: the sum over the points of the products of deviations. *)
Definition sum_cross (xs ys : list float) : float :=
  fsum (map (fun i => ((nth i xs zero - mean xs) * (nth i ys zero - mean ys))%float)
            (seq 0 (List.length xs))).

(** No fit: no point at all, or a denominator that is exactly zero. *)
Definition degenerate (xs : list float) : Prop :=
  xs = [] \/ exists d, sum_sq_dev xs = Return d /\ is_zero d = true.

End Formulas.

(** Worlds to run the scripts in. *)
Definition world_of (file : list (list string)) : world :=
  {| PDE_csv := Some file; results_csv := None; regression_txt := None;
     console := []; subprocesses := [] |}.

Definition no_input : world :=
  {| PDE_csv := None; results_csv := None; regression_txt := None;
     console := []; subprocesses := [] |}.

(** Three equations whose errors lie on the line [y = 2 x]. *)
Definition line_file : list (list string) :=
  [["Name"; "Dimensionality"; "L3_Error"];
   ["heat"; "1"; "2"];
   ["wave"; "2"; "4"];
   ["burgers"; "3"; "6"]].

(** Two equations with a trainer each and no error yet. *)
Definition trainer_file : list (list string) :=
  [["Name"; "Dimensionality"; "Nonlinearity"; "TrainerModule"; "L3_Error"];
   ["heat"; "2"; "0"; "src.trainer.heat"; ""];
   ["wave"; "2"; "1"; "src.trainer.wave"; "n/a"]].

(** A library whose [pow(x, 2.0)] is the rounded square of [x], with a range
    error when it is out of range. *)
Definition exact_libm : libm :=
  {| pow2 := fun x => (x * x)%float;
     pow2_erange := fun x => is_infinity (x * x)%float |}.

Definition all_succeed : string -> Z := fun _ => 0%Z.

Definition all_fail : string -> Z := fun _ => 1%Z.

(** The trainer of the wave equation exits with status 3, the others with 0. *)
Definition wave_fails : string -> Z :=
  fun module => if String.eqb module "src.trainer.wave" then 3%Z else 0%Z.

(** A trainer module of a space, a tab and a no-break space. *)
Definition blank : string :=
  String " " (String (ascii_of_nat 9) (String (ascii_of_nat 160) EmptyString)).

Definition blank_trainer_row : dict :=
  text_row [("Name", "heat"); ("TrainerModule", blank)].

(** The field names of the results file: the columns of the first record,
    then [Total_Score] unless it is one of them. *)
Definition with_total_score (columns : list key) : list key :=
  if key_in (Some "Total_Score") columns then columns
  else columns ++ [Some "Total_Score"].

(** The second data row has one cell more than the header. *)
Definition long_row_file : list (list string) :=
  [["Name"; "Dimensionality"];
   ["heat"; "1"];
   ["wave"; "2"; "extra"]].

(** Scores so far apart that a squared deviation is out of range. *)
Definition huge_score_file : list (list string) :=
  [["Name"; "Dimensionality"; "L3_Error"];
   ["heat"; "1e200"; "1"];
   ["wave"; "0"; "2"]].

(** The float nearest to one tenth. *)
Definition tenth : float := float_of_decimal false 1 (-1).

(** Three equations with the same score, 0.1, and the errors 1, 2, 3. *)
Definition tenth_file : list (list string) :=
  [["Name"; "Dimensionality"; "L3_Error"];
   ["heat"; "0.1"; "1"];
   ["wave"; "0.1"; "2"];
   ["burgers"; "0.1"; "3"]].

(** Two equations with the same score, 2, and the errors 1, 3. *)
Definition equal_score_file : list (list string) :=
  [["Name"; "Dimensionality"; "L3_Error"];
   ["heat"; "2"; "1"];
   ["wave"; "2"; "3"]].

(** The floats nearest to 1e200 and to 5e199, the latter being the distance of
    1e200 and of 0 from their mean. *)
Definition huge : float := float_of_decimal false 1 200.

Definition half_huge : float := float_of_decimal false 5 199.

(** The float nearest to 1e-200, whose half has a square below every
    positive float. *)
Definition tiny : float := float_of_decimal false 1 (-200).

(** A column the scoring functions do not read. *)
Definition not_scored (k : key) : bool :=
  negb (key_in k (map (@Some string) Loop.SCORING_COLUMNS)).

(** The row gives the regression a point: its error is a number, not NaN. *)
Definition usable (r : dict) : bool :=
  match Loop.get_error_for_row r with
  | Return (Some e) => negb (is_nan e)
  | _ => false
  end.

(** An integer beyond the range of floats. *)
Definition huge_int : Z := (2 ^ 1024)%Z.

(** An input that brings a Total_Score column of its own. *)
Definition rescored_file : list (list string) :=
  [["Name"; "Total_Score"; "Dimensionality"];
   ["heat"; "99"; "2"]].

(** The first data row has one cell more than the header. *)
Definition long_first_file : list (list string) :=
  [["Name"; "Dimensionality"];
   ["heat"; "1"; "extra"];
   ["wave"; "2"]].


(** A module name with a NUL character in it. *)
Definition nul_module : string :=
  String "a" (String Ascii.zero (String "b" EmptyString)).

(** The first row names a trainer that [subprocess.run] refuses. *)
Definition nul_trainer_file : list (list string) :=
  [["Name"; "Dimensionality"; "TrainerModule"];
   ["heat"; "1"; nul_module];
   ["wave"; "2"; "src.trainer.wave"]].
(** ** Dictionaries *)

Lemma key_eqb_eq (a b : key) : key_eqb a b = true <-> a = b.
Proof.
  destruct a as [x|], b as [y|]; simpl; split; intro H;
    try discriminate; try reflexivity.
  - apply String.eqb_eq in H. now subst.
  - injection H as ->. apply String.eqb_refl.
Qed.

Lemma key_eqb_refl (a : key) : key_eqb a a = true.
Proof. now apply key_eqb_eq. Qed.

Lemma key_eqb_neq (a b : key) : key_eqb a b = false <-> a <> b.
Proof.
  split; intro H.
  - intro E. apply key_eqb_eq in E. congruence.
  - destruct (key_eqb a b) eqn:E; [|reflexivity].
    apply key_eqb_eq in E. contradiction.
Qed.

Lemma key_in_In (k : key) (ks : list key) : key_in k ks = true <-> In k ks.
Proof.
  unfold key_in. rewrite existsb_exists. split.
  - intros [x [Hx E]]. apply key_eqb_eq in E. now subst.
  - intro H. exists k. split; [assumption | apply key_eqb_refl].
Qed.

Lemma dict_find_set_same (d : dict) (k : key) (v : value) :
  dict_find (dict_set d k v) k = Some v.
Proof.
  induction d as [|[k' v'] d IH]; simpl.
  - now rewrite key_eqb_refl.
  - destruct (key_eqb k k') eqn:E; simpl; rewrite E; [reflexivity | exact IH].
Qed.

Lemma dict_find_set_other (d : dict) (k k' : key) (v : value) :
  k <> k' -> dict_find (dict_set d k v) k' = dict_find d k'.
Proof.
  intro N. induction d as [|[k0 v0] d IH]; simpl.
  - assert (key_eqb k' k = false) as -> by (apply key_eqb_neq; congruence).
    reflexivity.
  - destruct (key_eqb k k0) eqn:E; simpl.
    + apply key_eqb_eq in E. subst k0.
      assert (key_eqb k' k = false) as -> by (apply key_eqb_neq; congruence).
      reflexivity.
    + now rewrite IH.
Qed.

Lemma dict_get_set_other (d : dict) (k k' : key) (v dflt : value) :
  k <> k' -> dict_get (dict_set d k v) k' dflt = dict_get d k' dflt.
Proof. intro N. unfold dict_get. now rewrite dict_find_set_other. Qed.

Lemma dict_keys_set (d : dict) (k : key) (v : value) :
  dict_keys (dict_set d k v) =
  if key_in k (dict_keys d) then dict_keys d else dict_keys d ++ [k].
Proof.
  unfold dict_keys, key_in.
  induction d as [|[k' v'] d IH]; simpl; [reflexivity|].
  destruct (key_eqb k k') eqn:E; simpl; [reflexivity|].
  rewrite IH. now destruct (existsb (key_eqb k) (map fst d)).
Qed.

Lemma dict_find_in_keys (d : dict) (k : key) (v : value) :
  dict_find d k = Some v -> In k (dict_keys d).
Proof.
  induction d as [|[k' v'] d IH]; simpl; [discriminate|].
  destruct (key_eqb k k') eqn:E.
  - apply key_eqb_eq in E. now left.
  - intro H. right. now apply IH.
Qed.

Lemma dict_find_In (d : dict) (k : key) (v : value) :
  dict_find d k = Some v -> In (k, v) d.
Proof.
  induction d as [|[k' v'] d IH]; simpl; [discriminate|].
  destruct (key_eqb k k') eqn:E.
  - apply key_eqb_eq in E. intros [= ->]. left. now subst.
  - intro H. right. now apply IH.
Qed.

Lemma csv_row_find (r : dict) (col : string) (v : value) :
  csv_row r -> dict_find r (Some col) = Some v ->
  v = VNone \/ exists s, v = VStr s.
Proof.
  intros Hr Hf. apply dict_find_In in Hf.
  unfold csv_row in Hr. rewrite Forall_forall in Hr.
  specialize (Hr _ Hf). simpl in Hr.
  destruct v; try contradiction; [now left | right; now eexists].
Qed.

Lemma csv_row_set (r : dict) (k : key) (v : value) :
  csv_row r -> csv_item (k, v) -> csv_row (dict_set r k v).
Proof.
  unfold csv_row. intros Hr Hkv.
  induction r as [|[k' v'] r IH]; simpl.
  - now constructor.
  - inversion Hr as [|? ? H1 H2]; subst.
    destruct (key_eqb k k') eqn:E.
    + apply key_eqb_eq in E. subst k'. now constructor.
    + constructor; [assumption | now apply IH].
Qed.

Lemma text_row_csv (cells : list (string * string)) : csv_row (text_row cells).
Proof.
  unfold csv_row, text_row. apply Forall_forall. intros kv H.
  apply in_map_iff in H. destruct H as [c [<- _]]. exact I.
Qed.

(** ** Scoring *)

Lemma float_of_empty : float_of_string "" = None.
Proof. reflexivity. Qed.

Lemma float_of_int_zero : float_of_int 0 = Return zero.
Proof. reflexivity. Qed.

Lemma loop_parse_column (r : dict) (col : string) :
  csv_row r ->
  Loop.parse_float (dict_get r (Some col) VNone) (Some zero)
  = Return (Some (column_number r col)).
Proof.
  intro Hr. unfold dict_get, column_number.
  destruct (dict_find r (Some col)) as [v|] eqn:Hf; [|reflexivity].
  destruct (csv_row_find _ _ _ Hr Hf) as [-> | [s ->]]; [reflexivity|].
  unfold Loop.parse_float. simpl.
  destruct (String.eqb s ""); [reflexivity|].
  now destruct (float_of_string s).
Qed.

Lemma loop_score_csv (r : dict) :
  csv_row r -> Loop.compute_total_score r = Return (total_score r).
Proof.
  intro Hr. unfold Loop.compute_total_score, Loop.SCORING_COLUMNS. simpl.
  now rewrite !(loop_parse_column _ _ Hr).
Qed.

(** The two scoring functions treat every value alike. *)
Lemma parse_float_agree (r : dict) (col : string) (total : float) :
  rbind (Loop.parse_float (dict_get r (Some col) VNone) (Some zero))
        (fun v => Loop.add_to total v)
  = rbind (Scorer.parse_float (dict_get r (Some col) (VInt 0)))
          (fun v => Return (total + v)%float).
Proof.
  unfold dict_get.
  destruct (dict_find r (Some col)) as [v|]; [|reflexivity].
  destruct v as [|s|z|f|l]; try reflexivity.
  - unfold Loop.parse_float, Scorer.parse_float. simpl.
    destruct (String.eqb s "") eqn:E.
    + apply String.eqb_eq in E. subst s. reflexivity.
    + now destruct (float_of_string s).
  - unfold Loop.parse_float, Scorer.parse_float. simpl.
    unfold float_of_int.
    now destruct (is_infinity _).
Qed.

Lemma scores_agree (r : dict) :
  Loop.compute_total_score r = Scorer.compute_total_score r.
Proof.
  unfold Loop.compute_total_score, Scorer.compute_total_score,
    Loop.SCORING_COLUMNS, Scorer.COLUMNS_FOR_SCORING.
  cbn [fold_left rbind].
  rewrite parse_float_agree.
  repeat match goal with
         | |- context [rbind ?x _] =>
             destruct x as [?t|?e]; cbn [rbind]; [rewrite ?parse_float_agree | reflexivity]
         end.
  reflexivity.
Qed.

(** ** The loop over the rows *)

Lemma strip_empty : strip "" = "".
Proof. reflexivity. Qed.

Lemma module_of_csv_row (r : dict) :
  csv_row r ->
  Loop.or_empty_strip (dict_get r (Some "TrainerModule") VNone)
  = Return (trainer_module r).
Proof.
  intro Hr. unfold dict_get, trainer_module.
  destruct (dict_find r (Some "TrainerModule")) as [v|] eqn:Hf; [|reflexivity].
  destruct (csv_row_find _ _ _ Hr Hf) as [-> | [s ->]]; [reflexivity|].
  unfold Loop.or_empty_strip. simpl.
  destruct (String.eqb s "") eqn:E; simpl; [|reflexivity].
  apply String.eqb_eq in E. now subst.
Qed.

Lemma error_of_csv_row (r : dict) :
  csv_row r ->
  Loop.parse_float (dict_get r (Some "L3_Error") VNone) None
  = Return (known_error r).
Proof.
  intro Hr. unfold dict_get, known_error.
  destruct (dict_find r (Some "L3_Error")) as [v|] eqn:Hf; [|reflexivity].
  destruct (csv_row_find _ _ _ Hr Hf) as [-> | [s ->]]; [reflexivity|].
  unfold Loop.parse_float. simpl.
  destruct (String.eqb s "") eqn:E.
  - apply String.eqb_eq in E. now subst.
  - now destruct (float_of_string s).
Qed.

Lemma key_neq (a b : string) : String.eqb a b = false -> Some a <> Some b :> key.
Proof. intros E [= H]. subst. now rewrite String.eqb_refl in E. Qed.

Lemma run_trainer_scored (es : string -> Z) (r : dict) (w : world) :
  csv_row r ->
  Loop.run_trainer_for_row es (scored r) w =
  if String.eqb (trainer_module r) "" then
    (Return tt, add_console (MsgSkip (row_name r)) w)
  else if has_nul (trainer_module r) then
    (Raise ValueError, add_console (MsgRunning (row_name r) (trainer_module r)) w)
  else if (es (trainer_module r) =? 0)%Z then
    (Return tt, add_console (MsgDone (row_name r)) (trainer_started r w))
  else
    (Raise (CalledProcessError (es (trainer_module r)) (trainer_module r)),
     trainer_started r w).
Proof.
  intro Hr. unfold Loop.run_trainer_for_row, scored, bind, lift.
  rewrite !dict_get_set_other by (now apply key_neq).
  rewrite (module_of_csv_row _ Hr). fold (row_name r).
  destruct (String.eqb (trainer_module r) ""); [reflexivity|].
  unfold print, Loop.subprocess_run, trainer_started. cbn.
  destruct (has_nul (trainer_module r)); [reflexivity|].
  now destruct (es (trainer_module r) =? 0)%Z.
Qed.

Lemma process_row_ok (es : string -> Z) (r : dict) (w : world) :
  csv_row r -> trainer_ok es r = true ->
  Loop.process_row es r w = (Return (processed r), after_trainer r w).
Proof.
  intros Hr Hok. unfold Loop.process_row, bind, lift.
  rewrite (loop_score_csv _ Hr). fold (scored r).
  rewrite (run_trainer_scored es r w Hr).
  unfold Loop.get_error_for_row, scored.
  rewrite dict_get_set_other by (now apply key_neq).
  rewrite (error_of_csv_row _ Hr).
  unfold trainer_ok in Hok. unfold after_trainer, processed, ret, scored.
  destruct (String.eqb (trainer_module r) ""); [reflexivity|].
  simpl in Hok. apply andb_prop in Hok. destruct Hok as [Hnul Hok].
  apply negb_true_iff in Hnul. now rewrite Hnul, Hok.
Qed.

Lemma process_row_fail (es : string -> Z) (r : dict) (w : world) :
  csv_row r -> trainer_ok es r = false ->
  Loop.process_row es r w = (Raise (trainer_error es r), trainer_failed r w).
Proof.
  intros Hr Hok. unfold Loop.process_row, bind, lift.
  rewrite (loop_score_csv _ Hr). fold (scored r).
  rewrite (run_trainer_scored es r w Hr).
  unfold trainer_ok in Hok. unfold trainer_error, trainer_failed.
  destruct (String.eqb (trainer_module r) ""); [discriminate|].
  simpl in Hok.
  destruct (has_nul (trainer_module r)); [reflexivity|].
  simpl in Hok. now rewrite Hok.
Qed.

Lemma process_rows_ok (es : string -> Z) (rows : list dict) (w : world) :
  Forall csv_row rows -> forallb (trainer_ok es) rows = true ->
  Loop.process_rows es rows w = (Return (map processed rows), after_trainers rows w).
Proof.
  revert w. induction rows as [|r rows IH]; intros w Hcsv Hok; [reflexivity|].
  inversion Hcsv as [|? ? Hr Hrows]; subst.
  simpl in Hok. apply andb_prop in Hok. destruct Hok as [Hr_ok Hrows_ok].
  cbn [Loop.process_rows]. unfold bind at 1.
  rewrite (process_row_ok es r w Hr Hr_ok).
  unfold bind at 1. rewrite (IH _ Hrows Hrows_ok). reflexivity.
Qed.

(** The first row whose trainer fails ends the loop. *)
Lemma process_rows_fail (es : string -> Z) (pre post : list dict) (r : dict) (w : world) :
  Forall csv_row (pre ++ r :: post) ->
  forallb (trainer_ok es) pre = true -> trainer_ok es r = false ->
  Loop.process_rows es (pre ++ r :: post) w =
  (Raise (trainer_error es r), trainer_failed r (after_trainers pre w)).
Proof.
  revert w. induction pre as [|p pre IH]; intros w Hcsv Hpre Hr; simpl app.
  - inversion Hcsv as [|? ? Hr_csv _]; subst.
    cbn [Loop.process_rows]. unfold bind at 1.
    now rewrite (process_row_fail es r w Hr_csv Hr).
  - inversion Hcsv as [|? ? Hp Hrest]; subst.
    simpl in Hpre. apply andb_prop in Hpre. destruct Hpre as [Hp_ok Hpre_ok].
    cbn [Loop.process_rows]. unfold bind at 1.
    rewrite (process_row_ok es p w Hp Hp_ok).
    unfold bind at 1. now rewrite (IH _ Hrest Hpre_ok Hr).
Qed.

Lemma same_files_refl (w : world) : same_files w w.
Proof. now repeat split. Qed.

Lemma same_files_trans (w1 w2 w3 : world) :
  same_files w1 w2 -> same_files w2 w3 -> same_files w1 w3.
Proof. unfold same_files. intuition congruence. Qed.

Lemma same_files_console (m : message) (w : world) : same_files w (add_console m w).
Proof. now repeat split. Qed.

Lemma same_files_started (r : dict) (w : world) : same_files w (trainer_started r w).
Proof. now repeat split. Qed.

Lemma same_files_failed (r : dict) (w : world) : same_files w (trainer_failed r w).
Proof. unfold trainer_failed. destruct (has_nul _); now repeat split. Qed.

Lemma same_files_after_trainer (r : dict) (w : world) : same_files w (after_trainer r w).
Proof. unfold after_trainer. destruct (String.eqb _ _); now repeat split. Qed.

Lemma same_files_after_trainers (rows : list dict) (w : world) :
  same_files w (after_trainers rows w).
Proof.
  revert w. induction rows as [|r rows IH]; intro w; [apply same_files_refl|].
  simpl. eapply same_files_trans; [apply same_files_after_trainer | apply IH].
Qed.

(** ** The rows [csv.DictReader] yields *)

Lemma fold_cells_csv (l : list (string * string)) (d : dict) :
  csv_row d ->
  csv_row (fold_left (fun d kv => dict_set d (Some (fst kv)) (VStr (snd kv))) l d).
Proof.
  revert d. induction l as [|kv l IH]; intros d Hd; simpl; [assumption|].
  apply IH. now apply csv_row_set.
Qed.

Lemma fold_none_csv (l : list string) (d : dict) :
  csv_row d ->
  csv_row (fold_left (fun d k => dict_set d (Some k) VNone) l d).
Proof.
  revert d. induction l as [|k l IH]; intros d Hd; simpl; [assumption|].
  apply IH. now apply csv_row_set.
Qed.

Lemma reader_row_csv (fieldnames row : list string) :
  csv_row (reader_row fieldnames row).
Proof.
  unfold reader_row.
  assert (csv_row (fold_left
            (fun d kv => dict_set d (Some (fst kv)) (VStr (snd kv)))
            (combine fieldnames row) [])) as H
    by (apply fold_cells_csv; constructor).
  destruct (_ <? _)%nat.
  - now apply csv_row_set.
  - now apply fold_none_csv.
Qed.

Lemma DictReader_csv (file : list (list string)) : Forall csv_row (DictReader file).
Proof.
  destruct file as [|fieldnames lines]; simpl; [constructor|].
  apply Forall_forall. intros r H. apply in_map_iff in H.
  destruct H as [row [<- _]]. apply reader_row_csv.
Qed.

Lemma keys_add (d : dict) (k : key) (v : value) :
  dict_keys (dict_set d k v) = add_key (dict_keys d) k.
Proof. apply dict_keys_set. Qed.

Lemma keys_fold_cells (l : list (string * string)) (d : dict) :
  dict_keys (fold_left (fun d kv => dict_set d (Some (fst kv)) (VStr (snd kv))) l d)
  = fold_left add_key (map (@Some string) (map fst l)) (dict_keys d).
Proof.
  revert d. induction l as [|kv l IH]; intro d; simpl; [reflexivity|].
  now rewrite IH, keys_add.
Qed.

Lemma keys_fold_none (l : list string) (d : dict) :
  dict_keys (fold_left (fun d k => dict_set d (Some k) VNone) l d)
  = fold_left add_key (map (@Some string) l) (dict_keys d).
Proof.
  revert d. induction l as [|k l IH]; intro d; simpl; [reflexivity|].
  now rewrite IH, keys_add.
Qed.

Lemma combine_fst_firstn {A B : Type} (l : list A) (l' : list B) :
  (List.length l' <= List.length l)%nat ->
  map fst (combine l l') = firstn (List.length l') l.
Proof.
  revert l'. induction l as [|a l IH]; intros [|b l'] H; simpl in *;
    try reflexivity; try lia.
  f_equal. apply IH. lia.
Qed.

(** A row no longer than the header has the columns of the header. *)
Lemma reader_row_keys (fieldnames row : list string) :
  (List.length row <= List.length fieldnames)%nat ->
  dict_keys (reader_row fieldnames row) = header_keys fieldnames.
Proof.
  intro H. unfold reader_row, header_keys.
  assert ((List.length fieldnames <? List.length row)%nat = false) as ->
    by (apply Nat.ltb_ge; lia).
  rewrite keys_fold_none, keys_fold_cells, combine_fst_firstn by assumption.
  rewrite <- fold_left_app, <- map_app, firstn_skipn. reflexivity.
Qed.

Lemma DictReader_keys (file : list (list string)) (r : dict) :
  no_long_row file -> In r (DictReader file) ->
  exists fieldnames, reader_fieldnames file = Some fieldnames
                     /\ dict_keys r = header_keys fieldnames.
Proof.
  destruct file as [|fieldnames lines]; simpl; [contradiction|].
  intros Hlen Hin. exists fieldnames. split; [reflexivity|].
  apply in_map_iff in Hin. destruct Hin as [row [<- Hrow]].
  apply filter_In in Hrow. destruct Hrow as [Hrow _].
  rewrite Forall_forall in Hlen. apply reader_row_keys. now apply Hlen.
Qed.

(** ** The rows after the loop *)

Lemma known_error_key (r : dict) (e : float) :
  known_error r = Some e -> key_in (Some "L3_Error") (dict_keys r) = true.
Proof.
  unfold known_error. intro H. apply key_in_In.
  destruct (dict_find r (Some "L3_Error")) as [v|] eqn:Hf; [|discriminate].
  now apply dict_find_in_keys in Hf.
Qed.

Lemma scored_keys (r : dict) :
  dict_keys (scored r) = add_key (dict_keys r) (Some "Total_Score").
Proof. apply keys_add. Qed.

Lemma add_key_in (ks : list key) (k k' : key) :
  key_in k ks = true -> key_in k (add_key ks k') = true.
Proof.
  unfold add_key. intro H. destruct (key_in k' ks); [assumption|].
  apply key_in_In. apply in_or_app. left. now apply key_in_In.
Qed.

Lemma processed_keys (r : dict) :
  dict_keys (processed r) = add_key (dict_keys r) (Some "Total_Score").
Proof.
  unfold processed. destruct (known_error r) as [e|] eqn:He; [|apply scored_keys].
  rewrite keys_add, scored_keys. unfold add_key at 1.
  now rewrite (add_key_in _ _ _ (known_error_key _ _ He)).
Qed.

Lemma processed_find (r : dict) (k : key) :
  Loop.get_error_for_row r = Return None -> csv_row r ->
  k <> Some "Total_Score" ->
  dict_find (processed r) k = dict_find r k.
Proof.
  intros He Hr Hk. unfold Loop.get_error_for_row in He.
  rewrite (error_of_csv_row _ Hr) in He. injection He as He.
  unfold processed. rewrite He. unfold scored.
  apply dict_find_set_other. congruence.
Qed.

Lemma processed_score (r : dict) :
  dict_find (processed r) (Some "Total_Score") = Some (VFloat (total_score r)).
Proof.
  unfold processed, scored. destruct (known_error r).
  - rewrite dict_find_set_other by (now apply key_neq). apply dict_find_set_same.
  - apply dict_find_set_same.
Qed.

Lemma output_fieldnames_processed (r0 : dict) (rows : list dict) :
  Loop.output_fieldnames (map processed (r0 :: rows))
  = add_key (dict_keys r0) (Some "Total_Score").
Proof.
  unfold Loop.output_fieldnames. cbn [map]. cbv zeta.
  rewrite processed_keys.
  assert (key_in (Some "Total_Score") (add_key (dict_keys r0) (Some "Total_Score")) = true) as ->.
  { unfold add_key. destruct (key_in _ (dict_keys r0)) eqn:E; [assumption|].
    apply key_in_In. apply in_or_app. right. now left. }
  reflexivity.
Qed.

(** ** The writer *)

Lemma add_lines_results (lines old : list (list cell)) (w : world) :
  results_csv w = Some old ->
  results_csv (add_lines lines w) = Some (old ++ lines).
Proof.
  revert old w. induction lines as [|line lines IH]; intros old w H; simpl.
  - now rewrite app_nil_r.
  - rewrite (IH (old ++ [line])).
    + now rewrite <- app_assoc.
    + unfold append_line. simpl. now rewrite H.
Qed.

Lemma add_lines_frame (lines : list (list cell)) (w : world) :
  PDE_csv (add_lines lines w) = PDE_csv w
  /\ regression_txt (add_lines lines w) = regression_txt w
  /\ console (add_lines lines w) = console w
  /\ subprocesses (add_lines lines w) = subprocesses w.
Proof.
  revert w. induction lines as [|line lines IH]; intro w; simpl; [now repeat split|].
  destruct (IH (append_line line w)) as (H1 & H2 & H3 & H4).
  now rewrite H1, H2, H3, H4.
Qed.

Lemma writerows_spec (fieldnames : list key) (rows : list dict) (w : world) :
  writerows fieldnames rows w =
  (if forallb (fits fieldnames) rows then Return tt else Raise ValueError,
   add_lines (map (row_line fieldnames) (written fieldnames rows)) w).
Proof.
  revert w. induction rows as [|r rows IH]; intro w; [reflexivity|].
  cbn [writerows forallb written]. unfold bind, writerow, dict_to_list.
  fold (fits fieldnames r). destruct (fits fieldnames r); [|reflexivity].
  rewrite IH. cbn [andb map add_lines fold_left]. unfold row_line at 3.
  now rewrite map_map.
Qed.

Lemma write_results_spec (rows : list dict) (w : world) :
  Loop.write_results rows w =
  (if forallb (fits (Loop.output_fieldnames rows)) rows
   then Return tt else Raise ValueError,
   after_writer (Loop.output_fieldnames rows) rows w).
Proof.
  unfold Loop.write_results, bind, open_results, writeheader.
  now rewrite writerows_spec.
Qed.

Lemma after_writer_results (fieldnames : list key) (rows : list dict) (w : world) :
  results_csv (after_writer fieldnames rows w)
  = Some (header_line fieldnames :: map (row_line fieldnames) (written fieldnames rows)).
Proof.
  unfold after_writer.
  apply (add_lines_results _ [header_line fieldnames]). reflexivity.
Qed.

Lemma after_writer_frame (fieldnames : list key) (rows : list dict) (w : world) :
  PDE_csv (after_writer fieldnames rows w) = PDE_csv w
  /\ regression_txt (after_writer fieldnames rows w) = regression_txt w
  /\ console (after_writer fieldnames rows w) = console w
  /\ subprocesses (after_writer fieldnames rows w) = subprocesses w.
Proof.
  unfold after_writer.
  destruct (add_lines_frame (map (row_line fieldnames) (written fieldnames rows))
              (append_line (header_line fieldnames) (set_results (Some []) w)))
    as (-> & -> & -> & ->).
  now repeat split.
Qed.

Lemma written_all (fieldnames : list key) (rows : list dict) :
  forallb (fits fieldnames) rows = true -> written fieldnames rows = rows.
Proof.
  induction rows as [|r rows IH]; simpl; [reflexivity|].
  intro H. apply andb_prop in H. destruct H as [-> H]. now rewrite IH.
Qed.

Lemma written_nth (fieldnames : list key) (rows : list dict) (i : nat) (r : dict) :
  nth_error (written fieldnames rows) i = Some r ->
  nth_error rows i = Some r /\ fits fieldnames r = true.
Proof.
  revert i. induction rows as [|r0 rows IH]; intros i; simpl.
  - destruct i; discriminate.
  - destruct (fits fieldnames r0) eqn:E.
    + destruct i as [|i]; simpl.
      * intros [= ->]. now split.
      * apply IH.
    + destruct i; discriminate.
Qed.

(** ** The regression stage *)

Lemma regression_points_from (rows : list dict) (acc : list float * list float) :
  Forall csv_row rows ->
  fold_left
    (fun acc r =>
       rbind acc (fun '(xs, ys) =>
       rbind (Loop.parse_float (dict_get r (Some "Total_Score") VNone) None) (fun score =>
       rbind (Loop.parse_float (dict_get r (Some "L3_Error") VNone) None) (fun err =>
       match score, err with
       | Some s, Some e =>
           if negb (is_nan e) then Return (xs ++ [s], ys ++ [e])
           else Return (xs, ys)
       | _, _ => Return (xs, ys)
       end))))
    (map processed rows) (Return acc)
  = Return (fold_left add_point rows acc).
Proof.
  intro Hcsv. revert acc.
  induction Hcsv as [|r rows Hr Hrows IH]; intro acc; [reflexivity|].
  cbn [map fold_left]. rewrite <- IH. f_equal.
  destruct acc as [xs ys]. cbn [rbind].
  unfold dict_get at 1. rewrite processed_score.
  unfold add_point, processed.
  destruct (known_error r) as [e|] eqn:He.
  - unfold dict_get. rewrite dict_find_set_same. cbn.
    now destruct (is_nan e).
  - unfold scored. rewrite dict_get_set_other by (now apply key_neq).
    rewrite (error_of_csv_row _ Hr), He. reflexivity.
Qed.

Lemma regression_points_processed (rows : list dict) :
  Forall csv_row rows ->
  Loop.regression_points (map processed rows) = Return (points rows).
Proof. intro H. apply (regression_points_from rows ([], []) H). Qed.

Lemma linear_regression_shape (fsum : list float -> float) (lm : libm) (xs ys : list float)
      (a b : option float) :
  Loop.linear_regression fsum lm xs ys = Return (a, b) ->
  (a = None /\ b = None) \/ (exists a' b', a = Some a' /\ b = Some b').
Proof.
  unfold Loop.linear_regression.
  destruct (List.length xs =? 0)%nat; [intros [= <- <-]; now left|].
  destruct (map_result _ xs) as [squares|e]; cbn [rbind]; [|discriminate].
  destruct (is_zero _); intros [= <- <-]; [now left | right; eauto].
Qed.

Lemma regression_frame (fsum : list float -> float) (lm : libm) (rows : list dict) (w : world) :
  let w' := snd (Loop.regression fsum lm rows w) in
  PDE_csv w' = PDE_csv w /\ results_csv w' = results_csv w
  /\ subprocesses w' = subprocesses w.
Proof.
  unfold Loop.regression, bind, lift.
  destruct (Loop.regression_points rows) as [[xs ys]|e]; [|now repeat split].
  destruct (Loop.linear_regression fsum lm xs ys) as [[a b]|e]; [|now repeat split].
  destruct a as [a|]; cbn; [|now repeat split].
  destruct b as [b|]; cbn; now repeat split.
Qed.

Lemma regression_undefined (fsum : list float -> float) (lm : libm) (rows : list dict)
      (xs ys : list float) (w : world) :
  Loop.regression_points rows = Return (xs, ys) ->
  Loop.linear_regression fsum lm xs ys = Return (None, None) ->
  Loop.regression fsum lm rows w = (Return tt, add_console MsgNotEnough w).
Proof.
  intros Hp Hl. unfold Loop.regression, bind, lift. now rewrite Hp, Hl.
Qed.

Lemma regression_defined (fsum : list float -> float) (lm : libm) (rows : list dict)
      (xs ys : list float) (a b : float) (w : world) :
  Loop.regression_points rows = Return (xs, ys) ->
  Loop.linear_regression fsum lm xs ys = Return (Some a, Some b) ->
  Loop.regression fsum lm rows w =
  (Return tt,
   add_console MsgSaved
     (set_regression
        (Some {| slope := a; intercept := b; used_points := List.length xs |})
        (add_console (MsgRegression a b) w))).
Proof.
  intros Hp Hl. unfold Loop.regression, bind, lift. now rewrite Hp, Hl.
Qed.

(** ** [main], stage by stage *)

Lemma main_missing (es : string -> Z) (fsum : list float -> float) (lm : libm) (w : world) :
  PDE_csv w = None ->
  Loop.main es fsum lm w = (Raise (SystemExit 1), add_console MsgInputNotFound w).
Proof. intro H. unfold Loop.main. now rewrite H. Qed.

Lemma main_no_rows (es : string -> Z) (fsum : list float -> float) (lm : libm) (w : world)
      (file : list (list string)) :
  PDE_csv w = Some file -> DictReader file = [] ->
  Loop.main es fsum lm w = (Raise (SystemExit 0), add_console MsgNoRows w).
Proof. intros H E. unfold Loop.main. now rewrite H, E. Qed.

Lemma main_trainer_fails (es : string -> Z) (fsum : list float -> float) (lm : libm) (w : world)
      (file : list (list string)) (pre post : list dict) (r : dict) :
  PDE_csv w = Some file -> DictReader file = pre ++ r :: post ->
  forallb (trainer_ok es) pre = true -> trainer_ok es r = false ->
  Loop.main es fsum lm w =
  (Raise (trainer_error es r),
   trainer_failed r
     (after_trainers pre
        (add_console (MsgLoaded (List.length (pre ++ r :: post))) w))).
Proof.
  intros H E Hpre Hr. unfold Loop.main. rewrite H, E.
  assert (Forall csv_row (pre ++ r :: post)) as Hcsv
    by (rewrite <- E; apply DictReader_csv).
  destruct (pre ++ r :: post) as [|r0 rows] eqn:Erows.
  - destruct pre; discriminate.
  - rewrite <- Erows in *. unfold bind at 1. unfold print at 1.
    unfold bind at 1.
    now rewrite (process_rows_fail es pre post r _ Hcsv Hpre Hr).
Qed.

Lemma main_trainers_ok (es : string -> Z) (fsum : list float -> float) (lm : libm) (w : world)
      (file : list (list string)) (rows : list dict) :
  PDE_csv w = Some file -> DictReader file = rows -> rows <> [] ->
  forallb (trainer_ok es) rows = true ->
  let fieldnames := Loop.output_fieldnames (map processed rows) in
  let w' := after_writer fieldnames (map processed rows) (after_loop rows w) in
  Loop.main es fsum lm w =
  if forallb (fits fieldnames) (map processed rows)
  then Loop.regression fsum lm (map processed rows) (add_console MsgWrote w')
  else (Raise ValueError, w').
Proof.
  intros H E Hne Hok. unfold Loop.main. rewrite H, E.
  assert (Forall csv_row rows) as Hcsv by (rewrite <- E; apply DictReader_csv).
  destruct rows as [|r0 rest] eqn:Erows; [contradiction|].
  rewrite <- Erows in *. unfold bind at 1. unfold print at 1.
  unfold bind at 1. rewrite (process_rows_ok es rows _ Hcsv Hok).
  fold (after_loop rows w). unfold bind at 1.
  rewrite write_results_spec.
  destruct (forallb _ (map processed rows)); reflexivity.
Qed.

Lemma main_results (es : string -> Z) (fsum : list float -> float) (lm : libm) (w : world)
      (file : list (list string)) (rows : list dict) :
  PDE_csv w = Some file -> DictReader file = rows -> rows <> [] ->
  forallb (trainer_ok es) rows = true ->
  let fieldnames := Loop.output_fieldnames (map processed rows) in
  results_csv (snd (Loop.main es fsum lm w))
  = Some (header_line fieldnames
          :: map (row_line fieldnames) (written fieldnames (map processed rows))).
Proof.
  intros H E Hne Hok fieldnames.
  rewrite (main_trainers_ok es fsum lm w file rows H E Hne Hok).
  fold fieldnames.
  destruct (forallb (fits fieldnames) (map processed rows)).
  - destruct (regression_frame fsum lm (map processed rows)
                (add_console MsgWrote
                   (after_writer fieldnames (map processed rows) (after_loop rows w))))
      as (_ & -> & _).
    cbn [results_csv add_console]. apply after_writer_results.
  - cbn [snd]. apply after_writer_results.
Qed.

(** * The claims of the specification *)

(** ** Scoring *)

(** C1: for every record that maps column names to text, the total score of
    both scripts is the sum of the five scoring columns parsed as numbers,
    where a missing key, an empty text and a text that is not a number count
    0.0; the row with Dimensionality 2, Nonlinearity 1, Boundary empty,
    Time 0 and Coupling abc scores 3.0. *)
Theorem total_score_is_column_sum :
  (forall cells : list (string * string),
      Loop.compute_total_score (text_row cells) = Return (total_score (text_row cells))
      /\ Scorer.compute_total_score (text_row cells)
         = Return (total_score (text_row cells)))
  /\ total_score example_row = 3%float
  /\ Loop.compute_total_score example_row = Return 3%float
  /\ Scorer.compute_total_score example_row = Return 3%float.
Proof.
  split.
  - intro cells.
    assert (Loop.compute_total_score (text_row cells)
            = Return (total_score (text_row cells))) as H
      by (apply loop_score_csv, text_row_csv).
    split; [exact H | now rewrite <- scores_agree].
  - repeat split; vm_compute; reflexivity.
Qed.

(** C9: the scoring functions of [scorer.py] and of [loop.py] return the same
    total score for every row, whatever its values are. *)
Theorem scorers_extensionally_equal :
  forall row : dict, Scorer.compute_total_score row = Loop.compute_total_score row.
Proof. intro row. symmetry. apply scores_agree. Qed.

(** ** The trainer invoker *)

Lemma lstrip_whitespace (s : string) :
  all_chars isspace s = true -> lstrip isspace s = "".
Proof.
  induction s as [|c s IH]; simpl; [reflexivity|].
  intro H. apply andb_prop in H. destruct H as [-> H]. now apply IH.
Qed.

Lemma strip_whitespace (s : string) : all_chars isspace s = true -> strip s = "".
Proof. intro H. unfold strip. now rewrite (lstrip_whitespace s H). Qed.

Lemma run_trainer_skip (es : string -> Z) (row : dict) (w : world) :
  Loop.or_empty_strip (dict_get row (Some "TrainerModule") VNone) = Return "" ->
  Loop.run_trainer_for_row es row w
  = (Return tt, add_console (MsgSkip (row_name row)) w).
Proof.
  intro H. unfold Loop.run_trainer_for_row, bind, lift. now rewrite H.
Qed.

(** C5: for a record whose TrainerModule is absent (no such key, or no cell)
    or empty, the trainer invoker launches no subprocess, prints the skip
    message and nothing else, and returns. *)
Theorem no_trainer_module_is_skipped :
  forall (exit_status : string -> Z) (row : dict) (w : world),
    dict_find row (Some "TrainerModule") = None
    \/ dict_find row (Some "TrainerModule") = Some VNone
    \/ dict_find row (Some "TrainerModule") = Some (VStr "") ->
    Loop.run_trainer_for_row exit_status row w
    = (Return tt, add_console (MsgSkip (row_name row)) w)
    /\ subprocesses (snd (Loop.run_trainer_for_row exit_status row w))
       = subprocesses w
    /\ console (snd (Loop.run_trainer_for_row exit_status row w))
       = console w ++ [MsgSkip (row_name row)].
Proof.
  intros es row w H.
  assert (Loop.run_trainer_for_row es row w
          = (Return tt, add_console (MsgSkip (row_name row)) w)) as E.
  { apply run_trainer_skip. unfold dict_get.
    destruct H as [-> | [-> | ->]]; reflexivity. }
  rewrite E. now repeat split.
Qed.

Lemma no_trainer_module_is_skipped_witness :
  dict_find example_row (Some "TrainerModule") = None
  /\ Loop.run_trainer_for_row all_fail example_row no_input
     = (Return tt, add_console (MsgSkip (VStr "UNKNOWN")) no_input).
Proof.
  split; [reflexivity|].
  apply (no_trainer_module_is_skipped all_fail example_row no_input).
  left. reflexivity.
Defined.

(** C10: a TrainerModule made of whitespace only is stripped to the empty
    text before the test, so the record is skipped like one without a
    trainer: no subprocess, only the skip message. *)
Theorem whitespace_trainer_module_is_skipped :
  forall (exit_status : string -> Z) (row : dict) (s : string) (w : world),
    dict_find row (Some "TrainerModule") = Some (VStr s) ->
    all_chars isspace s = true ->
    Loop.run_trainer_for_row exit_status row w
    = (Return tt, add_console (MsgSkip (row_name row)) w)
    /\ subprocesses (snd (Loop.run_trainer_for_row exit_status row w))
       = subprocesses w.
Proof.
  intros es row s w Hf Hs.
  assert (Loop.run_trainer_for_row es row w
          = (Return tt, add_console (MsgSkip (row_name row)) w)) as E.
  { apply run_trainer_skip. unfold dict_get. rewrite Hf.
    unfold Loop.or_empty_strip. simpl.
    destruct (String.eqb s "") eqn:Es; simpl; [reflexivity|].
    now rewrite (strip_whitespace s Hs). }
  rewrite E. now split.
Qed.

Lemma whitespace_trainer_module_is_skipped_witness :
  dict_find blank_trainer_row (Some "TrainerModule") = Some (VStr blank)
  /\ all_chars isspace blank = true
  /\ Loop.run_trainer_for_row all_fail blank_trainer_row no_input
     = (Return tt, add_console (MsgSkip (VStr "heat")) no_input).
Proof.
  split; [reflexivity|]. split; [reflexivity|].
  apply (whitespace_trainer_module_is_skipped all_fail blank_trainer_row blank no_input);
    reflexivity.
Defined.

(** ** The regression fitter *)

Lemma map_combine_nth {A B C : Type} (g : A -> B -> C) (da : A) (db : B)
      (l : list A) (l' : list B) :
  List.length l = List.length l' ->
  map (fun p => g (fst p) (snd p)) (combine l l')
  = map (fun i => g (nth i l da) (nth i l' db)) (seq 0 (List.length l)).
Proof.
  revert l'. induction l as [|a l IH]; intros [|b l'] H; simpl in *;
    try reflexivity; try discriminate.
  f_equal. rewrite <- seq_shift, map_map. apply IH. now injection H.
Qed.

Lemma length_zero_iff {A : Type} (l : list A) :
  (List.length l =? 0)%nat = true <-> l = [].
Proof.
  destruct l; simpl; split; intro H; try reflexivity; discriminate.
Qed.

Lemma linear_regression_fit (fsum : list float -> float) (lm : libm) (xs ys : list float)
      (d : float) :
  List.length xs = List.length ys -> xs <> [] ->
  sum_sq_dev fsum lm xs = Return d -> is_zero d = false ->
  Loop.linear_regression fsum lm xs ys
  = Return (Some (sum_cross fsum xs ys / d)%float,
            Some (mean fsum ys - (sum_cross fsum xs ys / d) * mean fsum xs)%float).
Proof.
  intros Hlen Hne Hd Hnz. unfold Loop.linear_regression.
  destruct (List.length xs =? 0)%nat eqn:E.
  { apply length_zero_iff in E. contradiction. }
  unfold sum_sq_dev, mean in Hd.
  destruct (map_result _ xs) as [squares|e]; cbn [rbind] in *; [|discriminate].
  injection Hd as Hd. rewrite Hd, Hnz.
  unfold sum_cross, mean. rewrite <- Hlen.
  now rewrite (map_combine_nth
                 (fun x y => ((x - fsum xs / float_of_nat (List.length xs))
                              * (y - fsum ys / float_of_nat (List.length xs)))%float)
                 zero zero xs ys Hlen).
Qed.

Lemma linear_regression_undefined (fsum : list float -> float) (lm : libm) (xs ys : list float) :
  Loop.linear_regression fsum lm xs ys = Return (None, None) <-> degenerate fsum lm xs.
Proof.
  unfold Loop.linear_regression, degenerate, sum_sq_dev, mean.
  destruct (List.length xs =? 0)%nat eqn:E.
  - apply length_zero_iff in E. split; [now left | reflexivity].
  - assert (xs <> []) as Hne.
    { intro H. apply length_zero_iff in H. congruence. }
    destruct (map_result _ xs) as [squares|e]; cbn [rbind].
    + destruct (is_zero (fsum squares)) eqn:Ez; split.
      * intros _. right. now exists (fsum squares).
      * reflexivity.
      * discriminate.
      * intros [H | [d [[= <-] Hd]]]; [contradiction | congruence].
    + split; [discriminate|].
      intros [H | [d [H _]]]; [contradiction | discriminate].
Qed.

Lemma keys_fit_themselves (ks : list key) :
  forallb (fun k => key_in k ks) ks = true.
Proof. apply forallb_forall. intros k H. now apply key_in_In. Qed.

(** When no row is longer than the header the writer takes every row. *)
Lemma processed_rows_fit (file : list (list string)) :
  no_long_row file ->
  forallb (fits (Loop.output_fieldnames (map processed (DictReader file))))
          (map processed (DictReader file)) = true.
Proof.
  intro Hlen. destruct (DictReader file) as [|r0 rest] eqn:E; [reflexivity|].
  rewrite output_fieldnames_processed.
  apply forallb_forall. intros r' Hr'. apply in_map_iff in Hr'.
  destruct Hr' as [r [<- Hr]]. unfold fits. rewrite processed_keys.
  rewrite <- E in Hr.
  destruct (DictReader_keys file r Hlen Hr) as [names [Hn ->]].
  assert (In r0 (DictReader file)) as H0 by (rewrite E; now left).
  destruct (DictReader_keys file r0 Hlen H0) as [names' [Hn' ->]].
  assert (names' = names) as -> by congruence.
  apply keys_fit_themselves.
Qed.

Lemma main_reaches_regression
      (es : string -> Z) (fsum : list float -> float) (lm : libm) (w : world)
      (file : list (list string)) :
  PDE_csv w = Some file -> DictReader file <> [] ->
  forallb (trainer_ok es) (DictReader file) = true -> no_long_row file ->
  let rows := map processed (DictReader file) in
  Loop.main es fsum lm w =
  Loop.regression fsum lm rows
    (add_console MsgWrote
       (after_writer (Loop.output_fieldnames rows) rows
          (after_loop (DictReader file) w))).
Proof.
  intros H Hne Hok Hlen rows.
  rewrite (main_trainers_ok es fsum lm w file _ H eq_refl Hne Hok).
  fold rows. unfold rows at 1 2. now rewrite (processed_rows_fit file Hlen).
Qed.

Lemma after_loop_files (rows : list dict) (w : world) : same_files w (after_loop rows w).
Proof.
  unfold after_loop.
  eapply same_files_trans; [apply same_files_console | apply same_files_after_trainers].
Qed.

(** C2, as the code has it: for lists of points of the same length, not empty,
    whose squared deviations [(x - mean_x) ** 2] are all computed (none is out
    of the range of floats) and sum to a number [d] other than zero, the
    fitter returns the slope [a] = (sum of products of deviations) / [d] and
    the intercept [b] = mean_y - a * mean_x, every sum, mean and quotient
    taken in floats; on the points (1,2), (2,4), (3,6) it returns the slope
    2.0 and the intercept 0.0, with either summation and whatever the
    library's [pow] returns, and the pipeline records them over 3 points. *)
Theorem regression_is_least_squares :
  (forall (fsum : list float -> float) (lm : libm) (xs ys : list float) (d : float),
      List.length xs = List.length ys -> xs <> [] ->
      sum_sq_dev fsum lm xs = Return d -> is_zero d = false ->
      Loop.linear_regression fsum lm xs ys
      = Return (Some (sum_cross fsum xs ys / d)%float,
                Some (mean fsum ys - (sum_cross fsum xs ys / d) * mean fsum xs)%float))
  /\ (forall lm : libm,
         Loop.linear_regression sum_plain lm [1; 2; 3]%float [2; 4; 6]%float
         = Return (Some 2%float, Some 0%float))
  /\ (forall lm : libm,
         Loop.linear_regression sum_neumaier lm [1; 2; 3]%float [2; 4; 6]%float
         = Return (Some 2%float, Some 0%float))
  /\ (forall lm : libm,
         regression_txt (snd (Loop.main all_succeed sum_plain lm (world_of line_file)))
         = Some {| slope := 2%float; intercept := 0%float; used_points := 3 |}).
Proof.
  split; [exact linear_regression_fit|].
  repeat split; intro lm; vm_compute; reflexivity.
Qed.

Lemma regression_is_least_squares_witness :
  List.length [1; 2; 3]%float = List.length [2; 4; 6]%float
  /\ sum_sq_dev sum_plain exact_libm [1; 2; 3]%float = Return 2%float
  /\ is_zero 2%float = false
  /\ Loop.linear_regression sum_plain exact_libm [1; 2; 3]%float [2; 4; 6]%float
     = Return (Some (sum_cross sum_plain [1; 2; 3] [2; 4; 6] / 2)%float,
               Some (mean sum_plain [2; 4; 6]
                     - (sum_cross sum_plain [1; 2; 3] [2; 4; 6] / 2)
                       * mean sum_plain [1; 2; 3])%float).
Proof.
  split; [reflexivity|]. split; [reflexivity|]. split; [reflexivity|].
  apply (proj1 regression_is_least_squares sum_plain exact_libm
           [1; 2; 3]%float [2; 4; 6]%float 2%float);
    [reflexivity | discriminate | reflexivity | reflexivity].
Defined.

(** C2, as the specification states it, fails: the xs 1e200 and 0 are as many
    as the ys, they lie 5e199 from their mean, so that the sum of their
    squared deviations is not zero, and yet the fitter returns no slope: the
    square of 5e199 is out of the range of floats, [**] raises
    [OverflowError], and so do the fitter and [main]. *)
Lemma overflowing_square_has_no_fit :
  List.length [huge; 0]%float = List.length [1; 2]%float
  /\ float_of_string "1e200" = Some huge
  /\ mean sum_plain [huge; 0]%float = half_huge
  /\ (huge - mean sum_plain [huge; 0])%float = half_huge
  /\ (0 - mean sum_plain [huge; 0])%float = (- half_huge)%float
  /\ is_zero half_huge = false
  /\ (forall lm : libm,
         pow2 lm half_huge = infinity ->
         Loop.linear_regression sum_plain lm [huge; 0]%float [1; 2]%float
         = Raise OverflowError
         /\ Loop.linear_regression sum_neumaier lm [huge; 0]%float [1; 2]%float
            = Raise OverflowError)
  /\ Loop.linear_regression sum_plain exact_libm [huge; 0]%float [1; 2]%float
     = Raise OverflowError
  /\ Loop.linear_regression sum_neumaier exact_libm [huge; 0]%float [1; 2]%float
     = Raise OverflowError
  /\ fst (Loop.main all_succeed sum_plain exact_libm (world_of huge_score_file))
     = Raise OverflowError
  /\ regression_txt (snd (Loop.main all_succeed sum_plain exact_libm
                            (world_of huge_score_file)))
     = None.
Proof.
  do 6 (split; [vm_compute; reflexivity|]).
  split.
  { intros [p e] H. cbn [pow2] in H. vm_compute in H.
    split; vm_compute; rewrite H; now destruct (e _). }
  repeat split; vm_compute; reflexivity.
Qed.

(** A deviation that is zero has the square zero, whatever the library. *)
Lemma is_zero_inv (d : float) : is_zero d = true -> d = zero \/ d = neg_zero.
Proof.
  unfold is_zero. rewrite eqb_spec. intro H.
  rewrite <- (SF2Prim_Prim2SF d).
  destruct (Prim2SF d) as [[|] | [|] | | [|] m e]; try discriminate H;
    [right | left]; reflexivity.
Qed.

Lemma float_pow2_zero (lm : libm) (d : float) :
  is_zero d = true -> float_pow2 lm d = Return zero.
Proof. intro H. destruct (is_zero_inv d H) as [-> | ->]; reflexivity. Qed.

Lemma zero_squares (lm : libm) (f : float -> float) (xs : list float) :
  (forall x, In x xs -> is_zero (f x) = true) ->
  map_result (fun x => float_pow2 lm (f x)) xs = Return (map (fun _ => zero) xs).
Proof.
  induction xs as [|x xs IH]; intro H; [reflexivity|].
  cbn [map_result map]. rewrite (float_pow2_zero lm (f x)) by (apply H; now left).
  cbn [rbind]. rewrite IH by (intros y Hy; apply H; now right). reflexivity.
Qed.

Lemma sum_plain_zeros {A : Type} (l : list A) :
  sum_plain (map (fun _ => zero) l) = zero.
Proof.
  unfold sum_plain. induction l as [|a l IH]; [reflexivity|].
  cbn [map fold_left]. exact IH.
Qed.

Lemma neumaier_zeros {A : Type} (l : list A) :
  fold_left neumaier_step (map (fun _ => zero) l) (zero, zero) = (zero, zero).
Proof. induction l as [|a l IH]; [reflexivity|]. cbn [map fold_left]. exact IH. Qed.

Lemma sum_neumaier_zeros {A : Type} (l : list A) :
  sum_neumaier (map (fun _ => zero) l) = zero.
Proof.
  destruct l as [|a l]; [reflexivity|].
  cbn [map]. unfold sum_neumaier.
  change (zero + zero)%float with zero. now rewrite neumaier_zeros.
Qed.

(** No spread, no fit: when every x is at its computed mean, and the sum of
    zeros is zero, the fitter returns the undefined pair. *)
Lemma no_spread_no_fit (fsum : list float -> float) (lm : libm) (xs ys : list float) :
  fsum (map (fun _ => zero) xs) = zero ->
  (forall x, In x xs -> is_zero (x - mean fsum xs) = true) ->
  Loop.linear_regression fsum lm xs ys = Return (None, None).
Proof.
  intros Hsum Hdev. unfold Loop.linear_regression.
  destruct (List.length xs =? 0)%nat; [reflexivity|].
  fold (mean fsum xs).
  rewrite (zero_squares lm (fun x => (x - mean fsum xs)%float) xs Hdev).
  cbn [rbind]. now rewrite Hsum.
Qed.

(** C3, as the code has it: the fitter returns the undefined pair exactly when
    there is no point or the denominator, the sum of the squared deviations
    as it is computed in floats, is exactly zero.  It is zero when every x is
    at the computed mean of the xs, as for the xs 2, 2; for the xs 1, 2, 3
    it is not, and the fitter returns a line.  In the undefined case the
    regression stage prints that there are not enough pairs, writes no
    regression file and returns, and so does [main] when the points it has
    collected from the rows are of that kind. *)
Theorem undefined_fit_is_reported :
  (forall (fsum : list float -> float) (lm : libm) (xs ys : list float),
      Loop.linear_regression fsum lm xs ys = Return (None, None)
      <-> degenerate fsum lm xs)
  /\ (forall (lm : libm) (xs ys : list float),
         (forall x, In x xs -> is_zero (x - mean sum_plain xs) = true) ->
         Loop.linear_regression sum_plain lm xs ys = Return (None, None))
  /\ (forall (lm : libm) (xs ys : list float),
         (forall x, In x xs -> is_zero (x - mean sum_neumaier xs) = true) ->
         Loop.linear_regression sum_neumaier lm xs ys = Return (None, None))
  /\ (forall lm : libm,
         Loop.linear_regression sum_plain lm [2; 2]%float [1; 3]%float
         = Return (None, None)
         /\ Loop.linear_regression sum_neumaier lm [2; 2]%float [1; 3]%float
            = Return (None, None)
         /\ Loop.linear_regression sum_plain lm [1; 2; 3]%float [2; 4; 6]%float
            <> Return (None, None)
         /\ Loop.linear_regression sum_neumaier lm [1; 2; 3]%float [2; 4; 6]%float
            <> Return (None, None))
  /\ (forall (fsum : list float -> float) (lm : libm) (rows : list dict)
             (xs ys : list float) (w : world),
         Loop.regression_points rows = Return (xs, ys) ->
         degenerate fsum lm xs ->
         Loop.regression fsum lm rows w = (Return tt, add_console MsgNotEnough w))
  /\ (forall (es : string -> Z) (fsum : list float -> float) (lm : libm) (w : world)
             (file : list (list string)),
         PDE_csv w = Some file -> DictReader file <> [] ->
         forallb (trainer_ok es) (DictReader file) = true -> no_long_row file ->
         degenerate fsum lm (fst (points (DictReader file))) ->
         fst (Loop.main es fsum lm w) = Return tt
         /\ regression_txt (snd (Loop.main es fsum lm w)) = regression_txt w
         /\ exists seen,
             console (snd (Loop.main es fsum lm w)) = seen ++ [MsgNotEnough]).
Proof.
  split; [exact linear_regression_undefined|].
  split; [intros lm xs ys; apply no_spread_no_fit, sum_plain_zeros|].
  split; [intros lm xs ys; apply no_spread_no_fit, sum_neumaier_zeros|].
  split.
  { intro lm. repeat split; try (vm_compute; reflexivity);
      vm_compute; discriminate. }
  assert (forall (fsum : list float -> float) (lm : libm) (rows : list dict)
                 (xs ys : list float) (w : world),
             Loop.regression_points rows = Return (xs, ys) ->
             degenerate fsum lm xs ->
             Loop.regression fsum lm rows w
             = (Return tt, add_console MsgNotEnough w)) as Stage.
  { intros fsum lm rows xs ys w Hp Hd.
    apply (regression_undefined fsum lm rows xs ys w Hp).
    now apply linear_regression_undefined. }
  split; [exact Stage|].
  intros es fsum lm w file H Hne Hok Hlen Hd.
  rewrite (main_reaches_regression es fsum lm w file H Hne Hok Hlen).
  assert (Loop.regression_points (map processed (DictReader file))
          = Return (fst (points (DictReader file)), snd (points (DictReader file)))) as Hp.
  { rewrite (regression_points_processed _ (DictReader_csv file)).
    now destruct (points (DictReader file)). }
  rewrite (Stage fsum lm _ _ _ _ Hp Hd). cbn [fst snd].
  split; [reflexivity|]. split.
  - cbn [regression_txt add_console].
    destruct (after_writer_frame
                (Loop.output_fieldnames (map processed (DictReader file)))
                (map processed (DictReader file)) (after_loop (DictReader file) w))
      as (_ & -> & _).
    apply (after_loop_files (DictReader file) w).
  - eexists. reflexivity.
Qed.

Lemma undefined_fit_is_reported_witness :
  points (DictReader equal_score_file) = ([2; 2]%float, [1; 3]%float)
  /\ sum_sq_dev sum_plain exact_libm [2; 2]%float = Return zero
  /\ Loop.linear_regression sum_plain exact_libm [2; 2]%float [1; 3]%float
     = Return (None, None)
  /\ fst (Loop.main all_succeed sum_plain exact_libm (world_of equal_score_file))
     = Return tt
  /\ regression_txt (snd (Loop.main all_succeed sum_plain exact_libm
                            (world_of equal_score_file)))
     = None
  /\ fst (points (DictReader trainer_file)) = []
  /\ fst (Loop.main all_succeed sum_plain exact_libm (world_of trainer_file)) = Return tt
  /\ regression_txt (snd (Loop.main all_succeed sum_plain exact_libm
                            (world_of trainer_file)))
     = None.
Proof.
  split; [reflexivity|]. split; [reflexivity|].
  split.
  { apply (proj1 (proj2 undefined_fit_is_reported) exact_libm [2; 2]%float [1; 3]%float).
    intros x [<- | [<- | []]]; reflexivity. }
  destruct (proj2 (proj2 (proj2 (proj2 (proj2 undefined_fit_is_reported))))
              all_succeed sum_plain exact_libm (world_of equal_score_file)
              equal_score_file)
    as (H1 & H2 & _);
    [reflexivity | discriminate | reflexivity | repeat constructor
     | right; exists zero; split; reflexivity |].
  split; [exact H1|]. split; [exact H2|]. split; [reflexivity|].
  destruct (proj2 (proj2 (proj2 (proj2 (proj2 undefined_fit_is_reported))))
              all_succeed sum_plain exact_libm (world_of trainer_file) trainer_file)
    as (H3 & H4 & _);
    [reflexivity | discriminate | reflexivity | repeat constructor
     | left; reflexivity |].
  split; [exact H3 | exact H4].
Defined.

(** C3, as the specification states it, fails: xs that are all the same need
    not make the denominator zero.  The mean of three xs 0.1, taken in floats,
    is not 0.1, whichever way the sum is taken; the squared deviations then
    sum to a number other than zero, the fitter returns a line of slope 0,
    and [main] writes it to the regression file. *)
Lemma identical_xs_can_be_fitted :
  float_of_string "0.1" = Some tenth
  /\ points (DictReader tenth_file) = ([tenth; tenth; tenth], [1; 2; 3]%float)
  /\ is_zero (tenth - mean sum_plain [tenth; tenth; tenth]) = false
  /\ is_zero (tenth - mean sum_neumaier [tenth; tenth; tenth]) = false
  /\ Loop.linear_regression sum_plain exact_libm [tenth; tenth; tenth] [1; 2; 3]%float
     = Return (Some 0%float, Some 2%float)
  /\ Loop.linear_regression sum_neumaier exact_libm [tenth; tenth; tenth] [1; 2; 3]%float
     = Return (Some 0%float, Some 2%float)
  /\ fst (Loop.main all_succeed sum_plain exact_libm (world_of tenth_file)) = Return tt
  /\ regression_txt (snd (Loop.main all_succeed sum_plain exact_libm
                            (world_of tenth_file)))
     = Some {| slope := 0%float; intercept := 2%float; used_points := 3 |}.
Proof. repeat split; vm_compute; reflexivity. Qed.

(** ** A trainer that fails *)

Lemma first_failure (es : string -> Z) (rows : list dict) (r : dict) :
  In r rows -> trainer_ok es r = false ->
  exists pre bad post,
    rows = pre ++ bad :: post
    /\ forallb (trainer_ok es) pre = true /\ trainer_ok es bad = false.
Proof.
  induction rows as [|r0 rows IH]; intros Hin Hr; [contradiction|].
  destruct (trainer_ok es r0) eqn:E0.
  - destruct Hin as [-> | Hin]; [congruence|].
    destruct (IH Hin Hr) as (pre & bad & post & -> & Hpre & Hbad).
    exists (r0 :: pre), bad, post. simpl. rewrite E0. now repeat split.
  - exists [], r0, rows. now repeat split.
Qed.

Lemma launched_app (l l' : list dict) : launched (l ++ l') = launched l ++ launched l'.
Proof. unfold launched. now rewrite map_app, filter_app. Qed.

Lemma after_trainer_subprocesses (r : dict) (w : world) :
  subprocesses (after_trainer r w) = subprocesses w ++ launched [r].
Proof.
  unfold after_trainer, launched. simpl.
  destruct (String.eqb (trainer_module r) ""); simpl; [now rewrite app_nil_r | reflexivity].
Qed.

Lemma after_trainers_subprocesses (rows : list dict) (w : world) :
  subprocesses (after_trainers rows w) = subprocesses w ++ launched rows.
Proof.
  revert w. induction rows as [|r rows IH]; intro w; simpl.
  - now rewrite app_nil_r.
  - change (fold_left (fun w r => after_trainer r w) rows (after_trainer r w))
      with (after_trainers rows (after_trainer r w)).
    rewrite IH, after_trainer_subprocesses, <- app_assoc.
    now rewrite <- launched_app.
Qed.

Lemma failed_trainer_named (es : string -> Z) (r : dict) :
  trainer_ok es r = false -> trainer_module r <> "".
Proof.
  unfold trainer_ok. intro H. apply orb_false_elim in H.
  now apply String.eqb_neq.
Qed.

Lemma failed_trainer_launched (es : string -> Z) (r : dict) :
  trainer_ok es r = false -> has_nul (trainer_module r) = false ->
  launched [r] = [trainer_module r] /\ es (trainer_module r) <> 0%Z
  /\ trainer_error es r
     = CalledProcessError (es (trainer_module r)) (trainer_module r).
Proof.
  unfold trainer_ok, trainer_error, launched. simpl. intros H Hnul.
  rewrite Hnul in *. apply orb_false_elim in H. destruct H as [-> H].
  split; [reflexivity|]. split; [now apply Z.eqb_neq | reflexivity].
Qed.

Lemma named_trainer_fails (es : string -> Z) (r : dict) :
  trainer_module r <> "" -> es (trainer_module r) <> 0%Z -> trainer_ok es r = false.
Proof.
  intros Hm Hs. unfold trainer_ok. apply orb_false_intro.
  - now apply String.eqb_neq.
  - apply andb_false_intro2. now apply Z.eqb_neq.
Qed.

Lemma trainer_failed_subprocesses (r : dict) (w : world) :
  subprocesses (trainer_failed r w)
  = subprocesses w ++ (if has_nul (trainer_module r) then [] else [trainer_module r]).
Proof.
  unfold trainer_failed, trainer_started.
  destruct (has_nul (trainer_module r)); cbn; [now rewrite app_nil_r | reflexivity].
Qed.

(** Where [main] stops at the first row whose trainer step does not succeed. *)
Lemma main_stops_at_failure (es : string -> Z) (fsum : list float -> float) (lm : libm)
      (w : world) (file : list (list string)) (pre post : list dict) (bad : dict) :
  PDE_csv w = Some file -> DictReader file = pre ++ bad :: post ->
  forallb (trainer_ok es) pre = true -> trainer_ok es bad = false ->
  fst (Loop.main es fsum lm w) = Raise (trainer_error es bad)
  /\ subprocesses (snd (Loop.main es fsum lm w))
     = subprocesses w ++ launched pre
       ++ (if has_nul (trainer_module bad) then [] else [trainer_module bad])
  /\ results_csv (snd (Loop.main es fsum lm w)) = results_csv w
  /\ regression_txt (snd (Loop.main es fsum lm w)) = regression_txt w.
Proof.
  intros H E Hpre Hbad.
  rewrite (main_trainer_fails es fsum lm w file pre post bad H E Hpre Hbad).
  cbn [fst snd]. split; [reflexivity|]. split; [|split].
  - rewrite trainer_failed_subprocesses, after_trainers_subprocesses.
    cbn [subprocesses add_console]. now rewrite <- app_assoc.
  - eapply eq_trans; [apply same_files_failed|].
    eapply eq_trans; [apply same_files_after_trainers|]. reflexivity.
  - eapply eq_trans; [apply same_files_failed|].
    eapply eq_trans; [apply same_files_after_trainers|]. reflexivity.
Qed.

(** C4: when the trainer of a record is launched and exits with a non-zero
    status (the trainer steps of the records before it have succeeded, and its
    module name is one [subprocess.run] accepts), [main] fails with the
    [CalledProcessError] of that trainer; the records after it are not
    processed (no trainer of theirs is launched), and neither the results file
    nor the regression file is written.  And whenever some record names a
    trainer whose status is not zero, [main] ends at the first record whose
    trainer step does not succeed, with the error of that step and without
    writing a file: the [CalledProcessError] of that trainer, unless the
    module name holds a NUL character, for which [subprocess.run] raises
    [ValueError] and starts no process. *)
Theorem failing_trainer_aborts_pipeline :
  (forall (es : string -> Z) (fsum : list float -> float) (lm : libm) (w : world)
          (file : list (list string)) (pre post : list dict) (r : dict),
      PDE_csv w = Some file -> DictReader file = pre ++ r :: post ->
      forallb (trainer_ok es) pre = true ->
      trainer_module r <> "" -> has_nul (trainer_module r) = false ->
      es (trainer_module r) <> 0%Z ->
      fst (Loop.main es fsum lm w)
      = Raise (CalledProcessError (es (trainer_module r)) (trainer_module r))
      /\ subprocesses (snd (Loop.main es fsum lm w))
         = subprocesses w ++ launched pre ++ [trainer_module r]
      /\ results_csv (snd (Loop.main es fsum lm w)) = results_csv w
      /\ regression_txt (snd (Loop.main es fsum lm w)) = regression_txt w)
  /\ (forall (es : string -> Z) (fsum : list float -> float) (lm : libm) (w : world)
             (file : list (list string)) (r : dict),
         PDE_csv w = Some file -> In r (DictReader file) ->
         trainer_module r <> "" -> es (trainer_module r) <> 0%Z ->
         exists pre bad post,
           DictReader file = pre ++ bad :: post
           /\ forallb (trainer_ok es) pre = true
           /\ trainer_module bad <> ""
           /\ fst (Loop.main es fsum lm w) = Raise (trainer_error es bad)
           /\ subprocesses (snd (Loop.main es fsum lm w))
              = subprocesses w ++ launched pre
                ++ (if has_nul (trainer_module bad) then [] else [trainer_module bad])
           /\ results_csv (snd (Loop.main es fsum lm w)) = results_csv w
           /\ regression_txt (snd (Loop.main es fsum lm w)) = regression_txt w
           /\ (has_nul (trainer_module bad) = false ->
               es (trainer_module bad) <> 0%Z
               /\ fst (Loop.main es fsum lm w)
                  = Raise (CalledProcessError (es (trainer_module bad))
                                              (trainer_module bad)))
           /\ (has_nul (trainer_module bad) = true ->
               fst (Loop.main es fsum lm w) = Raise ValueError)).
Proof.
  split.
  - intros es fsum lm w file pre post r H E Hpre Hm Hnul Hs.
    pose proof (named_trainer_fails es r Hm Hs) as Hr.
    destruct (main_stops_at_failure es fsum lm w file pre post r H E Hpre Hr)
      as (Hf & Hsub & Hres & Hreg).
    destruct (failed_trainer_launched es r Hr Hnul) as (_ & _ & He).
    rewrite Hnul in Hsub. rewrite He in Hf. now repeat split.
  - intros es fsum lm w file r H Hin Hm Hs.
    pose proof (named_trainer_fails es r Hm Hs) as Hr.
    destruct (first_failure es _ r Hin Hr) as (pre & bad & post & E & Hpre & Hbad).
    exists pre, bad, post.
    destruct (main_stops_at_failure es fsum lm w file pre post bad H E Hpre Hbad)
      as (Hf & Hsub & Hres & Hreg).
    split; [exact E|]. split; [exact Hpre|].
    split; [exact (failed_trainer_named es bad Hbad)|].
    split; [exact Hf|]. split; [exact Hsub|]. split; [exact Hres|].
    split; [exact Hreg|]. split.
    + intro Hnul. destruct (failed_trainer_launched es bad Hbad Hnul) as (_ & Hne & He).
      split; [exact Hne | now rewrite Hf, He].
    + intro Hnul. rewrite Hf. unfold trainer_error. now rewrite Hnul.
Qed.

Lemma failing_trainer_aborts_pipeline_witness :
  PDE_csv (world_of trainer_file) = Some trainer_file
  /\ DictReader trainer_file
     = [reader_row (hd [] trainer_file) ["heat"; "2"; "0"; "src.trainer.heat"; ""]]
       ++ reader_row (hd [] trainer_file) ["wave"; "2"; "1"; "src.trainer.wave"; "n/a"]
          :: []
  /\ forallb (trainer_ok wave_fails)
             [reader_row (hd [] trainer_file) ["heat"; "2"; "0"; "src.trainer.heat"; ""]]
     = true
  /\ fst (Loop.main wave_fails sum_plain exact_libm (world_of trainer_file))
     = Raise (CalledProcessError 3 "src.trainer.wave")
  /\ subprocesses (snd (Loop.main wave_fails sum_plain exact_libm (world_of trainer_file)))
     = ["src.trainer.heat"; "src.trainer.wave"]
  /\ results_csv (snd (Loop.main wave_fails sum_plain exact_libm (world_of trainer_file)))
     = None
  /\ exists pre bad post,
      DictReader trainer_file = pre ++ bad :: post
      /\ fst (Loop.main all_fail sum_plain exact_libm (world_of trainer_file))
         = Raise (trainer_error all_fail bad)
      /\ results_csv (snd (Loop.main all_fail sum_plain exact_libm (world_of trainer_file)))
         = None.
Proof.
  split; [reflexivity|]. split; [reflexivity|]. split; [reflexivity|].
  destruct (proj1 failing_trainer_aborts_pipeline wave_fails sum_plain exact_libm
              (world_of trainer_file) trainer_file
              [reader_row (hd [] trainer_file) ["heat"; "2"; "0"; "src.trainer.heat"; ""]]
              []
              (reader_row (hd [] trainer_file)
                 ["wave"; "2"; "1"; "src.trainer.wave"; "n/a"]))
    as (Hf & Hsub & Hres & _);
    [reflexivity | reflexivity | reflexivity | discriminate | reflexivity
     | discriminate |].
  split; [exact Hf|]. split; [exact Hsub|]. split; [exact Hres|].
  destruct (proj2 failing_trainer_aborts_pipeline all_fail sum_plain exact_libm
              (world_of trainer_file) trainer_file
              (reader_row (hd [] trainer_file)
                 ["wave"; "2"; "1"; "src.trainer.wave"; "n/a"]))
    as (pre & bad & post & E & _ & _ & Hr & _ & Hf' & _);
    [reflexivity | right; left; reflexivity | discriminate | discriminate |].
  exists pre, bad, post. repeat split; assumption.
Defined.

(** ** The exit status of [main] *)

Lemma main_completes (es : string -> Z) (fsum : list float -> float) (lm : libm) (w : world)
      (file : list (list string)) :
  PDE_csv w = Some file -> DictReader file <> [] ->
  forallb (trainer_ok es) (DictReader file) = true -> no_long_row file ->
  (forall e, Loop.linear_regression fsum lm (fst (points (DictReader file)))
                                    (snd (points (DictReader file))) <> Raise e) ->
  fst (Loop.main es fsum lm w) = Return tt.
Proof.
  intros H Hne Hok Hlen Hfit.
  rewrite (main_reaches_regression es fsum lm w file H Hne Hok Hlen).
  assert (Loop.regression_points (map processed (DictReader file))
          = Return (fst (points (DictReader file)), snd (points (DictReader file)))) as Hp.
  { rewrite (regression_points_processed _ (DictReader_csv file)).
    now destruct (points (DictReader file)). }
  destruct (Loop.linear_regression fsum lm (fst (points (DictReader file)))
                                   (snd (points (DictReader file))))
    as [[a b]|e] eqn:El; [|now destruct (Hfit e)].
  destruct (linear_regression_shape _ _ _ _ _ _ El) as [[-> ->] | (a' & b' & -> & ->)].
  - now rewrite (regression_undefined fsum lm _ _ _ _ Hp El).
  - now rewrite (regression_defined fsum lm _ _ _ _ _ _ Hp El).
Qed.

(** C6, as the code has it: [main] exits with status 1 when the input file
    does not exist, before it reads, launches or writes anything; it exits
    with status 0 when the file holds no data row; otherwise it runs to
    completion, with the status 0, provided that every trainer a row names
    is launched (its name holds no NUL character, which [subprocess.run]
    refuses) and exits with status 0, that no row has more cells than the
    header and that the fit raises no error. *)
Theorem exit_status_of_main :
  forall (es : string -> Z) (fsum : list float -> float) (lm : libm) (w : world),
    (PDE_csv w = None ->
     Loop.main es fsum lm w = (Raise (SystemExit 1), add_console MsgInputNotFound w)
     /\ exit_code (fst (Loop.main es fsum lm w)) = 1%Z)
    /\ (forall file,
           PDE_csv w = Some file -> DictReader file = [] ->
           Loop.main es fsum lm w = (Raise (SystemExit 0), add_console MsgNoRows w)
           /\ exit_code (fst (Loop.main es fsum lm w)) = 0%Z)
    /\ (forall file,
           PDE_csv w = Some file -> DictReader file <> [] ->
           forallb (trainer_ok es) (DictReader file) = true ->
           no_long_row file ->
           (forall e, Loop.linear_regression fsum lm (fst (points (DictReader file)))
                                             (snd (points (DictReader file)))
                      <> Raise e) ->
           fst (Loop.main es fsum lm w) = Return tt
           /\ exit_code (fst (Loop.main es fsum lm w)) = 0%Z).
Proof.
  intros es fsum lm w. split; [|split].
  - intro H. now rewrite (main_missing es fsum lm w H).
  - intros file H E. now rewrite (main_no_rows es fsum lm w file H E).
  - intros file H Hne Hok Hlen Hfit.
    now rewrite (main_completes es fsum lm w file H Hne Hok Hlen Hfit).
Qed.

Lemma exit_status_of_main_witness :
  PDE_csv no_input = None
  /\ exit_code (fst (Loop.main all_succeed sum_plain exact_libm no_input)) = 1%Z
  /\ DictReader [["Name"; "Dimensionality"]] = []
  /\ exit_code (fst (Loop.main all_succeed sum_plain exact_libm
                       (world_of [["Name"; "Dimensionality"]]))) = 0%Z
  /\ forallb (trainer_ok all_succeed) (DictReader line_file) = true
  /\ fst (Loop.main all_succeed sum_plain exact_libm (world_of line_file)) = Return tt.
Proof.
  split; [reflexivity|].
  split; [apply (proj1 (exit_status_of_main all_succeed sum_plain exact_libm no_input));
          reflexivity|].
  split; [reflexivity|].
  split; [apply (proj1 (proj2 (exit_status_of_main all_succeed sum_plain exact_libm
                                 (world_of [["Name"; "Dimensionality"]])))
                   [["Name"; "Dimensionality"]]); reflexivity|].
  split; [reflexivity|].
  apply (proj2 (proj2 (exit_status_of_main all_succeed sum_plain exact_libm (world_of line_file)))
           line_file).
  - reflexivity.
  - discriminate.
  - reflexivity.
  - repeat constructor.
  - intro e. vm_compute. discriminate.
Defined.

(** C6, as the specification states it, fails: the input file exists and has
    data rows, yet [main] does not run to completion, and the status is 1,
    when a trainer fails. *)
Lemma failing_trainer_is_no_success :
  PDE_csv (world_of trainer_file) = Some trainer_file
  /\ DictReader trainer_file <> []
  /\ fst (Loop.main all_fail sum_plain exact_libm (world_of trainer_file)) <> Return tt
  /\ exit_code (fst (Loop.main all_fail sum_plain exact_libm (world_of trainer_file))) = 1%Z.
Proof.
  split; [reflexivity|]. split; [discriminate|].
  split; [vm_compute; discriminate | reflexivity].
Qed.

(** ** The results file *)

Lemma in_fold_add_key (k : key) (l acc : list key) :
  In k (fold_left add_key l acc) -> In k acc \/ In k l.
Proof.
  revert acc. induction l as [|k0 l IH]; intros acc H; simpl in *; [now left|].
  apply IH in H. destruct H as [H | H]; [|right; now right].
  unfold add_key in H. destruct (key_in k0 acc); [now left|].
  apply in_app_or in H. destruct H as [H | [<- | []]]; [now left | right; now left].
Qed.

Lemma header_keys_incl (names : list string) (k : key) :
  In k (header_keys names) -> In k (map (@Some string) names).
Proof.
  intro H. apply in_fold_add_key in H. now destruct H as [[] | H].
Qed.

Lemma scorer_score_csv (r : dict) :
  csv_row r -> Scorer.compute_total_score r = Return (total_score r).
Proof. intro Hr. rewrite <- scores_agree. now apply loop_score_csv. Qed.

Lemma row_line_fields (fieldnames : list key) (r : dict) :
  map csv_field (map (fun k => dict_get r k (VStr "")) fieldnames)
  = row_line fieldnames r.
Proof. unfold row_line. now rewrite map_map. Qed.

Lemma score_and_write_spec (fieldnames : list key) (rows : list dict) (w : world) :
  Forall csv_row rows ->
  forallb (fits fieldnames) (map scored rows) = true ->
  Scorer.score_and_write fieldnames rows w
  = (Return tt, add_lines (map (row_line fieldnames) (map scored rows)) w).
Proof.
  intro Hcsv. revert w.
  induction Hcsv as [|r rows Hr Hrows IH]; intros w Hfit; [reflexivity|].
  cbn [map forallb] in Hfit. apply andb_prop in Hfit. destruct Hfit as [Hr_fit Hfit].
  cbn [Scorer.score_and_write]. unfold bind at 1, lift.
  rewrite (scorer_score_csv r Hr). fold (scored r).
  unfold bind at 1, writerow, dict_to_list. fold (fits fieldnames (scored r)).
  rewrite Hr_fit, IH by assumption.
  now rewrite row_line_fields.
Qed.

Lemma with_total_score_incl (ks : list key) (k : key) :
  In k ks -> In k (with_total_score ks).
Proof.
  intro H. unfold with_total_score.
  destruct (key_in (Some "Total_Score") ks); [assumption | apply in_or_app; now left].
Qed.

Lemma with_total_score_has (ks : list key) :
  In (Some "Total_Score") (with_total_score ks).
Proof.
  unfold with_total_score.
  destruct (key_in (Some "Total_Score") ks) eqn:E;
    [now apply key_in_In | apply in_or_app; right; now left].
Qed.

Lemma scored_rows_fit (file : list (list string)) (names : list string) :
  no_long_row file -> reader_fieldnames file = Some names ->
  forallb (fits (with_total_score (map (@Some string) names)))
          (map scored (DictReader file)) = true.
Proof.
  intros Hlen Hn. apply forallb_forall. intros r' Hr'.
  apply in_map_iff in Hr'. destruct Hr' as [r [<- Hr]].
  destruct (DictReader_keys file r Hlen Hr) as [names' [Hn' Hk]].
  assert (names' = names) as -> by congruence.
  unfold fits. rewrite scored_keys, Hk.
  apply forallb_forall. intros k Hin. apply key_in_In.
  unfold add_key in Hin.
  destruct (key_in (Some "Total_Score") (header_keys names)).
  - now apply with_total_score_incl, header_keys_incl.
  - apply in_app_or in Hin. destruct Hin as [Hin | [<- | []]].
    + now apply with_total_score_incl, header_keys_incl.
    + apply with_total_score_has.
Qed.

Lemma scorer_main_results (w : world) (file : list (list string)) (names : list string) :
  PDE_csv w = Some file -> reader_fieldnames file = Some names -> no_long_row file ->
  let fieldnames := with_total_score (map (@Some string) names) in
  Scorer.main w =
  (Return tt,
   add_console (MsgScored (List.length (DictReader file)))
     (add_lines (map (row_line fieldnames) (map scored (DictReader file)))
        (append_line (header_line fieldnames) (set_results (Some []) w)))).
Proof.
  intros H Hn Hlen fieldnames. unfold Scorer.main. rewrite H, Hn.
  fold (with_total_score (map (@Some string) names)). fold fieldnames.
  unfold bind at 1, open_results. unfold bind at 1, writeheader.
  unfold bind at 1.
  now rewrite (score_and_write_spec fieldnames _ _ (DictReader_csv file)
                 (scored_rows_fit file names Hlen Hn)).
Qed.

Lemma nth_error_map_some {A B : Type} (f : A -> B) (l : list A) (i : nat) (a : A) :
  nth_error l i = Some a -> nth_error (map f l) i = Some (f a).
Proof. intro H. now rewrite nth_error_map, H. Qed.

(** C7, as the code has it: when the input has data rows, none of them with
    more cells than the header, and every trainer a row names is launched
    (its name holds no NUL character, which [subprocess.run] refuses) and
    exits with status 0, the results file of [loop.py] holds one line for
    each record loaded, in the order of the file, under a header that lists
    the columns of the first record in their order, with Total_Score at the
    end unless it was a column already.  [scorer.py], which launches no
    trainer, writes as many lines in the same order under the header of the
    input, whose columns are those of the first record. *)
Theorem results_keep_every_row :
  forall (es : string -> Z) (fsum : list float -> float) (lm : libm) (w : world)
         (file : list (list string)) (r0 : dict) (rest : list dict),
    PDE_csv w = Some file -> DictReader file = r0 :: rest ->
    forallb (trainer_ok es) (DictReader file) = true ->
    no_long_row file ->
    (exists out,
        results_csv (snd (Loop.main es fsum lm w))
        = Some (header_line (with_total_score (dict_keys r0)) :: out)
        /\ List.length out = List.length (DictReader file)
        /\ forall i r, nth_error (DictReader file) i = Some r ->
                       nth_error out i
                       = Some (row_line (with_total_score (dict_keys r0)) (processed r)))
    /\ (exists names out,
           reader_fieldnames file = Some names
           /\ dict_keys r0 = header_keys names
           /\ results_csv (snd (Scorer.main w))
              = Some (header_line (with_total_score (map (@Some string) names)) :: out)
           /\ List.length out = List.length (DictReader file)
           /\ forall i r, nth_error (DictReader file) i = Some r ->
                          nth_error out i
                          = Some (row_line (with_total_score (map (@Some string) names))
                                           (scored r))).
Proof.
  intros es fsum lm w file r0 rest H E Hok Hlen. split.
  - assert (DictReader file <> []) as Hne by (rewrite E; discriminate).
    pose proof (main_results es fsum lm w file _ H eq_refl Hne Hok) as Hres.
    cbv zeta in Hres.
    rewrite (written_all _ _ (processed_rows_fit file Hlen)) in Hres.
    rewrite E in Hres at 1 2. rewrite output_fieldnames_processed in Hres.
    change (add_key (dict_keys r0) (Some "Total_Score"))
      with (with_total_score (dict_keys r0)) in Hres.
    eexists. split; [exact Hres|]. split.
    + now rewrite !length_map.
    + intros i r Hi. now apply nth_error_map_some, nth_error_map_some.
  - assert (In r0 (DictReader file)) as H0 by (rewrite E; now left).
    destruct (DictReader_keys file r0 Hlen H0) as [names [Hn Hk]].
    exists names. eexists. split; [exact Hn|]. split; [exact Hk|].
    rewrite (scorer_main_results w file names H Hn Hlen). cbn [snd results_csv add_console].
    split; [apply (add_lines_results _ [header_line _]); reflexivity|]. split.
    + now rewrite !length_map.
    + intros i r Hi. now apply nth_error_map_some, nth_error_map_some.
Qed.

Lemma results_keep_every_row_witness :
  PDE_csv (world_of trainer_file) = Some trainer_file
  /\ forallb (trainer_ok all_succeed) (DictReader trainer_file) = true
  /\ exists out,
      results_csv (snd (Loop.main all_succeed sum_plain exact_libm (world_of trainer_file)))
      = Some ([Text "Name"; Text "Dimensionality"; Text "Nonlinearity";
               Text "TrainerModule"; Text "L3_Error"; Text "Total_Score"] :: out)
      /\ List.length out = 2.
Proof.
  split; [reflexivity|]. split; [reflexivity|].
  destruct (results_keep_every_row all_succeed sum_plain exact_libm (world_of trainer_file)
              trainer_file
              (reader_row (hd [] trainer_file) ["heat"; "2"; "0"; "src.trainer.heat"; ""])
              [reader_row (hd [] trainer_file) ["wave"; "2"; "1"; "src.trainer.wave"; "n/a"]])
    as [(out & Hres & Hlen & _) _].
  - reflexivity.
  - reflexivity.
  - reflexivity.
  - repeat constructor.
  - exists out. split; [exact Hres | exact Hlen].
Defined.

(** C7, as the specification states it, fails: the input has two data rows,
    but a trainer fails and no results file is written at all. *)
Lemma failing_trainer_writes_no_row :
  ~ (forall (es : string -> Z) (fsum : list float -> float) (lm : libm) (w : world)
            (file : list (list string)),
        PDE_csv w = Some file -> DictReader file <> [] ->
        exists header out,
          results_csv (snd (Loop.main es fsum lm w)) = Some (header :: out)
          /\ List.length out = List.length (DictReader file)).
Proof.
  intro H.
  destruct (H all_fail sum_plain exact_libm (world_of trainer_file) trainer_file eq_refl)
    as (header & out & Hres & _); [discriminate|].
  vm_compute in Hres. discriminate Hres.
Qed.

Lemma fits_key (fieldnames : list key) (r : dict) (k : key) (v : value) :
  fits fieldnames r = true -> dict_find r k = Some v ->
  exists j, nth_error fieldnames j = Some k.
Proof.
  intros Hfit Hf. apply dict_find_in_keys in Hf.
  unfold fits in Hfit. rewrite forallb_forall in Hfit.
  apply Hfit, key_in_In in Hf. now apply In_nth_error.
Qed.

(** C8: take a record whose L3_Error is absent, empty or not a number, so
    that the loop only gives it its Total_Score.  In the line the writer has
    written for it, every original field other than Total_Score stands under
    the header of its column as it was read: a text as the same text, an
    absent cell as the empty text. *)
Theorem original_fields_are_written_unchanged :
  forall (es : string -> Z) (fsum : list float -> float) (lm : libm) (w : world)
         (file : list (list string)) (i : nat) (r : dict)
         (header line : list cell) (lines : list (list cell))
         (k : string) (v : value),
    PDE_csv w = Some file ->
    forallb (trainer_ok es) (DictReader file) = true ->
    nth_error (DictReader file) i = Some r ->
    Loop.get_error_for_row r = Return None ->
    results_csv (snd (Loop.main es fsum lm w)) = Some (header :: lines) ->
    nth_error lines i = Some line ->
    k <> "Total_Score" ->
    dict_find r (Some k) = Some v ->
    exists j,
      nth_error header j = Some (Text k)
      /\ nth_error line j = Some (csv_field v).
Proof.
  intros es fsum lm w file i r header line lines k v H Hok Hi He Hres Hline Hk Hv.
  assert (DictReader file <> []) as Hne.
  { intro E. rewrite E in Hi. destruct i; discriminate. }
  rewrite (main_results es fsum lm w file _ H eq_refl Hne Hok) in Hres.
  injection Hres as <- <-.
  set (fieldnames := Loop.output_fieldnames (map processed (DictReader file))) in *.
  rewrite nth_error_map in Hline.
  destruct (nth_error (written fieldnames (map processed (DictReader file))) i)
    as [r'|] eqn:Hw; [|discriminate].
  injection Hline as <-.
  apply written_nth in Hw. destruct Hw as [Hr' Hfit].
  rewrite (nth_error_map_some processed _ _ _ Hi) in Hr'. injection Hr' as <-.
  assert (csv_row r) as Hcsv.
  { pose proof (DictReader_csv file) as Hall. rewrite Forall_forall in Hall.
    apply Hall. eapply nth_error_In. exact Hi. }
  assert (dict_find (processed r) (Some k) = Some v) as Hv'.
  { rewrite (processed_find r (Some k) He Hcsv); [assumption | congruence]. }
  destruct (fits_key _ _ _ _ Hfit Hv') as [j Hj].
  exists j. split.
  - unfold header_line. now rewrite (nth_error_map_some _ _ _ _ Hj).
  - unfold row_line. rewrite (nth_error_map_some _ _ _ _ Hj).
    unfold dict_get. now rewrite Hv'.
Qed.

Lemma original_fields_are_written_unchanged_witness :
  nth_error (DictReader trainer_file) 1
  = Some (reader_row (hd [] trainer_file) ["wave"; "2"; "1"; "src.trainer.wave"; "n/a"])
  /\ Loop.get_error_for_row
       (reader_row (hd [] trainer_file) ["wave"; "2"; "1"; "src.trainer.wave"; "n/a"])
     = Return None
  /\ exists j,
      nth_error [Text "Name"; Text "Dimensionality"; Text "Nonlinearity";
                 Text "TrainerModule"; Text "L3_Error"; Text "Total_Score"] j
      = Some (Text "L3_Error")
      /\ nth_error [Text "wave"; Text "2"; Text "1"; Text "src.trainer.wave";
                    Text "n/a"; StrOf (VFloat 3)] j
         = Some (Text "n/a").
Proof.
  split; [reflexivity|]. split; [reflexivity|].
  apply (original_fields_are_written_unchanged all_succeed sum_plain exact_libm
           (world_of trainer_file) trainer_file 1
           (reader_row (hd [] trainer_file) ["wave"; "2"; "1"; "src.trainer.wave"; "n/a"])
           [Text "Name"; Text "Dimensionality"; Text "Nonlinearity";
            Text "TrainerModule"; Text "L3_Error"; Text "Total_Score"]
           [Text "wave"; Text "2"; Text "1"; Text "src.trainer.wave";
            Text "n/a"; StrOf (VFloat 3)]
           [[Text "heat"; Text "2"; Text "0"; Text "src.trainer.heat";
             Text ""; StrOf (VFloat 2)];
            [Text "wave"; Text "2"; Text "1"; Text "src.trainer.wave";
             Text "n/a"; StrOf (VFloat 3)]]
           "L3_Error" (VStr "n/a"));
    try reflexivity.
  discriminate.
Defined.

(** ** Remarks *)

(** Each proviso of the statements on [main] is needed.  A row with more cells
    than the header stops the writer after the rows before it ... *)
Remark long_row_stops_writer :
  Loop.main all_succeed sum_plain exact_libm (world_of long_row_file)
  = (Raise ValueError,
     {| PDE_csv := Some long_row_file;
        results_csv :=
          Some [[Text "Name"; Text "Dimensionality"; Text "Total_Score"];
                [Text "heat"; Text "1"; StrOf (VFloat 1)]];
        regression_txt := None;
        console := [MsgLoaded 2; MsgSkip (VStr "heat"); MsgSkip (VStr "wave")];
        subprocesses := [] |}).
Proof. vm_compute. reflexivity. Qed.

(** ... and a trainer module with a NUL character in its name stops the loop
    at its row, before any process is started. *)
Remark nul_module_stops_loop :
  Loop.main all_succeed sum_plain exact_libm (world_of nul_trainer_file)
  = (Raise ValueError,
     {| PDE_csv := Some nul_trainer_file;
        results_csv := None;
        regression_txt := None;
        console := [MsgLoaded 2; MsgRunning (VStr "heat") nul_module];
        subprocesses := [] |}).
Proof. vm_compute. reflexivity. Qed.

(** The denominator of the fit is zero for some xs that differ: the squared
    deviations of 0 and 1e-200 from their mean are too small for a float. *)
Remark distinct_xs_without_a_fit :
  float_of_string "1e-200" = Some tiny
  /\ is_zero (tiny - mean sum_plain [0%float; tiny]) = false
  /\ (forall lm : libm,
         pow2 lm (abs (tiny - mean sum_plain [0%float; tiny])) = zero ->
         Loop.linear_regression sum_plain lm [0%float; tiny] [1; 2]%float
         = Return (None, None))
  /\ Loop.linear_regression sum_plain exact_libm [0%float; tiny] [1; 2]%float
     = Return (None, None).
Proof.
  split; [vm_compute; reflexivity|]. split; [vm_compute; reflexivity|].
  split; [|vm_compute; reflexivity].
  intros [p e] H. cbn [pow2] in H. vm_compute in H.
  vm_compute. rewrite H. now destruct (e _).
Qed.

(** What [float] makes of some texts. *)
Remark float_of_string_examples :
  map float_of_string ["1.5"; " 2 "; "1e3"; "1_000"; "-2.5E-1"; ".5"; "5."]
  = map (@Some float) [1.5; 2; 1000; 1000; -0.25; 0.5; 5]%float
  /\ map float_of_string ["inf"; "-Infinity"; "NaN"; "1e400"]
     = map (@Some float) [infinity; neg_infinity; nan; infinity]
  /\ map float_of_string [""; " "; "abc"; "1e"; "1__0"; "0x10"; "1 2"; "."]
     = [None; None; None; None; None; None; None; None].
Proof. repeat split; vm_compute; reflexivity. Qed.

(** * Further properties of the two scripts *)

(** ** Scoring reads the five scoring columns only *)

Lemma loop_score_ext (r r' : dict) :
  (forall col, In col Loop.SCORING_COLUMNS ->
               dict_find r (Some col) = dict_find r' (Some col)) ->
  Loop.compute_total_score r = Loop.compute_total_score r'.
Proof.
  intro H. unfold Loop.compute_total_score, dict_get.
  assert (forall (l : list string) (t : result float),
             (forall col, In col l -> dict_find r (Some col) = dict_find r' (Some col)) ->
             fold_left
               (fun total col =>
                  rbind total (fun total =>
                  rbind (Loop.parse_float
                           match dict_find r (Some col) with
                           | Some v => v
                           | None => VNone
                           end (Some zero)) (fun v => Loop.add_to total v)))
               l t
             = fold_left
                 (fun total col =>
                    rbind total (fun total =>
                    rbind (Loop.parse_float
                             match dict_find r' (Some col) with
                             | Some v => v
                             | None => VNone
                             end (Some zero)) (fun v => Loop.add_to total v)))
                 l t) as Hfold.
  { induction l as [|c l IH]; intros t Hl; [reflexivity|].
    cbn [fold_left]. rewrite (Hl c) by now left.
    apply IH. intros col Hc. apply Hl. now right. }
  now apply Hfold.
Qed.

Lemma loop_score_set (r : dict) (k : key) (v : value) :
  not_scored k = true ->
  Loop.compute_total_score (dict_set r k v) = Loop.compute_total_score r.
Proof.
  intro Hk. apply loop_score_ext. intros col Hc. apply dict_find_set_other.
  intros ->. unfold not_scored in Hk.
  assert (key_in (Some col) (map (@Some string) Loop.SCORING_COLUMNS) = true) as E
    by (apply key_in_In; now apply in_map).
  rewrite E in Hk. discriminate.
Qed.

(** X1: storing a value under a column that is not a scoring column, as [main]
    does with Total_Score and L3_Error, changes the score of neither
    script. *)
Theorem score_ignores_other_columns :
  forall (r : dict) (k : key) (v : value),
    not_scored k = true ->
    Loop.compute_total_score (dict_set r k v) = Loop.compute_total_score r
    /\ Scorer.compute_total_score (dict_set r k v) = Scorer.compute_total_score r.
Proof.
  intros r k v Hk. pose proof (loop_score_set r k v Hk) as H.
  split; [exact H | now rewrite <- !scores_agree].
Qed.

Lemma score_ignores_other_columns_witness :
  not_scored (Some "L3_Error") = true
  /\ Loop.compute_total_score (dict_set example_row (Some "L3_Error") (VStr "7"))
     = Loop.compute_total_score example_row.
Proof.
  split; [reflexivity|].
  apply (score_ignores_other_columns example_row (Some "L3_Error") (VStr "7")).
  reflexivity.
Defined.

(** ** What [parse_float] lets through *)

Lemma py_float_raises (v : value) (e : exn) :
  py_float v = Raise e ->
  e = TypeError \/ e = ValueError
  \/ (e = OverflowError /\ exists z, v = VInt z).
Proof.
  destruct v as [|s|z|f|l]; simpl.
  - intros [= <-]. now left.
  - destruct (float_of_string s); [discriminate|]. intros [= <-]. right. now left.
  - unfold float_of_int. destruct (is_infinity _); [|discriminate].
    intros [= <-]. right. right. split; [reflexivity | now exists z].
  - discriminate.
  - intros [= <-]. now left.
Qed.

(** X2: the [except] clause of either [parse_float] catches what [float] raises on
    a text, on [None] and on a list; the one error that gets through is the
    [OverflowError] of an integer too large for a float. *)
Theorem parse_float_raises_only_on_huge_int :
  forall (val : value) (e : exn),
    (forall default, Loop.parse_float val default = Raise e ->
                     e = OverflowError /\ exists z, val = VInt z)
    /\ (Scorer.parse_float val = Raise e ->
        e = OverflowError /\ exists z, val = VInt z).
Proof.
  intros val e. split.
  - intros default. unfold Loop.parse_float.
    destruct (Loop.is_none val || Loop.is_empty_str val)%bool; [discriminate|].
    destruct (py_float val) as [f|e'] eqn:E; [discriminate|].
    destruct (py_float_raises _ _ E) as [-> | [-> | [-> Hz]]]; try discriminate.
    intros [= <-]. now split.
  - unfold Scorer.parse_float.
    destruct (py_float val) as [f|e'] eqn:E; [discriminate|].
    destruct (py_float_raises _ _ E) as [-> | [-> | [-> Hz]]]; try discriminate.
    intros [= <-]. now split.
Qed.

Lemma parse_float_raises_only_on_huge_int_witness :
  Loop.parse_float (VInt huge_int) None = Raise OverflowError
  /\ Scorer.parse_float (VInt huge_int) = Raise OverflowError
  /\ exists z, VInt huge_int = VInt z.
Proof.
  split; [vm_compute; reflexivity|]. split; [vm_compute; reflexivity|].
  apply (proj2 (parse_float_raises_only_on_huge_int (VInt huge_int) OverflowError)).
  vm_compute. reflexivity.
Defined.

(** ** The trainer invoker on a row that names a trainer *)

(** X3: for a row whose TrainerModule is a text that is not blank, the invoker
    prints the start and touches no file.  When the stripped text holds a NUL
    character, [subprocess.run] raises [ValueError]: no subprocess is launched
    and the end is not printed.  Otherwise one subprocess is launched, for the
    stripped text: when it exits with status 0 the invoker prints the end and
    returns; otherwise it raises [CalledProcessError] with that status, and
    the end is not printed. *)
Theorem named_trainer_is_run_at_most_once :
  forall (es : string -> Z) (row : dict) (s : string) (w : world),
    dict_find row (Some "TrainerModule") = Some (VStr s) ->
    strip s <> "" ->
    let w' := snd (Loop.run_trainer_for_row es row w) in
    same_files w w'
    /\ ((has_nul (strip s) = true
         /\ fst (Loop.run_trainer_for_row es row w) = Raise ValueError
         /\ subprocesses w' = subprocesses w
         /\ console w' = console w ++ [MsgRunning (row_name row) (strip s)])
        \/ (has_nul (strip s) = false /\ es (strip s) = 0%Z
            /\ fst (Loop.run_trainer_for_row es row w) = Return tt
            /\ subprocesses w' = subprocesses w ++ [strip s]
            /\ console w' = console w ++ [MsgRunning (row_name row) (strip s);
                                          MsgDone (row_name row)])
        \/ (has_nul (strip s) = false /\ es (strip s) <> 0%Z
            /\ fst (Loop.run_trainer_for_row es row w)
               = Raise (CalledProcessError (es (strip s)) (strip s))
            /\ subprocesses w' = subprocesses w ++ [strip s]
            /\ console w' = console w ++ [MsgRunning (row_name row) (strip s)])).
Proof.
  intros es row s w Hf Hs.
  assert (s <> "") as Hne by (intros ->; now apply Hs).
  unfold Loop.run_trainer_for_row, bind, lift, dict_get. rewrite Hf.
  unfold Loop.or_empty_strip. cbn [Loop.truthy].
  apply String.eqb_neq in Hne. rewrite Hne. cbn [negb].
  apply String.eqb_neq in Hs. rewrite Hs.
  fold (dict_get row (Some "Name") (VStr "UNKNOWN")). fold (row_name row).
  unfold print, Loop.subprocess_run. cbn.
  destruct (has_nul (strip s)) eqn:Hnul; cbn.
  { split; [now repeat split|]. left. now repeat split. }
  destruct (es (strip s) =? 0)%Z eqn:E; cbn.
  - apply Z.eqb_eq in E. split; [now repeat split|].
    right. left. split; [reflexivity|]. split; [assumption|].
    split; [reflexivity|]. split; [reflexivity|]. now rewrite <- app_assoc.
  - apply Z.eqb_neq in E. split; [now repeat split|].
    right. right. now repeat split.
Qed.

Lemma named_trainer_is_run_at_most_once_witness :
  strip " src.trainer.heat " <> ""
  /\ same_files no_input
       (snd (Loop.run_trainer_for_row all_fail
               (text_row [("TrainerModule", " src.trainer.heat ")]) no_input))
  /\ fst (Loop.run_trainer_for_row all_fail
            (text_row [("TrainerModule", " src.trainer.heat ")]) no_input)
     = Raise (CalledProcessError 1 "src.trainer.heat")
  /\ fst (Loop.run_trainer_for_row all_succeed
            (text_row [("TrainerModule", nul_module)]) no_input)
     = Raise ValueError
  /\ subprocesses (snd (Loop.run_trainer_for_row all_succeed
                          (text_row [("TrainerModule", nul_module)]) no_input))
     = [].
Proof.
  split; [discriminate|].
  split; [|vm_compute; repeat split].
  apply (named_trainer_is_run_at_most_once all_fail
           (text_row [("TrainerModule", " src.trainer.heat ")])
           " src.trainer.heat " no_input); [reflexivity | discriminate].
Defined.

(** ** The loop body on any row *)

(** What a row looks like when the loop body has returned. *)
Lemma process_row_returns (es : string -> Z) (row row' : dict) (w w' : world) :
  Loop.process_row es row w = (Return row', w') ->
  exists score err,
    Loop.compute_total_score row = Return score
    /\ Loop.get_error_for_row (dict_set row (Some "Total_Score") (VFloat score))
       = Return err
    /\ row' = match err with
              | Some e => dict_set (dict_set row (Some "Total_Score") (VFloat score))
                            (Some "L3_Error") (VFloat e)
              | None => dict_set row (Some "Total_Score") (VFloat score)
              end.
Proof.
  unfold Loop.process_row, bind, lift.
  destruct (Loop.compute_total_score row) as [score|e]; [|discriminate].
  destruct (Loop.run_trainer_for_row es _ w) as [[[]|e] w1]; [|discriminate].
  destruct (Loop.get_error_for_row _) as [err|e] eqn:E; [|discriminate].
  unfold ret. intros [= <- <-]. exists score, err. now repeat split.
Qed.

Lemma get_error_needs_key (d : dict) (e : float) :
  Loop.get_error_for_row d = Return (Some e) ->
  key_in (Some "L3_Error") (dict_keys d) = true.
Proof.
  unfold Loop.get_error_for_row, dict_get. intro H.
  destruct (dict_find d (Some "L3_Error")) as [v|] eqn:Hf; [|discriminate].
  apply key_in_In. now apply dict_find_in_keys in Hf.
Qed.

Lemma get_error_set_score (row : dict) (v : value) :
  Loop.get_error_for_row (dict_set row (Some "Total_Score") v)
  = Loop.get_error_for_row row.
Proof.
  unfold Loop.get_error_for_row.
  now rewrite dict_get_set_other by (now apply key_neq).
Qed.

(** X4: the loop body adds one column at most: the columns of the row it returns
    are those of the row it was given, in their order, with Total_Score at the
    end unless it was there; storing the error adds no column. *)
Theorem process_row_keeps_columns :
  forall (es : string -> Z) (row row' : dict) (w w' : world),
    Loop.process_row es row w = (Return row', w') ->
    dict_keys row' = with_total_score (dict_keys row).
Proof.
  intros es row row' w w' H.
  destruct (process_row_returns es row row' w w' H) as (score & err & _ & He & ->).
  change (with_total_score (dict_keys row))
    with (add_key (dict_keys row) (Some "Total_Score")).
  destruct err as [e|]; [|apply keys_add].
  rewrite keys_add. unfold add_key at 1.
  now rewrite (get_error_needs_key _ _ He), keys_add.
Qed.

Lemma process_row_keeps_columns_witness :
  Loop.process_row all_succeed example_row no_input
  = (Return (scored example_row), add_console (MsgSkip (VStr "UNKNOWN")) no_input)
  /\ dict_keys (scored example_row)
     = with_total_score (dict_keys example_row).
Proof.
  split; [vm_compute; reflexivity|].
  apply (process_row_keeps_columns all_succeed example_row (scored example_row)
           no_input (add_console (MsgSkip (VStr "UNKNOWN")) no_input)).
  vm_compute. reflexivity.
Defined.

(** X5: the loop body leaves every field other than Total_Score and L3_Error as
    it was, and Total_Score holds the score of the row it was given. *)
Theorem process_row_frame :
  forall (es : string -> Z) (row row' : dict) (w w' : world),
    Loop.process_row es row w = (Return row', w') ->
    (forall k, k <> Some "Total_Score" -> k <> Some "L3_Error" ->
               dict_find row' k = dict_find row k)
    /\ exists score, Loop.compute_total_score row = Return score
                     /\ dict_find row' (Some "Total_Score") = Some (VFloat score).
Proof.
  intros es row row' w w' H.
  destruct (process_row_returns es row row' w w' H) as (score & err & Hs & _ & ->).
  split.
  - intros k H1 H2. destruct err as [e|].
    + rewrite dict_find_set_other by congruence.
      apply dict_find_set_other. congruence.
    + apply dict_find_set_other. congruence.
  - exists score. split; [exact Hs|]. destruct err as [e|].
    + rewrite dict_find_set_other by (now apply key_neq). apply dict_find_set_same.
    + apply dict_find_set_same.
Qed.

Lemma process_row_frame_witness :
  Loop.process_row all_succeed example_row no_input
  = (Return (scored example_row), add_console (MsgSkip (VStr "UNKNOWN")) no_input)
  /\ dict_find (scored example_row) (Some "Time") = dict_find example_row (Some "Time").
Proof.
  split; [vm_compute; reflexivity|].
  apply (proj1 (process_row_frame all_succeed example_row (scored example_row)
                  no_input (add_console (MsgSkip (VStr "UNKNOWN")) no_input)
                  ltac:(vm_compute; reflexivity)));
    discriminate.
Defined.

(** X6: what the loop body stores is what the later stages read back: on the row
    it returns, the error collector gives the error it gave on the row as it
    was read, and scoring gives the score that is stored. *)
Theorem process_row_is_stable :
  forall (es : string -> Z) (row row' : dict) (w w' : world),
    Loop.process_row es row w = (Return row', w') ->
    Loop.get_error_for_row row' = Loop.get_error_for_row row
    /\ Loop.compute_total_score row' = Loop.compute_total_score row
    /\ exists score,
        Loop.compute_total_score row' = Return score
        /\ Loop.parse_float (dict_get row' (Some "Total_Score") VNone) None
           = Return (Some score).
Proof.
  intros es row row' w w' H.
  destruct (process_row_returns es row row' w w' H) as (score & err & Hs & He & ->).
  rewrite get_error_set_score in He.
  destruct err as [e|].
  - assert (Loop.compute_total_score
              (dict_set (dict_set row (Some "Total_Score") (VFloat score))
                 (Some "L3_Error") (VFloat e)) = Loop.compute_total_score row) as Hsame
      by (now rewrite !loop_score_set).
    split; [|split; [exact Hsame|]].
    + rewrite He. unfold Loop.get_error_for_row, dict_get.
      now rewrite dict_find_set_same.
    + exists score. split; [now rewrite Hsame|].
      unfold dict_get.
      rewrite dict_find_set_other by (now apply key_neq).
      now rewrite dict_find_set_same.
  - assert (Loop.compute_total_score (dict_set row (Some "Total_Score") (VFloat score))
            = Loop.compute_total_score row) as Hsame
      by (now rewrite loop_score_set).
    split; [apply get_error_set_score | split; [exact Hsame|]].
    exists score. split; [now rewrite Hsame|].
    unfold dict_get. now rewrite dict_find_set_same.
Qed.

Lemma process_row_is_stable_witness :
  Loop.process_row all_succeed example_row no_input
  = (Return (scored example_row), add_console (MsgSkip (VStr "UNKNOWN")) no_input)
  /\ Loop.compute_total_score (scored example_row) = Return 3%float.
Proof.
  split; [vm_compute; reflexivity|].
  destruct (process_row_is_stable all_succeed example_row (scored example_row)
              no_input (add_console (MsgSkip (VStr "UNKNOWN")) no_input)
              ltac:(vm_compute; reflexivity)) as (_ & -> & _).
  vm_compute. reflexivity.
Defined.

(** ** The points of the regression *)

Lemma points_step_raise (rows : list dict) (e : exn)
      (step : result (list float * list float) -> dict -> result (list float * list float)) :
  (forall r, step (Raise e) r = Raise e) ->
  fold_left step rows (Raise e) = Raise e.
Proof.
  intro H. induction rows as [|r rows IH]; [reflexivity|].
  cbn [fold_left]. now rewrite H.
Qed.

Lemma regression_points_invariant (rows : list dict)
      (acc : list float * list float) (xs ys : list float) :
  fold_left
    (fun acc r =>
       rbind acc (fun '(xs, ys) =>
       rbind (Loop.parse_float (dict_get r (Some "Total_Score") VNone) None) (fun score =>
       rbind (Loop.parse_float (dict_get r (Some "L3_Error") VNone) None) (fun err =>
       match score, err with
       | Some s, Some e =>
           if negb (is_nan e) then Return (xs ++ [s], ys ++ [e])
           else Return (xs, ys)
       | _, _ => Return (xs, ys)
       end))))
    rows (Return acc) = Return (xs, ys) ->
  List.length (fst acc) = List.length (snd acc) ->
  Forall (fun e => is_nan e = false) (snd acc) ->
  List.length xs = List.length ys
  /\ (List.length xs <= List.length (fst acc) + List.length rows)%nat
  /\ Forall (fun e => is_nan e = false) ys.
Proof.
  revert acc. induction rows as [|r rows IH]; intros [xs0 ys0] H Hlen Hnan.
  - cbn in H. injection H as <- <-. cbn [fst snd] in *.
    repeat split; [assumption | simpl; lia | assumption].
  - cbn [fold_left] in H. cbn [rbind] in H.
    destruct (Loop.parse_float (dict_get r (Some "Total_Score") VNone) None)
      as [score|e]; cbn [rbind] in H;
      [|rewrite points_step_raise in H by reflexivity; discriminate].
    destruct (Loop.parse_float (dict_get r (Some "L3_Error") VNone) None)
      as [err|e]; cbn [rbind] in H;
      [|rewrite points_step_raise in H by reflexivity; discriminate].
    cbn [fst snd List.length] in *.
    destruct score as [s|]; [destruct err as [e|]|].
    + destruct (is_nan e) eqn:En; cbn [negb] in H.
      * destruct (IH _ H Hlen Hnan) as (H1 & H2 & H3). cbn [fst] in H2.
        repeat split; [assumption | lia | assumption].
      * destruct (IH (xs0 ++ [s], ys0 ++ [e]) H) as (H1 & H2 & H3).
        -- cbn [fst snd]. rewrite !length_app. simpl. lia.
        -- cbn [snd]. apply Forall_app. split; [assumption | now constructor].
        -- cbn [fst] in H2. rewrite length_app in H2. simpl in H2.
           repeat split; [assumption | lia | assumption].
    + destruct (IH _ H Hlen Hnan) as (H1 & H2 & H3). cbn [fst] in H2.
      repeat split; [assumption | lia | assumption].
    + destruct (IH _ H Hlen Hnan) as (H1 & H2 & H3). cbn [fst] in H2.
      repeat split; [assumption | lia | assumption].
Qed.

(** X7: whatever the rows hold, the scores and the errors collected for the
    regression are as many as each other, no more than the rows, and no error
    among them is NaN: the fitter is always called on lists of equal length. *)
Theorem regression_points_are_paired :
  forall (rows : list dict) (xs ys : list float),
    Loop.regression_points rows = Return (xs, ys) ->
    List.length xs = List.length ys
    /\ (List.length xs <= List.length rows)%nat
    /\ Forall (fun e => is_nan e = false) ys.
Proof.
  intros rows xs ys H.
  apply (regression_points_invariant rows ([], []) xs ys H); [reflexivity | constructor].
Qed.

Lemma regression_points_are_paired_witness :
  Loop.regression_points (map processed (DictReader line_file))
  = Return ([1; 2; 3]%float, [2; 4; 6]%float)
  /\ List.length [1; 2; 3]%float = List.length [2; 4; 6]%float.
Proof.
  split; [vm_compute; reflexivity|].
  apply (regression_points_are_paired (map processed (DictReader line_file))
           [1; 2; 3]%float [2; 4; 6]%float).
  vm_compute. reflexivity.
Defined.

(** ** What the fitter returns and raises *)

Lemma float_pow2_raises (lm : libm) (x : float) (e : exn) :
  float_pow2 lm x = Raise e -> e = OverflowError.
Proof.
  unfold float_pow2.
  destruct (is_nan x); [discriminate|].
  destruct (is_infinity x); [discriminate|].
  destruct (is_zero x); [discriminate|].
  destruct (abs x =? one)%float; [discriminate|].
  destruct (if pow2_erange lm (abs x) then _ else _);
    [now intros [= <-] | discriminate].
Qed.

Lemma squares_raise (lm : libm) (f : float -> float) (xs : list float) (e : exn) :
  map_result (fun x => float_pow2 lm (f x)) xs = Raise e -> e = OverflowError.
Proof.
  induction xs as [|x xs IH]; cbn [map_result]; [discriminate|].
  destruct (float_pow2 lm (f x)) as [p|e'] eqn:E; cbn [rbind].
  - destruct (map_result _ xs); [discriminate | intros [= <-]; now apply IH].
  - intros [= <-]. exact (float_pow2_raises lm _ _ E).
Qed.

(** X8: the fitter never returns half a line: the slope is undefined exactly when
    the intercept is, so that [main] need only test the slope.  The one error
    it can raise is the [OverflowError] of a squared deviation. *)
Theorem fitter_returns_a_line_or_nothing :
  forall (fsum : list float -> float) (lm : libm) (xs ys : list float),
    (forall a b, Loop.linear_regression fsum lm xs ys = Return (a, b) ->
                 (a = None /\ b = None) \/ (exists a' b', a = Some a' /\ b = Some b'))
    /\ (forall e, Loop.linear_regression fsum lm xs ys = Raise e -> e = OverflowError).
Proof.
  intros fsum lm xs ys. split.
  - intros a b. apply linear_regression_shape.
  - intro e. unfold Loop.linear_regression.
    destruct (List.length xs =? 0)%nat; [discriminate|].
    destruct (map_result _ xs) as [squares|e'] eqn:E; cbn [rbind].
    + destruct (is_zero _); discriminate.
    + intros [= <-]. exact (squares_raise _ _ xs e' E).
Qed.

Lemma fitter_returns_a_line_or_nothing_witness :
  Loop.linear_regression sum_plain exact_libm [1; 2; 3]%float [2; 4; 6]%float
  = Return (Some 2%float, Some 0%float)
  /\ ((Some 2%float = None /\ Some 0%float = None)
      \/ exists a' b', Some 2%float = Some a' /\ Some 0%float = Some b').
Proof.
  split; [vm_compute; reflexivity|].
  apply (proj1 (fitter_returns_a_line_or_nothing sum_plain exact_libm
                  [1; 2; 3]%float [2; 4; 6]%float)).
  vm_compute. reflexivity.
Defined.

(** ** The ways [main] ends *)

Lemma some_trainer_fails (es : string -> Z) (rows : list dict) :
  forallb (trainer_ok es) rows = false ->
  exists pre bad post,
    rows = pre ++ bad :: post
    /\ forallb (trainer_ok es) pre = true /\ trainer_ok es bad = false.
Proof.
  induction rows as [|r rows IH]; [discriminate|].
  cbn [forallb]. destruct (trainer_ok es r) eqn:E; cbn [andb].
  - intro H. destruct (IH H) as (pre & bad & post & -> & Hpre & Hbad).
    exists (r :: pre), bad, post. cbn [forallb app]. rewrite E. now repeat split.
  - intros _. exists [], r, rows. now repeat split.
Qed.

Lemma regression_of_read_rows (fsum : list float -> float) (lm : libm)
      (file : list (list string)) (w : world) :
  let rows := map processed (DictReader file) in
  let pts := points (DictReader file) in
  (fst (Loop.regression fsum lm rows w) = Return tt
   /\ exists ab, Loop.linear_regression fsum lm (fst pts) (snd pts) = Return ab)
  \/ (Loop.regression fsum lm rows w = (Raise OverflowError, w)
      /\ Loop.linear_regression fsum lm (fst pts) (snd pts) = Raise OverflowError).
Proof.
  intros rows pts.
  assert (Loop.regression_points rows = Return (fst pts, snd pts)) as Hp.
  { unfold rows, pts. rewrite (regression_points_processed _ (DictReader_csv file)).
    now destruct (points (DictReader file)). }
  destruct (Loop.linear_regression fsum lm (fst pts) (snd pts)) as [[a b]|e] eqn:El.
  - left. split; [|now eexists].
    destruct (linear_regression_shape _ _ _ _ _ _ El) as [[-> ->] | (a' & b' & -> & ->)].
    + now rewrite (regression_undefined fsum lm _ _ _ _ Hp El).
    + now rewrite (regression_defined fsum lm _ _ _ _ _ _ Hp El).
  - right.
    assert (e = OverflowError) as ->.
    { revert El. unfold Loop.linear_regression.
      destruct (List.length (fst pts) =? 0)%nat; [discriminate|].
      destruct (map_result _ (fst pts)) as [squares|e'] eqn:E; cbn [rbind].
      - destruct (is_zero _); discriminate.
      - intros [= <-]. exact (squares_raise _ _ _ e' E). }
    split; [|reflexivity].
    unfold Loop.regression, bind, lift. now rewrite Hp, El.
Qed.

(** X9: [main] can end with an error in six ways only: the exit with status 1
    for a missing input, the exit with status 0 for an input without data
    rows, the [CalledProcessError] of a trainer that is launched and exits
    with a status other than 0, the [ValueError] of [subprocess.run] for a
    trainer module with a NUL character in its name, the [ValueError] of the
    writer for an input with a row longer than its header, and the
    [OverflowError] of the fitter. *)
Theorem main_ends_in_six_ways :
  forall (es : string -> Z) (fsum : list float -> float) (lm : libm) (w : world) (e : exn),
    fst (Loop.main es fsum lm w) = Raise e ->
    (e = SystemExit 1 /\ PDE_csv w = None)
    \/ (e = SystemExit 0 /\ exists file, PDE_csv w = Some file /\ DictReader file = [])
    \/ (exists file r,
           PDE_csv w = Some file /\ In r (DictReader file)
           /\ trainer_module r <> "" /\ has_nul (trainer_module r) = false
           /\ es (trainer_module r) <> 0%Z
           /\ e = CalledProcessError (es (trainer_module r)) (trainer_module r))
    \/ (e = ValueError
        /\ exists file r,
            PDE_csv w = Some file /\ In r (DictReader file)
            /\ has_nul (trainer_module r) = true)
    \/ (e = ValueError /\ exists file, PDE_csv w = Some file /\ ~ no_long_row file)
    \/ (e = OverflowError
        /\ exists file,
            PDE_csv w = Some file
            /\ Loop.linear_regression fsum lm (fst (points (DictReader file)))
                 (snd (points (DictReader file))) = Raise OverflowError).
Proof.
  intros es fsum lm w e H.
  destruct (PDE_csv w) as [file|] eqn:Hf.
  2:{ rewrite (main_missing es fsum lm w Hf) in H. injection H as <-. now left. }
  destruct (DictReader file) as [|r0 rest] eqn:Hrows.
  { rewrite (main_no_rows es fsum lm w file Hf Hrows) in H. injection H as <-.
    right. left. split; [reflexivity | now exists file]. }
  assert (DictReader file <> []) as Hne by (rewrite Hrows; discriminate).
  destruct (forallb (trainer_ok es) (DictReader file)) eqn:Hok.
  - rewrite (main_trainers_ok es fsum lm w file _ Hf eq_refl Hne Hok) in H.
    destruct (forallb _ (map processed (DictReader file))) eqn:Hfit.
    + destruct (regression_of_read_rows fsum lm file
                  (add_console MsgWrote
                     (after_writer
                        (Loop.output_fieldnames (map processed (DictReader file)))
                        (map processed (DictReader file))
                        (after_loop (DictReader file) w))))
        as [[Hr _] | [Hr Hl]].
      * rewrite Hr in H. discriminate.
      * rewrite Hr in H. injection H as <-.
        right. right. right. right. right. split; [reflexivity | now exists file].
    + injection H as <-. right. right. right. right. left.
      split; [reflexivity|]. exists file. split; [reflexivity|].
      intro Hlen. rewrite (processed_rows_fit file Hlen) in Hfit. discriminate.
  - destruct (some_trainer_fails es _ Hok) as (pre & bad & post & E & Hpre & Hbad).
    rewrite (main_trainer_fails es fsum lm w file pre post bad Hf E Hpre Hbad) in H.
    injection H as <-.
    assert (In bad (DictReader file)) as Hin
      by (rewrite E; apply in_or_app; right; now left).
    destruct (has_nul (trainer_module bad)) eqn:Hnul.
    + right. right. right. left. unfold trainer_error. rewrite Hnul.
      split; [reflexivity|]. exists file, bad. now repeat split.
    + right. right. left. exists file, bad.
      destruct (failed_trainer_launched es bad Hbad Hnul) as (_ & Hs & He).
      split; [reflexivity|]. split; [exact Hin|].
      split; [exact (failed_trainer_named es bad Hbad)|]. now repeat split.
Qed.

Lemma main_ends_in_six_ways_witness :
  fst (Loop.main all_succeed sum_plain exact_libm (world_of long_row_file)) = Raise ValueError
  /\ ((exists file r,
         PDE_csv (world_of long_row_file) = Some file /\ In r (DictReader file)
         /\ has_nul (trainer_module r) = true)
      \/ exists file, PDE_csv (world_of long_row_file) = Some file /\ ~ no_long_row file).
Proof.
  split; [vm_compute; reflexivity|].
  destruct (main_ends_in_six_ways all_succeed sum_plain exact_libm (world_of long_row_file)
              ValueError ltac:(vm_compute; reflexivity))
    as [[H _] | [[H _] | [(file & r & _ & _ & _ & _ & _ & H)
                         | [[_ H] | [[_ H] | [H _]]]]]];
    try discriminate H.
  - left. exact H.
  - right. exact H.
Defined.

(** ** What the scripts leave alone *)

Lemma append_line_frame (line : list cell) (w : world) :
  PDE_csv (append_line line w) = PDE_csv w
  /\ regression_txt (append_line line w) = regression_txt w
  /\ console (append_line line w) = console w
  /\ subprocesses (append_line line w) = subprocesses w.
Proof. now repeat split. Qed.

Lemma score_and_write_frame (fieldnames : list key) (rows : list dict)
      (w w' : world) (res : result unit) :
  Scorer.score_and_write fieldnames rows w = (res, w') ->
  PDE_csv w' = PDE_csv w /\ regression_txt w' = regression_txt w
  /\ console w' = console w /\ subprocesses w' = subprocesses w.
Proof.
  revert w. induction rows as [|r rows IH]; intro w.
  - intros [= _ <-]. now repeat split.
  - cbn [Scorer.score_and_write]. unfold bind at 1, lift.
    destruct (Scorer.compute_total_score r) as [score|e];
      [|intros [= _ <-]; now repeat split].
    unfold bind at 1, writerow.
    destruct (dict_to_list fieldnames _) as [vs|e];
      [|intros [= _ <-]; now repeat split].
    intro H. destruct (IH _ H) as (H1 & H2 & H3 & H4).
    rewrite H1, H2, H3, H4. now repeat split.
Qed.

Lemma main_input_kept (es : string -> Z) (fsum : list float -> float) (lm : libm) (w : world) :
  PDE_csv (snd (Loop.main es fsum lm w)) = PDE_csv w.
Proof.
  destruct (PDE_csv w) as [file|] eqn:Hf.
  2:{ now rewrite (main_missing es fsum lm w Hf). }
  destruct (DictReader file) as [|r0 rest] eqn:Hrows.
  { now rewrite (main_no_rows es fsum lm w file Hf Hrows). }
  assert (DictReader file <> []) as Hne by (rewrite Hrows; discriminate).
  destruct (forallb (trainer_ok es) (DictReader file)) eqn:Hok.
  - rewrite (main_trainers_ok es fsum lm w file _ Hf eq_refl Hne Hok).
    assert (PDE_csv (after_writer
                       (Loop.output_fieldnames (map processed (DictReader file)))
                       (map processed (DictReader file))
                       (after_loop (DictReader file) w)) = Some file) as Hw.
    { destruct (after_writer_frame
                  (Loop.output_fieldnames (map processed (DictReader file)))
                  (map processed (DictReader file)) (after_loop (DictReader file) w))
        as (-> & _).
      rewrite <- Hf. apply (after_loop_files (DictReader file) w). }
    destruct (forallb _ (map processed (DictReader file))); [|exact Hw].
    destruct (regression_frame fsum lm (map processed (DictReader file))
                (add_console MsgWrote
                   (after_writer
                      (Loop.output_fieldnames (map processed (DictReader file)))
                      (map processed (DictReader file))
                      (after_loop (DictReader file) w)))) as (-> & _).
    exact Hw.
  - destruct (some_trainer_fails es _ Hok) as (pre & bad & post & E & Hpre & Hbad).
    rewrite (main_trainer_fails es fsum lm w file pre post bad Hf E Hpre Hbad).
    cbn [snd]. rewrite <- Hf.
    eapply eq_trans; [apply same_files_failed|].
    eapply eq_trans; [apply same_files_after_trainers|]. reflexivity.
Qed.

(** X10: neither script ever changes the input file, however the run ends; and
    [scorer.py] starts no subprocess and writes no regression file. *)
Theorem input_file_is_never_changed :
  forall (es : string -> Z) (fsum : list float -> float) (lm : libm) (w : world),
    PDE_csv (snd (Loop.main es fsum lm w)) = PDE_csv w
    /\ PDE_csv (snd (Scorer.main w)) = PDE_csv w
    /\ subprocesses (snd (Scorer.main w)) = subprocesses w
    /\ regression_txt (snd (Scorer.main w)) = regression_txt w.
Proof.
  intros es fsum lm w. split; [apply main_input_kept|].
  destruct (Scorer.main w) as [res w'] eqn:Em. cbn [snd].
  unfold Scorer.main in Em.
  destruct (PDE_csv w) as [file|] eqn:Hf.
  2:{ injection Em as _ <-. now rewrite Hf. }
  set (fieldnames := if key_in _ _ then _ else _) in Em.
  unfold bind at 1, open_results in Em. unfold bind at 1, writeheader in Em.
  unfold bind at 1 in Em.
  destruct (Scorer.score_and_write fieldnames (DictReader file)
              (append_line (map (fun k => csv_field (key_value k)) fieldnames)
                 (set_results (Some []) w))) as [res1 w1] eqn:E.
  destruct (score_and_write_frame _ _ _ _ _ E) as (H1 & H2 & H3 & H4).
  rewrite <- Hf.
  destruct res1 as [[]|e]; injection Em as _ <-;
    cbn [PDE_csv subprocesses regression_txt add_console];
    rewrite H1, H2, H4; now repeat split.
Qed.

(** ** The trainers [main] launches *)

Lemma main_subprocesses_ok (es : string -> Z) (fsum : list float -> float) (lm : libm) (w : world)
      (file : list (list string)) :
  PDE_csv w = Some file ->
  forallb (trainer_ok es) (DictReader file) = true ->
  subprocesses (snd (Loop.main es fsum lm w)) = subprocesses w ++ launched (DictReader file).
Proof.
  intros Hf Hok.
  destruct (DictReader file) as [|r0 rest] eqn:Hrows.
  { rewrite (main_no_rows es fsum lm w file Hf Hrows). cbn. now rewrite app_nil_r. }
  assert (DictReader file <> []) as Hne by (rewrite Hrows; discriminate).
  rewrite <- Hrows in *.
  rewrite (main_trainers_ok es fsum lm w file _ Hf eq_refl Hne Hok).
  assert (subprocesses (after_writer
                          (Loop.output_fieldnames (map processed (DictReader file)))
                          (map processed (DictReader file))
                          (after_loop (DictReader file) w))
          = subprocesses w ++ launched (DictReader file)) as Hw.
  { destruct (after_writer_frame
                (Loop.output_fieldnames (map processed (DictReader file)))
                (map processed (DictReader file)) (after_loop (DictReader file) w))
      as (_ & _ & _ & ->).
    unfold after_loop. now rewrite after_trainers_subprocesses. }
  destruct (forallb _ (map processed (DictReader file))); [|exact Hw].
  destruct (regression_frame fsum lm (map processed (DictReader file))
              (add_console MsgWrote
                 (after_writer
                    (Loop.output_fieldnames (map processed (DictReader file)))
                    (map processed (DictReader file))
                    (after_loop (DictReader file) w)))) as (_ & _ & ->).
  exact Hw.
Qed.

(** X11: when every trainer a row names is launched (no NUL character in its
    name) and exits with status 0, [main] has launched, by its end, one
    subprocess for each row that names a trainer, in the order of the file,
    and none else: the stripped TrainerModule texts of the rows, the empty
    ones left out. *)
Theorem trainers_run_in_file_order :
  forall (es : string -> Z) (fsum : list float -> float) (lm : libm) (w : world)
         (file : list (list string)),
    PDE_csv w = Some file ->
    forallb (trainer_ok es) (DictReader file) = true ->
    subprocesses (snd (Loop.main es fsum lm w))
    = subprocesses w
      ++ filter (fun m => negb (String.eqb m ""))
           (map (fun r => match Loop.or_empty_strip
                                  (dict_get r (Some "TrainerModule") VNone) with
                          | Return m => m
                          | Raise _ => ""
                          end) (DictReader file)).
Proof.
  intros es fsum lm w file Hf Hok.
  rewrite (main_subprocesses_ok es fsum lm w file Hf Hok). f_equal.
  unfold launched. f_equal. apply map_ext_in. intros r Hr.
  pose proof (DictReader_csv file) as Hcsv. rewrite Forall_forall in Hcsv.
  now rewrite (module_of_csv_row r (Hcsv r Hr)).
Qed.

Lemma trainers_run_in_file_order_witness :
  forallb (trainer_ok all_succeed) (DictReader trainer_file) = true
  /\ subprocesses (snd (Loop.main all_succeed sum_plain exact_libm (world_of trainer_file)))
     = ["src.trainer.heat"; "src.trainer.wave"].
Proof.
  split; [reflexivity|].
  apply (trainers_run_in_file_order all_succeed sum_plain exact_libm (world_of trainer_file)
           trainer_file); reflexivity.
Defined.

(** ** Inputs without a TrainerModule column *)

Lemma dict_find_absent (d : dict) (k : key) :
  ~ In k (dict_keys d) -> dict_find d k = None.
Proof.
  intro H. destruct (dict_find d k) as [v|] eqn:E; [|reflexivity].
  apply dict_find_in_keys in E. contradiction.
Qed.

Lemma in_add_key (ks : list key) (k k' : key) :
  In k (add_key ks k') -> In k ks \/ k = k'.
Proof.
  unfold add_key. destruct (key_in k' ks); [now left|].
  intro H. apply in_app_or in H. destruct H as [H | [<- | []]]; [now left | now right].
Qed.

Lemma reader_row_named_keys (fieldnames row : list string) (k : string) :
  In (Some k) (dict_keys (reader_row fieldnames row)) -> In k fieldnames.
Proof.
  unfold reader_row.
  assert (forall l,
             In (Some k) (dict_keys (fold_left
                  (fun d kv => dict_set d (Some (fst kv)) (VStr (snd kv)))
                  (combine fieldnames l) [])) -> In k fieldnames) as Hcells.
  { intros l H. rewrite keys_fold_cells in H. apply in_fold_add_key in H.
    destruct H as [[] | H]. apply in_map_iff in H. destruct H as [x [[= ->] H]].
    apply in_map_iff in H. destruct H as [[a b] [<- H]].
    now apply in_combine_l in H. }
  destruct (_ <? _)%nat.
  - rewrite keys_add. intro H. apply in_add_key in H.
    destruct H as [H | H]; [now apply (Hcells row) | discriminate].
  - rewrite keys_fold_none. intro H. apply in_fold_add_key in H.
    destruct H as [H | H]; [now apply (Hcells row)|].
    apply in_map_iff in H. destruct H as [x [[= ->] H]].
    rewrite <- (firstn_skipn (List.length row) fieldnames).
    apply in_or_app. now right.
Qed.

Lemma no_column_no_trainer (fieldnames : list string) (lines : list (list string))
      (r : dict) :
  ~ In "TrainerModule" fieldnames -> In r (DictReader (fieldnames :: lines)) ->
  trainer_module r = "".
Proof.
  intros Hno Hr. cbn [DictReader] in Hr. apply in_map_iff in Hr.
  destruct Hr as [row [<- _]]. unfold trainer_module.
  rewrite dict_find_absent; [reflexivity|].
  intro H. now apply reader_row_named_keys in H.
Qed.

Lemma launched_none (rows : list dict) :
  (forall r, In r rows -> trainer_module r = "") -> launched rows = [].
Proof.
  unfold launched. induction rows as [|r rows IH]; intro H; [reflexivity|].
  cbn [map filter]. rewrite (H r) by now left. cbn.
  apply IH. intros r' Hr'. apply H. now right.
Qed.

(** X12: when the header has no TrainerModule column, [main] launches no
    subprocess, and the outcome of the run and everything it writes are the
    same whatever the trainers would do. *)
Theorem no_trainer_column_no_subprocess :
  forall (es es' : string -> Z) (fsum : list float -> float) (lm : libm) (w : world)
         (fieldnames : list string) (lines : list (list string)),
    PDE_csv w = Some (fieldnames :: lines) ->
    ~ In "TrainerModule" fieldnames ->
    subprocesses (snd (Loop.main es fsum lm w)) = subprocesses w
    /\ Loop.main es fsum lm w = Loop.main es' fsum lm w.
Proof.
  intros es es' fsum lm w fieldnames lines Hf Hno.
  assert (forall es0, forallb (trainer_ok es0) (DictReader (fieldnames :: lines)) = true)
    as Hok.
  { intro es0. apply forallb_forall. intros r Hr. unfold trainer_ok.
    now rewrite (no_column_no_trainer fieldnames lines r Hno Hr). }
  split.
  - rewrite (main_subprocesses_ok es fsum lm w _ Hf (Hok es)).
    rewrite launched_none; [apply app_nil_r|].
    intros r Hr. exact (no_column_no_trainer fieldnames lines r Hno Hr).
  - destruct (DictReader (fieldnames :: lines)) as [|r0 rest] eqn:Hrows.
    + now rewrite !(main_no_rows _ fsum lm w _ Hf Hrows).
    + assert (DictReader (fieldnames :: lines) <> []) as Hne
        by (rewrite Hrows; discriminate).
      rewrite <- Hrows in *.
      now rewrite !(main_trainers_ok _ fsum lm w _ _ Hf eq_refl Hne (Hok _)).
Qed.

Lemma no_trainer_column_no_subprocess_witness :
  ~ In "TrainerModule" (hd [] line_file)
  /\ Loop.main all_fail sum_plain exact_libm (world_of line_file)
     = Loop.main all_succeed sum_plain exact_libm (world_of line_file).
Proof.
  assert (~ In "TrainerModule" (hd [] line_file)) as Hno.
  { cbn. intros [H | [H | [H | []]]]; discriminate. }
  split; [exact Hno|].
  apply (no_trainer_column_no_subprocess all_fail all_succeed sum_plain exact_libm
           (world_of line_file) (hd [] line_file) (tl line_file) eq_refl Hno).
Defined.

(** ** A row longer than the header *)

Lemma add_key_has (ks : list key) (k : key) : In k (add_key ks k).
Proof.
  unfold add_key. destruct (key_in k ks) eqn:E; [now apply key_in_In|].
  apply in_or_app. right. now left.
Qed.

Lemma add_key_keeps (ks : list key) (k k' : key) : In k ks -> In k (add_key ks k').
Proof.
  intro H. unfold add_key. destruct (key_in k' ks); [assumption|].
  apply in_or_app. now left.
Qed.

Lemma long_row_surplus_key (fieldnames row : list string) :
  (List.length fieldnames < List.length row)%nat ->
  In None (dict_keys (reader_row fieldnames row)).
Proof.
  intro H. unfold reader_row. apply Nat.ltb_lt in H. rewrite H.
  rewrite keys_add. apply add_key_has.
Qed.

Lemma header_fieldnames_named (fieldnames : list string) :
  ~ In None (add_key (header_keys fieldnames) (Some "Total_Score")).
Proof.
  intro H. apply in_add_key in H. destruct H as [H | H]; [|discriminate].
  apply header_keys_incl, in_map_iff in H. destruct H as [x [H _]]. discriminate.
Qed.

Lemma written_app (fieldnames : list key) (a b : list dict) (x : dict) :
  forallb (fits fieldnames) a = true -> fits fieldnames x = false ->
  written fieldnames (a ++ x :: b) = a
  /\ forallb (fits fieldnames) (a ++ x :: b) = false.
Proof.
  intros Ha Hx. induction a as [|r a IH]; cbn [app written forallb].
  - now rewrite Hx.
  - cbn [forallb] in Ha. apply andb_prop in Ha. destruct Ha as [Hr Ha].
    rewrite Hr. destruct (IH Ha) as [-> ->]. now split.
Qed.

(** X13: when the first data row is no longer than the header but a later row is,
    and every trainer a row names is launched (no NUL character in its name)
    and exits with status 0, [main] ends with the [ValueError] of the writer:
    the results file then holds the header and the lines of the rows before
    the first long row, and no regression file is written. *)
Theorem long_row_truncates_results :
  forall (es : string -> Z) (fsum : list float -> float) (lm : libm) (w : world)
         (fieldnames : list string) (lines pre post : list (list string))
         (first long : list string),
    PDE_csv w = Some (fieldnames :: lines) ->
    filter (fun row => negb (is_blank row)) lines = (first :: pre) ++ long :: post ->
    Forall (fun row => (List.length row <= List.length fieldnames)%nat) (first :: pre) ->
    (List.length fieldnames < List.length long)%nat ->
    forallb (trainer_ok es) (DictReader (fieldnames :: lines)) = true ->
    let names := with_total_score (header_keys fieldnames) in
    fst (Loop.main es fsum lm w) = Raise ValueError
    /\ results_csv (snd (Loop.main es fsum lm w))
       = Some (header_line names
               :: map (fun row => row_line names (processed (reader_row fieldnames row)))
                    (first :: pre))
    /\ regression_txt (snd (Loop.main es fsum lm w)) = regression_txt w.
Proof.
  intros es fsum lm w fieldnames lines pre post first long Hf Hlines Hshort Hlong Hok names.
  assert (DictReader (fieldnames :: lines)
          = map (reader_row fieldnames) (first :: pre)
            ++ reader_row fieldnames long :: map (reader_row fieldnames) post) as Hrows.
  { cbn [DictReader]. rewrite Hlines. now rewrite map_app. }
  assert (DictReader (fieldnames :: lines) <> []) as Hne by (rewrite Hrows; discriminate).
  assert (Loop.output_fieldnames (map processed (DictReader (fieldnames :: lines)))
          = names) as Hnames.
  { rewrite Hrows.
    change (Loop.output_fieldnames
              (map processed
                 (reader_row fieldnames first
                  :: (map (reader_row fieldnames) pre
                      ++ reader_row fieldnames long :: map (reader_row fieldnames) post)))
            = names).
    rewrite output_fieldnames_processed.
    rewrite reader_row_keys by (now inversion Hshort). reflexivity. }
  assert (forallb (fits names)
            (map processed (map (reader_row fieldnames) (first :: pre))) = true) as Hfit.
  { apply forallb_forall. intros r' Hr'. apply in_map_iff in Hr'.
    destruct Hr' as [r [<- Hr]]. apply in_map_iff in Hr. destruct Hr as [row [<- Hrow]].
    rewrite Forall_forall in Hshort.
    unfold fits. rewrite processed_keys, (reader_row_keys _ _ (Hshort _ Hrow)).
    apply keys_fit_themselves. }
  assert (fits names (processed (reader_row fieldnames long)) = false) as Hbad.
  { destruct (fits names (processed (reader_row fieldnames long))) eqn:E; [|reflexivity].
    unfold fits in E. rewrite forallb_forall in E.
    assert (In None (dict_keys (processed (reader_row fieldnames long)))) as Hin
      by (rewrite processed_keys; apply add_key_keeps; now apply long_row_surplus_key).
    apply E, key_in_In in Hin. now apply header_fieldnames_named in Hin. }
  assert (map processed (DictReader (fieldnames :: lines))
          = map processed (map (reader_row fieldnames) (first :: pre))
            ++ processed (reader_row fieldnames long)
               :: map processed (map (reader_row fieldnames) post)) as Hproc
    by (rewrite Hrows; now rewrite map_app).
  destruct (written_app names _ (map processed (map (reader_row fieldnames) post))
              _ Hfit Hbad) as [Hw Hall].
  rewrite (main_trainers_ok es fsum lm w _ _ Hf eq_refl Hne Hok).
  rewrite Hnames, Hproc, Hall. cbn [fst snd].
  split; [reflexivity|]. split.
  - rewrite after_writer_results, Hw. now rewrite map_map, map_map.
  - destruct (after_writer_frame names
                (map processed (map (reader_row fieldnames) (first :: pre))
                 ++ processed (reader_row fieldnames long)
                    :: map processed (map (reader_row fieldnames) post))
                (after_loop (DictReader (fieldnames :: lines)) w)) as (_ & -> & _).
    apply (after_loop_files (DictReader (fieldnames :: lines)) w).
Qed.

Lemma long_row_truncates_results_witness :
  (List.length ["Name"; "Dimensionality"] < List.length ["wave"; "2"; "extra"])%nat
  /\ fst (Loop.main all_succeed sum_plain exact_libm (world_of long_row_file)) = Raise ValueError.
Proof.
  split; [repeat constructor|].
  apply (long_row_truncates_results all_succeed sum_plain exact_libm (world_of long_row_file)
           ["Name"; "Dimensionality"] (tl long_row_file) [] []
           ["heat"; "1"] ["wave"; "2"; "extra"]).
  - reflexivity.
  - reflexivity.
  - repeat constructor.
  - repeat constructor.
  - reflexivity.
Defined.

(** ** The two scripts side by side *)

Lemma fold_add_key_nodup (l : list string) (acc : list key) :
  NoDup l -> (forall x, In x l -> ~ In (Some x) acc) ->
  fold_left add_key (map (@Some string) l) acc = acc ++ map (@Some string) l.
Proof.
  revert acc. induction l as [|a l IH]; intros acc Hnd Hacc; cbn [map fold_left].
  - now rewrite app_nil_r.
  - inversion Hnd as [|? ? Ha Hl]; subst.
    assert (add_key acc (Some a) = acc ++ [Some a]) as ->.
    { unfold add_key. destruct (key_in (Some a) acc) eqn:E; [|reflexivity].
      apply key_in_In in E. now apply Hacc in E; [|left]. }
    rewrite IH; [now rewrite <- app_assoc | assumption |].
    intros x Hx Hin. apply in_app_or in Hin. destruct Hin as [Hin | [[= ->] | []]].
    + apply (Hacc x); [now right | assumption].
    + contradiction.
Qed.

Lemma header_keys_nodup (fieldnames : list string) :
  NoDup fieldnames -> header_keys fieldnames = map (@Some string) fieldnames.
Proof.
  intro H. unfold header_keys. now rewrite fold_add_key_nodup.
Qed.

Lemma processed_without_error (r : dict) :
  csv_row r -> Loop.get_error_for_row r = Return None -> processed r = scored r.
Proof.
  intros Hr He. unfold Loop.get_error_for_row in He.
  rewrite (error_of_csv_row _ Hr) in He. injection He as He.
  unfold processed. now rewrite He.
Qed.

(** X14: on an input with at least one data row, whose column names are
    distinct, whose rows are no longer than the header and none of which has
    a number for L3_Error, [loop.py], when every trainer a row names is
    launched (no NUL character in its name) and exits with status 0, and
    [scorer.py] write the same results file. *)
Theorem loop_and_scorer_write_the_same :
  forall (es : string -> Z) (fsum : list float -> float) (lm : libm) (w : world)
         (file : list (list string)) (fieldnames : list string),
    PDE_csv w = Some file -> reader_fieldnames file = Some fieldnames ->
    NoDup fieldnames -> no_long_row file -> DictReader file <> [] ->
    forallb (trainer_ok es) (DictReader file) = true ->
    Forall (fun r => Loop.get_error_for_row r = Return None) (DictReader file) ->
    results_csv (snd (Loop.main es fsum lm w)) = results_csv (snd (Scorer.main w)).
Proof.
  intros es fsum lm w file fieldnames Hf Hn Hnd Hlen Hne Hok Herr.
  rewrite (main_results es fsum lm w file _ Hf eq_refl Hne Hok).
  rewrite (written_all _ _ (processed_rows_fit file Hlen)).
  rewrite (scorer_main_results w file fieldnames Hf Hn Hlen).
  cbn [snd results_csv add_console].
  rewrite (add_lines_results _ [header_line (with_total_score (map (@Some string) fieldnames))])
    by reflexivity.
  assert (Loop.output_fieldnames (map processed (DictReader file))
          = with_total_score (map (@Some string) fieldnames)) as ->.
  { destruct (DictReader file) as [|r0 rest] eqn:E; [contradiction|].
    rewrite output_fieldnames_processed.
    assert (In r0 (DictReader file)) as H0 by (rewrite E; now left).
    destruct (DictReader_keys file r0 Hlen H0) as [names [Hn' ->]].
    assert (names = fieldnames) as -> by congruence.
    now rewrite (header_keys_nodup _ Hnd). }
  cbn [app]. do 3 f_equal. apply map_ext_in. intros r Hr.
  pose proof (DictReader_csv file) as Hcsv. rewrite Forall_forall in Hcsv, Herr.
  now apply processed_without_error; [apply Hcsv | apply Herr].
Qed.

Lemma loop_and_scorer_write_the_same_witness :
  NoDup (hd [] trainer_file)
  /\ results_csv (snd (Loop.main all_succeed sum_plain exact_libm (world_of trainer_file)))
     = results_csv (snd (Scorer.main (world_of trainer_file))).
Proof.
  assert (NoDup (hd [] trainer_file)) as Hnd.
  { cbn. repeat constructor; cbn; intuition discriminate. }
  split; [exact Hnd|].
  apply (loop_and_scorer_write_the_same all_succeed sum_plain exact_libm (world_of trainer_file)
           trainer_file (hd [] trainer_file)).
  - reflexivity.
  - reflexivity.
  - exact Hnd.
  - repeat constructor.
  - discriminate.
  - reflexivity.
  - repeat constructor.
Defined.

(** X15: on an input without data rows the two scripts part: [loop.py] exits with
    status 0 and leaves the results file as it was, [scorer.py] returns and
    writes a results file that holds the header alone, Total_Score appended
    (Total_Score alone when the input is empty). *)
Theorem input_without_data_rows :
  forall (es : string -> Z) (fsum : list float -> float) (lm : libm) (w : world)
         (file : list (list string)),
    PDE_csv w = Some file -> DictReader file = [] ->
    (exit_code (fst (Loop.main es fsum lm w)) = 0%Z
     /\ results_csv (snd (Loop.main es fsum lm w)) = results_csv w)
    /\ (fst (Scorer.main w) = Return tt
        /\ results_csv (snd (Scorer.main w))
           = Some [header_line
                     (with_total_score
                        match reader_fieldnames file with
                        | Some names => map (@Some string) names
                        | None => []
                        end)]).
Proof.
  intros es fsum lm w file Hf Hrows. split.
  - now rewrite (main_no_rows es fsum lm w file Hf Hrows).
  - unfold Scorer.main. rewrite Hf, Hrows. split; reflexivity.
Qed.

Lemma input_without_data_rows_witness :
  DictReader [["Name"; "Dimensionality"]] = []
  /\ results_csv (snd (Scorer.main (world_of [["Name"; "Dimensionality"]])))
     = Some [[Text "Name"; Text "Dimensionality"; Text "Total_Score"]]
  /\ results_csv (snd (Loop.main all_succeed sum_plain exact_libm
                         (world_of [["Name"; "Dimensionality"]]))) = None.
Proof.
  split; [reflexivity|].
  destruct (input_without_data_rows all_succeed sum_plain exact_libm
              (world_of [["Name"; "Dimensionality"]]) [["Name"; "Dimensionality"]]
              eq_refl eq_refl) as [[_ H1] [_ H2]].
  split; [exact H2 | exact H1].
Defined.

(** ** What the regression file states *)

Lemma points_length (rows : list dict) (acc : list float * list float) :
  Forall csv_row rows ->
  List.length (fst (fold_left add_point rows acc))
  = (List.length (fst acc) + List.length (filter usable rows))%nat.
Proof.
  intro Hcsv. revert acc.
  induction Hcsv as [|r rows Hr Hrows IH]; intro acc; cbn [fold_left filter].
  - simpl. lia.
  - rewrite IH. unfold add_point, usable, Loop.get_error_for_row.
    rewrite (error_of_csv_row _ Hr).
    destruct (known_error r) as [e|]; [|reflexivity].
    destruct (is_nan e); cbn [negb fst]; [reflexivity|].
    rewrite length_app. simpl. lia.
Qed.

(** X16: when [main] gets to the regression, that is when the input has data
    rows, every trainer a row names is launched (no NUL character in its
    name) and exits with status 0, and the writer takes every row, and the
    fitter then returns a line, [main] returns and the regression file states
    that line, and the number of points it states is the number of rows whose
    L3_Error is a number other than NaN. *)
Theorem regression_file_counts_usable_rows :
  forall (es : string -> Z) (fsum : list float -> float) (lm : libm) (w : world)
         (file : list (list string)) (a b : float),
    PDE_csv w = Some file -> DictReader file <> [] ->
    forallb (trainer_ok es) (DictReader file) = true ->
    forallb (fits (Loop.output_fieldnames (map processed (DictReader file))))
            (map processed (DictReader file)) = true ->
    Loop.linear_regression fsum lm (fst (points (DictReader file)))
                           (snd (points (DictReader file)))
    = Return (Some a, Some b) ->
    fst (Loop.main es fsum lm w) = Return tt
    /\ regression_txt (snd (Loop.main es fsum lm w))
       = Some {| slope := a; intercept := b;
                 used_points := List.length (filter usable (DictReader file)) |}.
Proof.
  intros es fsum lm w file a b Hf Hne Hok Hfits Hfit.
  rewrite (main_trainers_ok es fsum lm w file _ Hf eq_refl Hne Hok).
  rewrite Hfits.
  assert (Loop.regression_points (map processed (DictReader file))
          = Return (fst (points (DictReader file)), snd (points (DictReader file)))) as Hp.
  { rewrite (regression_points_processed _ (DictReader_csv file)).
    now destruct (points (DictReader file)). }
  rewrite (regression_defined fsum lm _ _ _ _ _ _ Hp Hfit). cbn [fst snd].
  split; [reflexivity|]. cbn [regression_txt add_console set_regression].
  unfold points. now rewrite (points_length _ _ (DictReader_csv file)).
Qed.

Lemma regression_file_counts_usable_rows_witness :
  Loop.linear_regression sum_plain exact_libm (fst (points (DictReader line_file)))
                         (snd (points (DictReader line_file)))
  = Return (Some 2%float, Some 0%float)
  /\ List.length (filter usable (DictReader line_file)) = 3
  /\ fst (Loop.main all_succeed sum_plain exact_libm (world_of line_file)) = Return tt
  /\ regression_txt (snd (Loop.main all_succeed sum_plain exact_libm (world_of line_file)))
     = Some {| slope := 2%float; intercept := 0%float; used_points := 3 |}.
Proof.
  split; [vm_compute; reflexivity|]. split; [vm_compute; reflexivity|].
  apply (regression_file_counts_usable_rows all_succeed sum_plain exact_libm
           (world_of line_file) line_file 2%float 0%float).
  - reflexivity.
  - discriminate.
  - reflexivity.
  - vm_compute. reflexivity.
  - vm_compute. reflexivity.
Defined.

(** ** The computed cells of the results file *)

Lemma written_cell (es : string -> Z) (fsum : list float -> float) (lm : libm) (w : world)
      (file : list (list string)) (i : nat) (r : dict)
      (header line : list cell) (lines : list (list cell)) (k : string) (v : value) :
  PDE_csv w = Some file ->
  forallb (trainer_ok es) (DictReader file) = true ->
  nth_error (DictReader file) i = Some r ->
  results_csv (snd (Loop.main es fsum lm w)) = Some (header :: lines) ->
  nth_error lines i = Some line ->
  dict_find (processed r) (Some k) = Some v ->
  exists j, nth_error header j = Some (Text k)
            /\ nth_error line j = Some (csv_field v).
Proof.
  intros Hf Hok Hi Hres Hline Hv.
  assert (DictReader file <> []) as Hne.
  { intro E. rewrite E in Hi. destruct i; discriminate. }
  rewrite (main_results es fsum lm w file _ Hf eq_refl Hne Hok) in Hres.
  injection Hres as <- <-.
  set (fieldnames := Loop.output_fieldnames (map processed (DictReader file))) in *.
  rewrite nth_error_map in Hline.
  destruct (nth_error (written fieldnames (map processed (DictReader file))) i)
    as [r'|] eqn:Hw; [|discriminate].
  injection Hline as <-.
  apply written_nth in Hw. destruct Hw as [Hr' Hfit].
  rewrite (nth_error_map_some processed _ _ _ Hi) in Hr'. injection Hr' as <-.
  destruct (fits_key _ _ _ _ Hfit Hv) as [j Hj].
  exists j. split.
  - unfold header_line. now rewrite (nth_error_map_some _ _ _ _ Hj).
  - unfold row_line. rewrite (nth_error_map_some _ _ _ _ Hj).
    unfold dict_get. now rewrite Hv.
Qed.

(** X17: in every line [main] writes, the cell under Total_Score is the score
    computed for the record of that line, whatever the input had in a column
    of that name. *)
Theorem score_cell_is_the_computed_score :
  forall (es : string -> Z) (fsum : list float -> float) (lm : libm) (w : world)
         (file : list (list string)) (i : nat) (r : dict)
         (header line : list cell) (lines : list (list cell)),
    PDE_csv w = Some file ->
    forallb (trainer_ok es) (DictReader file) = true ->
    nth_error (DictReader file) i = Some r ->
    results_csv (snd (Loop.main es fsum lm w)) = Some (header :: lines) ->
    nth_error lines i = Some line ->
    exists j score,
      Loop.compute_total_score r = Return score
      /\ nth_error header j = Some (Text "Total_Score")
      /\ nth_error line j = Some (StrOf (VFloat score)).
Proof.
  intros es fsum lm w file i r header line lines Hf Hok Hi Hres Hline.
  destruct (written_cell es fsum lm w file i r header line lines "Total_Score"
              (VFloat (total_score r)) Hf Hok Hi Hres Hline (processed_score r))
    as [j [H1 H2]].
  exists j, (total_score r). split; [|now split].
  apply loop_score_csv.
  pose proof (DictReader_csv file) as Hcsv. rewrite Forall_forall in Hcsv.
  apply Hcsv. eapply nth_error_In. exact Hi.
Qed.

Lemma score_cell_is_the_computed_score_witness :
  nth_error (DictReader rescored_file) 0
  = Some (reader_row (hd [] rescored_file) ["heat"; "99"; "2"])
  /\ exists j score,
      Loop.compute_total_score (reader_row (hd [] rescored_file) ["heat"; "99"; "2"])
      = Return score
      /\ nth_error [Text "Name"; Text "Total_Score"; Text "Dimensionality"] j
         = Some (Text "Total_Score")
      /\ nth_error [Text "heat"; StrOf (VFloat 2); Text "2"] j
         = Some (StrOf (VFloat score)).
Proof.
  split; [reflexivity|].
  apply (score_cell_is_the_computed_score all_succeed sum_plain exact_libm
           (world_of rescored_file) rescored_file 0
           (reader_row (hd [] rescored_file) ["heat"; "99"; "2"])
           [Text "Name"; Text "Total_Score"; Text "Dimensionality"]
           [Text "heat"; StrOf (VFloat 2); Text "2"]
           [[Text "heat"; StrOf (VFloat 2); Text "2"]]);
    reflexivity.
Defined.

(** X18: in every line [main] writes for a record whose L3_Error is a number, the
    cell under L3_Error is that number (written as Python writes a float), no
    longer the text that was read. *)
Theorem error_cell_is_the_parsed_number :
  forall (es : string -> Z) (fsum : list float -> float) (lm : libm) (w : world)
         (file : list (list string)) (i : nat) (r : dict) (e : float)
         (header line : list cell) (lines : list (list cell)),
    PDE_csv w = Some file ->
    forallb (trainer_ok es) (DictReader file) = true ->
    nth_error (DictReader file) i = Some r ->
    Loop.get_error_for_row r = Return (Some e) ->
    results_csv (snd (Loop.main es fsum lm w)) = Some (header :: lines) ->
    nth_error lines i = Some line ->
    exists j,
      nth_error header j = Some (Text "L3_Error")
      /\ nth_error line j = Some (StrOf (VFloat e)).
Proof.
  intros es fsum lm w file i r e header line lines Hf Hok Hi He Hres Hline.
  apply (written_cell es fsum lm w file i r header line lines "L3_Error" (VFloat e)
           Hf Hok Hi Hres Hline).
  assert (csv_row r) as Hcsv.
  { pose proof (DictReader_csv file) as Hall. rewrite Forall_forall in Hall.
    apply Hall. eapply nth_error_In. exact Hi. }
  unfold Loop.get_error_for_row in He. rewrite (error_of_csv_row _ Hcsv) in He.
  injection He as He. unfold processed. rewrite He. apply dict_find_set_same.
Qed.

Lemma error_cell_is_the_parsed_number_witness :
  Loop.get_error_for_row (reader_row (hd [] line_file) ["wave"; "2"; "4"])
  = Return (Some 4%float)
  /\ exists j,
      nth_error [Text "Name"; Text "Dimensionality"; Text "L3_Error"; Text "Total_Score"] j
      = Some (Text "L3_Error")
      /\ nth_error [Text "wave"; Text "2"; StrOf (VFloat 4); StrOf (VFloat 2)] j
         = Some (StrOf (VFloat 4)).
Proof.
  split; [vm_compute; reflexivity|].
  apply (error_cell_is_the_parsed_number all_succeed sum_plain exact_libm (world_of line_file)
           line_file 1 (reader_row (hd [] line_file) ["wave"; "2"; "4"]) 4%float
           [Text "Name"; Text "Dimensionality"; Text "L3_Error"; Text "Total_Score"]
           [Text "wave"; Text "2"; StrOf (VFloat 4); StrOf (VFloat 2)]
           [[Text "heat"; Text "1"; StrOf (VFloat 2); StrOf (VFloat 1)];
            [Text "wave"; Text "2"; StrOf (VFloat 4); StrOf (VFloat 2)];
            [Text "burgers"; Text "3"; StrOf (VFloat 6); StrOf (VFloat 3)]]);
    vm_compute; reflexivity.
Defined.

(** ** The error collector *)

(** X19: the error collector never raises on a row without an L3_Error, with an
    absent cell or with a text there: it returns nothing for the first two,
    and for a text what [float] makes of it, which is nothing for the empty
    text and for a text that is not a number. *)
Theorem error_collector_contract :
  forall (row : dict),
    (dict_find row (Some "L3_Error") = None -> Loop.get_error_for_row row = Return None)
    /\ (dict_find row (Some "L3_Error") = Some VNone ->
        Loop.get_error_for_row row = Return None)
    /\ (forall s, dict_find row (Some "L3_Error") = Some (VStr s) ->
                  Loop.get_error_for_row row = Return (float_of_string s)).
Proof.
  intro row. unfold Loop.get_error_for_row, dict_get.
  split; [now intros ->|]. split; [now intros ->|].
  intros s ->. unfold Loop.parse_float. simpl.
  destruct (String.eqb s "") eqn:E.
  - apply String.eqb_eq in E. now subst.
  - now destruct (float_of_string s).
Qed.

Lemma error_collector_contract_witness :
  dict_find (text_row [("L3_Error", " 1e-3 ")]) (Some "L3_Error") = Some (VStr " 1e-3 ")
  /\ Loop.get_error_for_row (text_row [("L3_Error", " 1e-3 ")])
     = Return (float_of_string " 1e-3 ").
Proof.
  split; [reflexivity|].
  apply (proj2 (proj2 (error_collector_contract (text_row [("L3_Error", " 1e-3 ")])))).
  reflexivity.
Defined.

(** ** Long rows in [scorer.py], and a long first row in [loop.py] *)

Lemma score_and_write_partial (fieldnames : list key) (rows : list dict) (w : world) :
  Forall csv_row rows ->
  Scorer.score_and_write fieldnames rows w
  = (if forallb (fits fieldnames) (map scored rows) then Return tt else Raise ValueError,
     add_lines (map (row_line fieldnames) (written fieldnames (map scored rows))) w).
Proof.
  intro Hcsv. revert w.
  induction Hcsv as [|r rows Hr Hrows IH]; intro w; [reflexivity|].
  cbn [Scorer.score_and_write map forallb written]. unfold bind at 1, lift.
  rewrite (scorer_score_csv r Hr). fold (scored r).
  unfold bind at 1, writerow, dict_to_list. fold (fits fieldnames (scored r)).
  destruct (fits fieldnames (scored r)); [|reflexivity].
  rewrite IH. cbn [andb map add_lines fold_left]. now rewrite row_line_fields.
Qed.

Lemma scored_short_row_fits (fieldnames row : list string) :
  (List.length row <= List.length fieldnames)%nat ->
  fits (with_total_score (map (@Some string) fieldnames))
       (scored (reader_row fieldnames row)) = true.
Proof.
  intro H. unfold fits. rewrite scored_keys, (reader_row_keys _ _ H).
  apply forallb_forall. intros k Hin. apply key_in_In.
  apply in_add_key in Hin. destruct Hin as [Hin | ->].
  - now apply with_total_score_incl, header_keys_incl.
  - apply with_total_score_has.
Qed.

Lemma scored_long_row_misfits (fieldnames row : list string) :
  (List.length fieldnames < List.length row)%nat ->
  fits (with_total_score (map (@Some string) fieldnames))
       (scored (reader_row fieldnames row)) = false.
Proof.
  intro H.
  destruct (fits _ (scored (reader_row fieldnames row))) eqn:E; [|reflexivity].
  unfold fits in E. rewrite forallb_forall in E.
  assert (In None (dict_keys (scored (reader_row fieldnames row)))) as Hin
    by (rewrite scored_keys; apply add_key_keeps; now apply long_row_surplus_key).
  apply E, key_in_In in Hin.
  change (with_total_score (map (@Some string) fieldnames))
    with (add_key (map (@Some string) fieldnames) (Some "Total_Score")) in Hin.
  apply in_add_key in Hin. destruct Hin as [Hin | Hin]; [|discriminate].
  apply in_map_iff in Hin. destruct Hin as [x [Hx _]]. discriminate.
Qed.

Lemma scorer_main_partial (w : world) (file : list (list string)) (names : list string) :
  PDE_csv w = Some file -> reader_fieldnames file = Some names ->
  let fieldnames := with_total_score (map (@Some string) names) in
  let w' := add_lines
              (map (row_line fieldnames)
                 (written fieldnames (map scored (DictReader file))))
              (append_line (header_line fieldnames) (set_results (Some []) w)) in
  Scorer.main w =
  if forallb (fits fieldnames) (map scored (DictReader file))
  then (Return tt, add_console (MsgScored (List.length (DictReader file))) w')
  else (Raise ValueError, w').
Proof.
  intros H Hn fieldnames w'. unfold Scorer.main. rewrite H, Hn.
  fold (with_total_score (map (@Some string) names)). fold fieldnames.
  unfold bind at 1, open_results. unfold bind at 1, writeheader.
  unfold bind at 1.
  rewrite (score_and_write_partial fieldnames _ _ (DictReader_csv file)).
  fold (header_line fieldnames). fold w'.
  now destruct (forallb (fits fieldnames) (map scored (DictReader file))).
Qed.

(** X20: [scorer.py] takes its columns from the header, so it fails at the first
    row that is longer than the header, be it the first data row: it raises
    [ValueError], and the results file holds the header and the lines of the
    rows before that row. *)
Theorem scorer_stops_at_first_long_row :
  forall (w : world) (fieldnames : list string)
         (lines pre post : list (list string)) (long : list string),
    PDE_csv w = Some (fieldnames :: lines) ->
    filter (fun row => negb (is_blank row)) lines = pre ++ long :: post ->
    Forall (fun row => (List.length row <= List.length fieldnames)%nat) pre ->
    (List.length fieldnames < List.length long)%nat ->
    let names := with_total_score (map (@Some string) fieldnames) in
    fst (Scorer.main w) = Raise ValueError
    /\ results_csv (snd (Scorer.main w))
       = Some (header_line names
               :: map (fun row => row_line names (scored (reader_row fieldnames row))) pre).
Proof.
  intros w fieldnames lines pre post long Hf Hlines Hshort Hlong names.
  assert (forallb (fits names) (map scored (map (reader_row fieldnames) pre)) = true)
    as Hfit.
  { apply forallb_forall. intros r' Hr'. apply in_map_iff in Hr'.
    destruct Hr' as [r [<- Hr]]. apply in_map_iff in Hr. destruct Hr as [row [<- Hrow]].
    rewrite Forall_forall in Hshort. now apply scored_short_row_fits, Hshort. }
  destruct (written_app names _ (map scored (map (reader_row fieldnames) post)) _
              Hfit (scored_long_row_misfits fieldnames long Hlong)) as [Hw Hall].
  rewrite (scorer_main_partial w (fieldnames :: lines) fieldnames Hf eq_refl).
  fold names. cbn [DictReader]. rewrite Hlines, !map_app. cbn [map].
  rewrite Hall, Hw. cbn [fst snd].
  split; [reflexivity|].
  rewrite (add_lines_results _ [header_line names]) by reflexivity.
  cbn [app]. now rewrite !map_map.
Qed.

Lemma scorer_stops_at_first_long_row_witness :
  (List.length ["Name"; "Dimensionality"] < List.length ["wave"; "2"; "extra"])%nat
  /\ fst (Scorer.main (world_of long_row_file)) = Raise ValueError.
Proof.
  split; [repeat constructor|].
  apply (scorer_stops_at_first_long_row (world_of long_row_file)
           ["Name"; "Dimensionality"] (tl long_row_file) [["heat"; "1"]] []
           ["wave"; "2"; "extra"]).
  - reflexivity.
  - reflexivity.
  - repeat constructor.
  - repeat constructor.
Defined.

Lemma combine_fst_all {A B : Type} (l : list A) (l' : list B) :
  (List.length l <= List.length l')%nat -> map fst (combine l l') = l.
Proof.
  revert l'. induction l as [|a l IH]; intros [|b l'] H; simpl in *;
    try reflexivity; try lia.
  f_equal. apply IH. lia.
Qed.

Lemma fold_add_key_has (l acc : list key) (k : key) :
  In k acc \/ In k l -> In k (fold_left add_key l acc).
Proof.
  revert acc. induction l as [|k0 l IH]; intros acc [H | H]; cbn [fold_left];
    try assumption; try contradiction.
  - apply IH. left. now apply add_key_keeps.
  - apply IH. destruct H as [-> | H]; [left; apply add_key_has | now right].
Qed.

Lemma long_row_keys (fieldnames row : list string) :
  (List.length fieldnames < List.length row)%nat ->
  dict_keys (reader_row fieldnames row) = header_keys fieldnames ++ [None].
Proof.
  intro H. unfold reader_row.
  assert ((List.length fieldnames <? List.length row)%nat = true) as ->
    by now apply Nat.ltb_lt.
  rewrite keys_add, keys_fold_cells, combine_fst_all by lia.
  change (add_key (header_keys fieldnames) None = header_keys fieldnames ++ [None]).
  unfold add_key.
  destruct (key_in None (header_keys fieldnames)) eqn:E; [|reflexivity].
  apply key_in_In, header_keys_incl, in_map_iff in E.
  destruct E as [x [E _]]. discriminate.
Qed.

Lemma any_row_keys (fieldnames row : list string) (k : key) :
  In k (dict_keys (reader_row fieldnames row)) ->
  In k (header_keys fieldnames ++ [None]).
Proof.
  intro H. apply in_or_app. destruct k as [s|]; [left | right; now left].
  apply reader_row_named_keys in H. unfold header_keys.
  apply fold_add_key_has. right. now apply in_map.
Qed.

(** X21: [loop.py] takes its columns from the first record, so when the first
    data row is longer than the header, and every trainer a row names is
    launched (no NUL character in its name) and exits with status 0, the
    writer raises no error: the header of the results file gets one more
    column, with an empty name, every row is written, long or not, and
    [main] goes on to the regression, to return or to end with the
    [OverflowError] of the fitter. *)
Theorem long_first_row_is_accepted :
  forall (es : string -> Z) (fsum : list float -> float) (lm : libm) (w : world)
         (fieldnames : list string) (lines rest : list (list string))
         (first : list string),
    PDE_csv w = Some (fieldnames :: lines) ->
    filter (fun row => negb (is_blank row)) lines = first :: rest ->
    (List.length fieldnames < List.length first)%nat ->
    forallb (trainer_ok es) (DictReader (fieldnames :: lines)) = true ->
    let names := with_total_score (header_keys fieldnames ++ [None]) in
    results_csv (snd (Loop.main es fsum lm w))
    = Some (header_line names
            :: map (fun row => row_line names (processed (reader_row fieldnames row)))
                 (first :: rest))
    /\ header_line names
       = header_line (header_keys fieldnames)
         ++ Text "" :: (if key_in (Some "Total_Score") (header_keys fieldnames)
                        then [] else [Text "Total_Score"])
    /\ (fst (Loop.main es fsum lm w) = Return tt
        \/ fst (Loop.main es fsum lm w) = Raise OverflowError).
Proof.
  intros es fsum lm w fieldnames lines rest first Hf Hlines Hlong Hok names.
  assert (DictReader (fieldnames :: lines)
          = map (reader_row fieldnames) (first :: rest)) as Hrows
    by (cbn [DictReader]; now rewrite Hlines).
  assert (DictReader (fieldnames :: lines) <> []) as Hne by (rewrite Hrows; discriminate).
  assert (Loop.output_fieldnames (map processed (DictReader (fieldnames :: lines)))
          = names) as Hnames.
  { rewrite Hrows.
    change (Loop.output_fieldnames
              (map processed
                 (reader_row fieldnames first :: map (reader_row fieldnames) rest))
            = names).
    rewrite output_fieldnames_processed. now rewrite long_row_keys. }
  assert (forallb (fits names) (map processed (DictReader (fieldnames :: lines))) = true)
    as Hfit.
  { apply forallb_forall. intros r' Hr'. apply in_map_iff in Hr'.
    destruct Hr' as [r [<- Hr]]. rewrite Hrows in Hr. apply in_map_iff in Hr.
    destruct Hr as [row [<- _]].
    unfold fits. rewrite processed_keys. apply forallb_forall. intros k Hk.
    apply key_in_In. apply in_add_key in Hk. destruct Hk as [Hk | ->].
    - apply with_total_score_incl. now apply any_row_keys in Hk.
    - apply with_total_score_has. }
  split; [|split].
  - rewrite (main_results es fsum lm w _ _ Hf eq_refl Hne Hok).
    rewrite Hnames, (written_all _ _ Hfit), Hrows. now rewrite map_map, map_map.
  - unfold names, with_total_score, header_line.
    assert (key_in (Some "Total_Score") (header_keys fieldnames ++ [None])
            = key_in (Some "Total_Score") (header_keys fieldnames)) as ->.
    { unfold key_in. rewrite existsb_app. cbn. now rewrite !orb_false_r. }
    destruct (key_in (Some "Total_Score") (header_keys fieldnames)).
    + now rewrite map_app.
    + rewrite !map_app. cbn. now rewrite <- app_assoc.
  - rewrite (main_trainers_ok es fsum lm w _ _ Hf eq_refl Hne Hok).
    rewrite Hnames, Hfit.
    destruct (regression_of_read_rows fsum lm (fieldnames :: lines)
                (add_console MsgWrote
                   (after_writer names
                      (map processed (DictReader (fieldnames :: lines)))
                      (after_loop (DictReader (fieldnames :: lines)) w))))
      as [[Hr _] | [Hr _]].
    + left. exact Hr.
    + right. now rewrite Hr.
Qed.

Lemma long_first_row_is_accepted_witness :
  (List.length ["Name"; "Dimensionality"] < List.length ["heat"; "1"; "extra"])%nat
  /\ results_csv (snd (Loop.main all_succeed sum_plain exact_libm (world_of long_first_file)))
     = Some [[Text "Name"; Text "Dimensionality"; Text ""; Text "Total_Score"];
             [Text "heat"; Text "1"; StrOf (VList ["extra"]); StrOf (VFloat 1)];
             [Text "wave"; Text "2"; Text ""; StrOf (VFloat 2)]]
  /\ fst (Loop.main all_succeed sum_plain exact_libm (world_of long_first_file))
     = Return tt.
Proof.
  split; [repeat constructor|].
  destruct (long_first_row_is_accepted all_succeed sum_plain exact_libm
              (world_of long_first_file)
              ["Name"; "Dimensionality"] (tl long_first_file) [["wave"; "2"]]
              ["heat"; "1"; "extra"]) as (H1 & _ & H2);
    [reflexivity | reflexivity | repeat constructor | reflexivity |].
  split; [exact H1|].
  destruct H2 as [H2 | H2]; [exact H2 | discriminate H2].
Defined.
